(** * URL shortener: a shallow embedding of the Go services and their properties

    The development follows the packages of the repository:
    - [GoStrings], [NetURL], [Fmt]: the parts of the Go standard library that
      the services call (strings, unicode, unicode/utf8, net/url, fmt), over
      byte strings;
    - [Base62]: the short-code encoder of the URL service;
    - [Models], [Repository]: the records, the PostgreSQL tables and sequence
      of the migrations, and the Redis cache, as an explicit [World];
    - [Services], [Analytics], [Handlers]: the URL service, the analytics
      queue and worker, the middleware and the HTTP handlers;
    - [Gin], [Main]: the router as [main] assembles it.

    Stateful code is written in state-passing style over [World]; a call that
    can fail takes the error injected by the environment as an argument.

    Four things that belong to a library or to the database server are not
    written out and enter as parameters, over which the statements are
    general: net.ParseIP, the Unicode case mapping behind strings.ToLower
    (class [Unicode]), the input function of PostgreSQL's type INET, and the
    trailing-slash recommendation of gin's route tree. *)

From Stdlib Require Import ZArith String Ascii List Lia DecimalString DecimalPos.
From stdpp Require Import base gmap strings list.
Import ListNotations.
Local Open Scope string_scope.
Local Open Scope list_scope.
Local Open Scope Z_scope.

(** Packages strings, unicode and unicode/utf8. A Go string is a sequence of
    bytes, here a [string] of [ascii]; a rune is a code point, here a [Z].
    The case tables of package unicode are not written out: what
    strings.ToLower does to a string that is not pure ASCII is the method of
    the class [Unicode]. *)
Module GoStrings.

Definition byte_code (c : ascii) : Z := Z.of_N (N_of_ascii c).

Definition byte_between (lo hi c : ascii) : bool :=
  (byte_code lo <=? byte_code c) && (byte_code c <=? byte_code hi).

Definition len (s : string) : Z := Z.of_nat (String.length s).

(* s[n:] *)
Definition slice_from (n : nat) (s : string) : string :=
  String.substring n (String.length s - n) s.

(* s[:n] *)
Definition slice_to (n : nat) (s : string) : string := String.substring 0 n s.

Definition HasPrefix (s prefix : string) : bool := String.prefix prefix s.

Definition HasSuffix (s suffix : string) : bool :=
  (String.length suffix <=? String.length s)%nat
  && String.eqb (slice_from (String.length s - String.length suffix) s) suffix.

Definition TrimSuffix (s suffix : string) : string :=
  if HasSuffix s suffix
  then slice_to (String.length s - String.length suffix) s
  else s.

Definition Index (s substr : string) : option nat := String.index 0 substr s.

Definition Contains (s substr : string) : bool :=
  match Index s substr with Some _ => true | None => false end.

Fixpoint CountByte (s : string) (c : ascii) : nat :=
  match s with
  | EmptyString => O
  | String a s' => ((if Ascii.eqb a c then 1 else 0) + CountByte s' c)%nat
  end.

Fixpoint LastIndexByte_from (i : nat) (s : string) (c : ascii) : option nat :=
  match s with
  | EmptyString => None
  | String a s' =>
      match LastIndexByte_from (S i) s' c with
      | Some j => Some j
      | None => if Ascii.eqb a c then Some i else None
      end
  end.

Definition LastIndexByte (s : string) (c : ascii) : option nat :=
  LastIndexByte_from O s c.

Definition Cut (s sep : string) : string * string * bool :=
  match Index s sep with
  | Some i => (slice_to i s, slice_from (i + String.length sep) s, true)
  | None => (s, EmptyString, false)
  end.

Fixpoint forall_bytes (p : ascii -> bool) (s : string) : bool :=
  match s with
  | EmptyString => true
  | String c s' => p c && forall_bytes p s'
  end.

(* s[i], the zero byte out of range (where Go panics; no caller gets there) *)
Definition nth_byte (s : string) (i : nat) : Z :=
  match String.get i s with Some c => byte_code c | None => 0 end.

(** ** unicode/utf8 *)

Definition RuneError : Z := 65533.
Definition RuneSelf : Z := 128.
Definition UTFMax : Z := 4.

(* The table [first] with [acceptRanges]: for a leading byte, the length of
   the encoding and the range of its second byte; length 0 for a byte that
   starts no encoding. *)
Definition first (s0 : Z) : Z * Z * Z :=
  if (194 <=? s0) && (s0 <=? 223) then (2, 128, 191)
  else if s0 =? 224 then (3, 160, 191)
  else if (225 <=? s0) && (s0 <=? 236) then (3, 128, 191)
  else if s0 =? 237 then (3, 128, 159)
  else if (238 <=? s0) && (s0 <=? 239) then (3, 128, 191)
  else if s0 =? 240 then (4, 144, 191)
  else if (241 <=? s0) && (s0 <=? 243) then (4, 128, 191)
  else if s0 =? 244 then (4, 128, 143)
  else (0, 0, 0).

(* utf8.DecodeRuneInString: the rune that [s] starts with and its width in
   bytes; (RuneError, 1) for an invalid encoding, (RuneError, 0) for the
   empty string. *)
Definition DecodeRuneInString (s : string) : Z * nat :=
  let n := len s in
  if n <? 1 then (RuneError, O)
  else
    let s0 := nth_byte s 0 in
    if s0 <? RuneSelf then (s0, 1%nat)
    else
      let '(sz, lo, hi) := first s0 in
      if sz =? 0 then (RuneError, 1%nat)
      else if n <? sz then (RuneError, 1%nat)
      else
        let s1 := nth_byte s 1 in
        if (s1 <? lo) || (hi <? s1) then (RuneError, 1%nat)
        else if sz <=? 2
        then (Z.lor (Z.shiftl (Z.land s0 31) 6) (Z.land s1 63), 2%nat)
        else
          let s2 := nth_byte s 2 in
          if (s2 <? 128) || (191 <? s2) then (RuneError, 1%nat)
          else if sz <=? 3
          then (Z.lor (Z.lor (Z.shiftl (Z.land s0 15) 12) (Z.shiftl (Z.land s1 63) 6))
                  (Z.land s2 63), 3%nat)
          else
            let s3 := nth_byte s 3 in
            if (s3 <? 128) || (191 <? s3) then (RuneError, 1%nat)
            else (Z.lor (Z.lor (Z.lor (Z.shiftl (Z.land s0 7) 18)
                                  (Z.shiftl (Z.land s1 63) 12))
                           (Z.shiftl (Z.land s2 63) 6))
                    (Z.land s3 63), 4%nat).

(* utf8.RuneStart: not a continuation byte. *)
Definition RuneStart (b : Z) : bool := negb (Z.land b 192 =? 128).

(* The loop of DecodeLastRuneInString that walks back from [start] to the
   nearest byte that can start a rune, no further than [lim]. *)
Fixpoint rune_start_back (fuel : nat) (start lim : Z) (s : string) : Z :=
  match fuel with
  | O => start
  | S fuel' =>
      if start <? lim then start
      else if RuneStart (nth_byte s (Z.to_nat start)) then start
      else rune_start_back fuel' (start - 1) lim s
  end.

(* utf8.DecodeLastRuneInString *)
Definition DecodeLastRuneInString (s : string) : Z * nat :=
  let end_ := len s in
  if end_ =? 0 then (RuneError, O)
  else
    let r := nth_byte s (Z.to_nat (end_ - 1)) in
    if r <? RuneSelf then (r, 1%nat)
    else
      let lim := Z.max 0 (end_ - UTFMax) in
      let start := Z.max 0 (rune_start_back 4 (end_ - 2) lim s) in
      let '(r, size) := DecodeRuneInString (slice_from (Z.to_nat start) s) in
      if negb (start + Z.of_nat size =? end_) then (RuneError, 1%nat)
      else (r, size).

(** ** unicode *)

(* unicode.IsSpace: the Latin-1 blanks, and above them the ranges of the
   table White_Space. *)
Definition IsSpace (r : Z) : bool :=
  if (0 <=? r) && (r <=? 255) then
    match r with
    | 9 | 10 | 11 | 12 | 13 | 32 | 133 | 160 => true
    | _ => false
    end
  else
    (r =? 5760) || ((8192 <=? r) && (r <=? 8202)) || (r =? 8232) || (r =? 8233)
    || (r =? 8239) || (r =? 8287) || (r =? 12288).

(* The mapping that strings.ToLower applies to a string holding a byte from
   0x80 up: strings.Map(unicode.ToLower, s), over the case tables of the
   Go standard library. *)
Class Unicode := Map_unicode_ToLower : string -> string.

(** ** strings *)

Definition lower_byte (c : ascii) : ascii :=
  if byte_between "A" "Z" c
  then ascii_of_N (N_of_ascii c + 32)
  else c.

Fixpoint lower_bytes (s : string) : string :=
  match s with
  | EmptyString => EmptyString
  | String c s' => String (lower_byte c) (lower_bytes s')
  end.

(* strings.ToLower: a string of ASCII bytes has its letters A-Z folded byte
   by byte; any other string goes through the Unicode mapping. *)
Definition ToLower `{Unicode} (s : string) : string :=
  let isASCII := forall_bytes (fun c => byte_code c <? RuneSelf) s in
  if isASCII then lower_bytes s else Map_unicode_ToLower s.

(* strings.TrimLeftFunc(s, unicode.IsSpace): [fuel] bounds the number of
   runes looked at, the length of [s] is enough. *)
Fixpoint TrimLeftFunc_IsSpace (fuel : nat) (s : string) : string :=
  match fuel with
  | O => s
  | S fuel' =>
      match s with
      | EmptyString => s
      | _ =>
          let '(r, size) := DecodeRuneInString s in
          if IsSpace r then TrimLeftFunc_IsSpace fuel' (slice_from size s) else s
      end
  end.

(* strings.TrimRightFunc(s, unicode.IsSpace) *)
Fixpoint TrimRightFunc_IsSpace (fuel : nat) (s : string) : string :=
  match fuel with
  | O => s
  | S fuel' =>
      match s with
      | EmptyString => s
      | _ =>
          let '(r, size) := DecodeLastRuneInString s in
          if IsSpace r
          then TrimRightFunc_IsSpace fuel' (slice_to (String.length s - size) s)
          else s
      end
  end.

Definition TrimLeftSpace (s : string) : string :=
  TrimLeftFunc_IsSpace (String.length s) s.

Definition TrimRightSpace (s : string) : string :=
  TrimRightFunc_IsSpace (String.length s) s.

(* strings.TrimSpace: the library walks over ASCII blanks byte by byte from
   either end and hands what is left to TrimFunc or TrimRightFunc with
   unicode.IsSpace at the first byte from 0x80 up; an ASCII byte is its own
   rune, so the result is that of trimming by runes from the start. *)
Definition TrimSpace (s : string) : string := TrimRightSpace (TrimLeftSpace s).

End GoStrings.

(** Package net/url of the Go standard library, which validateURL and
    normalizeURL call and which is no part of the repository: Parse and
    URL.String with the functions they use, written after the library
    (getScheme, the query and authority split, parseAuthority, parseHost,
    setPath, setFragment, unescape, escape, shouldEscape, EscapedPath).
    A parse error is None. *)
Module NetURL.
Import GoStrings.

Inductive encoding :=
| encodePath | encodeHost | encodeZone | encodeUserPassword | encodeFragment.

Definition encoding_eqb (a b : encoding) : bool :=
  match a, b with
  | encodePath, encodePath | encodeHost, encodeHost | encodeZone, encodeZone
  | encodeUserPassword, encodeUserPassword | encodeFragment, encodeFragment => true
  | _, _ => false
  end.

Record Userinfo := { username : string; password : string; passwordSet : bool }.

Record URL := {
  Scheme : string;
  Opaque : string;
  User : option Userinfo;
  Host : string;
  Path : string;
  RawPath : string;
  OmitHost : bool;
  ForceQuery : bool;
  RawQuery : string;
  Fragment : string;
  RawFragment : string
}.

Definition empty_URL : URL :=
  {| Scheme := ""; Opaque := ""; User := None; Host := ""; Path := "";
     RawPath := ""; OmitHost := false; ForceQuery := false; RawQuery := "";
     Fragment := ""; RawFragment := "" |}.

Definition byte_in (c : ascii) (set : list ascii) : bool :=
  existsb (Ascii.eqb c) set.

Definition dquote : ascii := "034"%char.

Definition is_alpha (c : ascii) : bool :=
  byte_between "a" "z" c || byte_between "A" "Z" c.

Definition is_digit (c : ascii) : bool := byte_between "0" "9" c.

Definition ishex (c : ascii) : bool :=
  is_digit c || byte_between "a" "f" c || byte_between "A" "F" c.

Definition unhex (c : ascii) : Z :=
  if is_digit c then byte_code c - byte_code "0"
  else if byte_between "a" "f" c then byte_code c - byte_code "a" + 10
  else if byte_between "A" "F" c then byte_code c - byte_code "A" + 10
  else 0.

Definition byte_of_Z (n : Z) : ascii := ascii_of_N (Z.to_N n).

Definition upperhex : string := "0123456789ABCDEF".

Definition hex_digit (n : Z) : ascii :=
  match String.get (Z.to_nat n) upperhex with Some c => c | None => Ascii.zero end.

Definition shouldEscape (c : ascii) (mode : encoding) : bool :=
  if is_alpha c || is_digit c then false
  else if (encoding_eqb mode encodeHost || encoding_eqb mode encodeZone)
          && byte_in c ["!"; "$"; "&"; "'"; "("; ")"; "*"; "+"; ","; ";"; "=";
                        ":"; "["; "]"; "<"; ">"; dquote]%char
  then false
  else if byte_in c ["-"; "_"; "."; "~"]%char then false
  else if byte_in c ["$"; "&"; "+"; ","; "/"; ":"; ";"; "="; "?"; "@"]%char
          && negb (encoding_eqb mode encodeHost || encoding_eqb mode encodeZone)
  then match mode with
       | encodePath => Ascii.eqb c "?"
       | encodeUserPassword => byte_in c ["@"; "/"; "?"; ":"]%char
       | encodeFragment => false
       | encodeHost | encodeZone => true
       end
  else if encoding_eqb mode encodeFragment && byte_in c ["!"; "("; ")"; "*"]%char
  then false
  else true.

Fixpoint escape (s : string) (mode : encoding) : string :=
  match s with
  | EmptyString => EmptyString
  | String c s' =>
      if shouldEscape c mode
      then String "%" (String (hex_digit (Z.shiftr (byte_code c) 4))
             (String (hex_digit (Z.land (byte_code c) 15)) (escape s' mode)))
      else String c (escape s' mode)
  end.

(* None stands for the EscapeError / InvalidHostError results. *)
Fixpoint unescape (s : string) (mode : encoding) : option string :=
  match s with
  | EmptyString => Some EmptyString
  | String c s' =>
      if Ascii.eqb c "%" then
        match s' with
        | String h1 (String h2 rest) =>
            if negb (ishex h1 && ishex h2) then None
            else if encoding_eqb mode encodeHost && (unhex h1 <? 8)
                    && negb (Ascii.eqb h1 "2" && Ascii.eqb h2 "5")
            then None
            else if encoding_eqb mode encodeZone
                    && negb (Ascii.eqb h1 "2" && Ascii.eqb h2 "5")
                    && negb (Z.lor (Z.shiftl (unhex h1) 4) (unhex h2) =? 32)
                    && shouldEscape
                         (byte_of_Z (Z.lor (Z.shiftl (unhex h1) 4) (unhex h2)))
                         encodeHost
            then None
            else match unescape rest mode with
                 | Some r =>
                     Some (String (byte_of_Z (Z.lor (Z.shiftl (unhex h1) 4) (unhex h2))) r)
                 | None => None
                 end
        | _ => None
        end
      else if (encoding_eqb mode encodeHost || encoding_eqb mode encodeZone)
              && (byte_code c <? 128) && shouldEscape c encodeHost
      then None
      else match unescape s' mode with
           | Some r => Some (String c r)
           | None => None
           end
  end.

Definition validEncoded (s : string) (mode : encoding) : bool :=
  forall_bytes
    (fun c =>
       byte_in c ["!"; "$"; "&"; "'"; "("; ")"; "*"; "+"; ","; ";"; "="; ":"; "@";
                  "["; "]"; "%"]%char
       || negb (shouldEscape c mode))
    s.

Definition stringContainsCTLByte (s : string) : bool :=
  negb (forall_bytes (fun c => negb ((byte_code c <? 32) || (byte_code c =? 127))) s).

(* None stands for the error "missing protocol scheme". *)
Fixpoint getScheme_from (i : nat) (s rawURL : string) : option (string * string) :=
  match s with
  | EmptyString => Some (EmptyString, rawURL)
  | String c s' =>
      if is_alpha c then getScheme_from (S i) s' rawURL
      else if is_digit c || byte_in c ["+"; "-"; "."]%char then
        match i with
        | O => Some (EmptyString, rawURL)
        | _ => getScheme_from (S i) s' rawURL
        end
      else if Ascii.eqb c ":" then
        match i with
        | O => None
        | _ => Some (slice_to i rawURL, s')
        end
      else Some (EmptyString, rawURL)
  end.

Definition getScheme (rawURL : string) : option (string * string) :=
  getScheme_from O rawURL rawURL.

Definition validOptionalPort (port : string) : bool :=
  match port with
  | EmptyString => true
  | String c digits => Ascii.eqb c ":" && forall_bytes is_digit digits
  end.

(* A bracketed host whose part before the closing bracket holds %25 has a
   zone identifier: the address, the zone and the rest are unescaped each
   in its own mode. *)
Definition parseHost (host : string) : option string :=
  if HasPrefix host "[" then
    match LastIndexByte host "]" with
    | None => None
    | Some i =>
        if negb (validOptionalPort (slice_from (S i) host)) then None
        else
          match Index (slice_to i host) "%25" with
          | Some zone =>
              match unescape (slice_to zone host) encodeHost with
              | None => None
              | Some host1 =>
                  match unescape (String.substring zone (i - zone) host) encodeZone with
                  | None => None
                  | Some host2 =>
                      match unescape (slice_from i host) encodeHost with
                      | None => None
                      | Some host3 => Some (host1 +:+ host2 +:+ host3)
                      end
                  end
              end
          | None => unescape host encodeHost
          end
    end
  else
    match LastIndexByte host ":" with
    | Some i =>
        if negb (validOptionalPort (slice_from i host)) then None
        else unescape host encodeHost
    | None => unescape host encodeHost
    end.

Definition validUserinfo (s : string) : bool :=
  forall_bytes
    (fun c =>
       is_alpha c || is_digit c
       || byte_in c ["-"; "."; "_"; ":"; "~"; "!"; "$"; "&"; "'"; "("; ")"; "*";
                     "+"; ","; ";"; "="; "%"; "@"]%char)
    s.

Definition parseAuthority (authority : string) : option (option Userinfo * string) :=
  match LastIndexByte authority "@" with
  | None =>
      match parseHost authority with
      | Some host => Some (None, host)
      | None => None
      end
  | Some i =>
      match parseHost (slice_from (S i) authority) with
      | None => None
      | Some host =>
          let userinfo := slice_to i authority in
          if negb (validUserinfo userinfo) then None
          else if negb (Contains userinfo ":") then
            match unescape userinfo encodeUserPassword with
            | Some u =>
                Some (Some {| username := u; password := ""; passwordSet := false |}, host)
            | None => None
            end
          else
            let '(name, pass, _) := Cut userinfo ":" in
            match unescape name encodeUserPassword, unescape pass encodeUserPassword with
            | Some u, Some p =>
                Some (Some {| username := u; password := p; passwordSet := true |}, host)
            | _, _ => None
            end
      end
  end.

Definition setPath (u : URL) (p : string) : option URL :=
  match unescape p encodePath with
  | None => None
  | Some path =>
      Some {| Scheme := Scheme u; Opaque := Opaque u; User := User u; Host := Host u;
              Path := path;
              RawPath := if String.eqb p (escape path encodePath) then "" else p;
              OmitHost := OmitHost u; ForceQuery := ForceQuery u;
              RawQuery := RawQuery u; Fragment := Fragment u;
              RawFragment := RawFragment u |}
  end.

Definition setFragment (u : URL) (f : string) : option URL :=
  match unescape f encodeFragment with
  | None => None
  | Some frag =>
      Some {| Scheme := Scheme u; Opaque := Opaque u; User := User u; Host := Host u;
              Path := Path u; RawPath := RawPath u;
              OmitHost := OmitHost u; ForceQuery := ForceQuery u;
              RawQuery := RawQuery u; Fragment := frag;
              RawFragment := if String.eqb f (escape frag encodeFragment) then "" else f |}
  end.

Section WithUnicode.

Context `{!Unicode}.

(* parse(rawURL, viaRequest = false) *)
Definition parse (rawURL : string) : option URL :=
  if stringContainsCTLByte rawURL then None
  else if String.eqb rawURL "*" then
    Some {| Scheme := ""; Opaque := ""; User := None; Host := ""; Path := "*";
            RawPath := ""; OmitHost := false; ForceQuery := false; RawQuery := "";
            Fragment := ""; RawFragment := "" |}
  else
    match getScheme rawURL with
    | None => None
    | Some (scheme0, rest0) =>
        let scheme := ToLower scheme0 in
        let '(rest, rawQuery, forceQuery) :=
          if HasSuffix rest0 "?" && (CountByte rest0 "?" =? 1)%nat
          then (slice_to (String.length rest0 - 1) rest0, "", true)
          else let '(before, after, _) := Cut rest0 "?" in (before, after, false) in
        if negb (HasPrefix rest "/") && negb (String.eqb scheme "") then
          Some {| Scheme := scheme; Opaque := rest; User := None; Host := ""; Path := "";
                  RawPath := ""; OmitHost := false; ForceQuery := forceQuery;
                  RawQuery := rawQuery; Fragment := ""; RawFragment := "" |}
        else if negb (HasPrefix rest "/")
                && Contains (fst (fst (Cut rest "/"))) ":"
        then None
        else if (negb (String.eqb scheme "") || negb (HasPrefix rest "///"))
                && HasPrefix rest "//"
        then
          let authority0 := slice_from 2 rest in
          let '(authority, rest') :=
            match Index authority0 "/" with
            | Some i => (slice_to i authority0, slice_from i authority0)
            | None => (authority0, "")
            end in
          match parseAuthority authority with
          | None => None
          | Some (user, host) =>
              setPath {| Scheme := scheme; Opaque := ""; User := user; Host := host;
                         Path := ""; RawPath := ""; OmitHost := false;
                         ForceQuery := forceQuery; RawQuery := rawQuery;
                         Fragment := ""; RawFragment := "" |} rest'
          end
        else
          setPath {| Scheme := scheme; Opaque := ""; User := None; Host := "";
                     Path := ""; RawPath := "";
                     OmitHost := negb (String.eqb scheme "") && HasPrefix rest "/";
                     ForceQuery := forceQuery; RawQuery := rawQuery;
                     Fragment := ""; RawFragment := "" |} rest
    end.

Definition Parse (rawURL : string) : option URL :=
  let '(u, frag, _) := Cut rawURL "#" in
  match parse u with
  | None => None
  | Some url => if String.eqb frag "" then Some url else setFragment url frag
  end.

End WithUnicode.

Definition EscapedPath (u : URL) : string :=
  let raw_ok :=
    negb (String.eqb (RawPath u) "") && validEncoded (RawPath u) encodePath
    && match unescape (RawPath u) encodePath with
       | Some p => String.eqb p (Path u)
       | None => false
       end in
  if raw_ok then RawPath u
  else if String.eqb (Path u) "*" then "*"
  else escape (Path u) encodePath.

Definition EscapedFragment (u : URL) : string :=
  let raw_ok :=
    negb (String.eqb (RawFragment u) "") && validEncoded (RawFragment u) encodeFragment
    && match unescape (RawFragment u) encodeFragment with
       | Some f => String.eqb f (Fragment u)
       | None => false
       end in
  if raw_ok then RawFragment u else escape (Fragment u) encodeFragment.

Definition Userinfo_String (ui : Userinfo) : string :=
  escape (username ui) encodeUserPassword
  +:+ (if passwordSet ui then ":" +:+ escape (password ui) encodeUserPassword else "").

Definition is_nil {A} (o : option A) : bool :=
  match o with None => true | Some _ => false end.

Definition URL_String (u : URL) : string :=
  let scheme_part := if String.eqb (Scheme u) "" then "" else Scheme u +:+ ":" in
  let body :=
    if negb (String.eqb (Opaque u) "") then scheme_part +:+ Opaque u
    else
      let auth :=
        if negb (String.eqb (Scheme u) "") || negb (String.eqb (Host u) "")
           || negb (is_nil (User u))
        then
          if OmitHost u && String.eqb (Host u) "" && is_nil (User u) then ""
          else
            (if negb (String.eqb (Host u) "") || negb (String.eqb (Path u) "")
                || negb (is_nil (User u)) then "//" else "")
            +:+ match User u with
                | Some ui => Userinfo_String ui +:+ "@"
                | None => ""
                end
            +:+ (if String.eqb (Host u) "" then "" else escape (Host u) encodeHost)
        else "" in
      let path := EscapedPath u in
      let slash :=
        if negb (String.eqb path "") && negb (HasPrefix path "/")
           && negb (String.eqb (Host u) "")
        then "/" else "" in
      let buf := scheme_part +:+ auth +:+ slash in
      let dot :=
        if String.eqb buf "" && Contains (fst (fst (Cut path "/"))) ":"
        then "./" else "" in
      buf +:+ dot +:+ path in
  body
  +:+ (if ForceQuery u || negb (String.eqb (RawQuery u) "")
       then "?" +:+ RawQuery u else "")
  +:+ (if String.eqb (Fragment u) "" then "" else "#" +:+ EscapedFragment u).

End NetURL.


(** The short-code encoder of the URL service. *)
Module Base62.

Definition base62Chars : string :=
  "0123456789abcdefghijklmnopqrstuvwxyzABCDEFGHIJKLMNOPQRSTUVWXYZ".

(* s[i]; the encoder indexes base62Chars with a remainder modulo 62 only. *)
Definition byte_at (s : string) (i : Z) : ascii :=
  match String.get (Z.to_nat i) s with
  | Some c => c
  | None => Ascii.zero
  end.

(* The loop [for num > 0] of encodeBase62, appending to the builder. An int64
   has 64 bits and every turn at least halves [num], so 64 turns of fuel are
   never used up. *)
Fixpoint encode_loop (fuel : nat) (num : Z) (result : list ascii) : list ascii :=
  match fuel with
  | O => result
  | S fuel' =>
      if 0 <? num
      then encode_loop fuel' (Z.quot num 62)
             (result ++ [byte_at base62Chars (Z.rem num 62)])
      else result
  end.

Definition encodeBase62 (num : Z) : string :=
  if num =? 0 then String (byte_at base62Chars 0) EmptyString
  else string_of_list_ascii (rev (encode_loop 64 num [])).

End Base62.

(** Package models. Instants are integers, in nanoseconds. *)
Module Models.

Record URL := {
  URL_ID : Z;
  URL_ShortCode : string;
  URL_OriginalURL : string;
  URL_CustomAlias : bool;
  URL_CreatedAt : Z;
  URL_ExpiresAt : option Z
}.

Record Analytics := {
  Analytics_ID : Z;
  Analytics_ShortCode : string;
  Analytics_ClickedAt : Z;
  Analytics_IPAddress : string;
  Analytics_UserAgent : string
}.

Record URLStats := {
  Stats_ShortCode : string;
  Stats_OriginalURL : string;
  Stats_ClickCount : Z;
  Stats_CreatedAt : Z
}.

Record ShortenRequest := { Req_URL : string; Req_CustomAlias : string }.

Record ShortenResponse := {
  Resp_ShortCode : string;
  Resp_ShortURL : string;
  Resp_OriginalURL : string
}.

End Models.

(** Package repository: the tables and the sequence that RunMigrations
    creates, the Redis key space, and the repository methods over them. *)
Module Repository.
Import GoStrings.

(* Go error values: the sentinel redis.Nil, or an error carrying a message. *)
Inductive error := redis_Nil | errorString (msg : string).

Definition Error (e : error) : string :=
  match e with
  | redis_Nil => "redis: nil"
  | errorString msg => msg
  end.

Definition is_redis_Nil (e : error) : bool :=
  match e with redis_Nil => true | errorString _ => false end.

(* fmt.Errorf(prefix + "%w", err) *)
Definition wrap (prefix : string) (e : error) : error :=
  errorString (prefix +:+ Error e).

Definition time_Second : Z := 1000000000.
Definition time_Minute : Z := 60 * time_Second.
Definition time_Hour : Z := 60 * time_Minute.

Record Postgres := {
  urls : list Models.URL;
  analytics : list Models.Analytics;
  url_id_sequence : Z;
  urls_id_seq : Z;
  analytics_id_seq : Z
}.

Inductive Call :=
| SQL_InsertURL (shortCode : string)
| SQL_SelectURL (shortCode : string)
| SQL_Exists (shortCode : string)
| SQL_Nextval
| SQL_SelectStats (shortCode : string)
| SQL_InsertAnalytics (shortCode ipAddress userAgent : string)
| SQL_Select1
| Redis_Get (key : string)
| Redis_Set (key value : string) (ttl : Z)
| Redis_Ping.

Definition is_sql (c : Call) : bool :=
  match c with
  | Redis_Get _ | Redis_Set _ _ _ | Redis_Ping => false
  | _ => true
  end.

(* Everything outside the process: the database, the cache, the clock, and
   for the record the store calls made so far and the lines that the
   services and the handlers have logged at level Info or above. *)
Record World := {
  pg : Postgres;
  redis : gmap string (string * Z);
  now : Z;
  calls : list Call;
  logs : list string
}.

Definition record_call (c : Call) (w : World) : World :=
  {| pg := pg w; redis := redis w; now := now w;
     calls := calls w ++ [c]; logs := logs w |}.

Definition set_pg (p : Postgres) (w : World) : World :=
  {| pg := p; redis := redis w; now := now w; calls := calls w; logs := logs w |}.

Definition set_redis (r : gmap string (string * Z)) (w : World) : World :=
  {| pg := pg w; redis := r; now := now w; calls := calls w; logs := logs w |}.

Definition log (line : string) (w : World) : World :=
  {| pg := pg w; redis := redis w; now := now w; calls := calls w;
     logs := logs w ++ [line] |}.

(* The clock reads [t]. *)
Definition set_now (t : Z) (w : World) : World :=
  {| pg := pg w; redis := redis w; now := t; calls := calls w; logs := logs w |}.

Definition find_url (shortCode : string) (p : Postgres) : option Models.URL :=
  List.find (fun r => String.eqb (Models.URL_ShortCode r) shortCode) (urls p).

Definition dquote : string := String "034"%char EmptyString.

Definition pq_unique_violation : string :=
  "pq: duplicate key value violates unique constraint "
  +:+ dquote +:+ "urls_short_code_key" +:+ dquote.

Definition pq_value_too_long : string :=
  "pq: value too long for type character varying(10)".

Definition pq_fk_violation : string :=
  "pq: insert or update on table " +:+ dquote +:+ "analytics" +:+ dquote
  +:+ " violates foreign key constraint "
  +:+ dquote +:+ "analytics_short_code_fkey" +:+ dquote.

(* The server's refusal of a text that is no address, for a column of type
   INET. *)
Definition pq_invalid_inet (value : string) : string :=
  "pq: invalid input syntax for type inet: " +:+ dquote +:+ value +:+ dquote.

(* INSERT INTO urls ... RETURNING id, created_at, against the schema of
   RunMigrations: short_code VARCHAR(10) UNIQUE NOT NULL, id SERIAL,
   created_at DEFAULT CURRENT_TIMESTAMP. *)
Definition insert_url (u : Models.URL) (w : World) : (Models.URL + string) * Postgres :=
  let p := pg w in
  if (10 <? len (Models.URL_ShortCode u)) then (inr pq_value_too_long, p)
  else
    let p' := {| urls := urls p; analytics := analytics p;
                 url_id_sequence := url_id_sequence p;
                 urls_id_seq := urls_id_seq p + 1;
                 analytics_id_seq := analytics_id_seq p |} in
    match find_url (Models.URL_ShortCode u) p with
    | Some _ => (inr pq_unique_violation, p')
    | None =>
        let row := {| Models.URL_ID := urls_id_seq p;
                      Models.URL_ShortCode := Models.URL_ShortCode u;
                      Models.URL_OriginalURL := Models.URL_OriginalURL u;
                      Models.URL_CustomAlias := Models.URL_CustomAlias u;
                      Models.URL_CreatedAt := now w;
                      Models.URL_ExpiresAt := Models.URL_ExpiresAt u |} in
        (inl row,
         {| urls := urls p ++ [row]; analytics := analytics p;
            url_id_sequence := url_id_sequence p;
            urls_id_seq := urls_id_seq p + 1;
            analytics_id_seq := analytics_id_seq p |})
    end.

(* URLRepository.Create; [fault] is an error of the connection or driver. *)
Definition URLRepository_Create (fault : option string) (u : Models.URL) (w : World)
  : (Models.URL * option error) * World :=
  let w := record_call (SQL_InsertURL (Models.URL_ShortCode u)) w in
  match fault with
  | Some msg => ((u, Some (errorString msg)), w)
  | None =>
      match insert_url u w with
      | (inl row, p) => ((row, None), set_pg p w)
      | (inr msg, p) => ((u, Some (errorString msg)), set_pg p w)
      end
  end.

Definition zero_URL : Models.URL :=
  {| Models.URL_ID := 0; Models.URL_ShortCode := ""; Models.URL_OriginalURL := "";
     Models.URL_CustomAlias := false; Models.URL_CreatedAt := 0;
     Models.URL_ExpiresAt := None |}.

(* URLRepository.GetByShortCode: (nil, nil) when no row matches. *)
Definition URLRepository_GetByShortCode (fault : option string) (shortCode : string)
    (w : World) : (option Models.URL * option error) * World :=
  let w := record_call (SQL_SelectURL shortCode) w in
  match fault with
  | Some msg => ((Some zero_URL, Some (errorString msg)), w)
  | None =>
      match find_url shortCode (pg w) with
      | Some row => ((Some row, None), w)
      | None => ((None, None), w)
      end
  end.

Definition URLRepository_Exists (fault : option string) (shortCode : string) (w : World)
  : (bool * option error) * World :=
  let w := record_call (SQL_Exists shortCode) w in
  match fault with
  | Some msg => ((false, Some (errorString msg)), w)
  | None =>
      ((match find_url shortCode (pg w) with Some _ => true | None => false end, None), w)
  end.

(* URLRepository.GetNextID: SELECT nextval('url_id_sequence'). *)
Definition URLRepository_GetNextID (fault : option string) (w : World)
  : (Z * option error) * World :=
  let w := record_call SQL_Nextval w in
  match fault with
  | Some msg => ((0, Some (errorString msg)), w)
  | None =>
      let p := pg w in
      ((url_id_sequence p, None),
       set_pg {| urls := urls p; analytics := analytics p;
                 url_id_sequence := url_id_sequence p + 1;
                 urls_id_seq := urls_id_seq p;
                 analytics_id_seq := analytics_id_seq p |} w)
  end.

Definition click_count (shortCode : string) (p : Postgres) : Z :=
  Z.of_nat (List.length
    (List.filter (fun a => String.eqb (Models.Analytics_ShortCode a) shortCode)
       (analytics p))).

Definition URLRepository_GetStats (fault : option string) (shortCode : string)
    (w : World) : (option Models.URLStats * option error) * World :=
  let w := record_call (SQL_SelectStats shortCode) w in
  match fault with
  | Some msg =>
      ((Some {| Models.Stats_ShortCode := ""; Models.Stats_OriginalURL := "";
                Models.Stats_ClickCount := 0; Models.Stats_CreatedAt := 0 |},
        Some (errorString msg)), w)
  | None =>
      match find_url shortCode (pg w) with
      | Some row =>
          ((Some {| Models.Stats_ShortCode := Models.URL_ShortCode row;
                    Models.Stats_OriginalURL := Models.URL_OriginalURL row;
                    Models.Stats_ClickCount := click_count shortCode (pg w);
                    Models.Stats_CreatedAt := Models.URL_CreatedAt row |}, None), w)
      | None => ((None, None), w)
      end
  end.

Section WithPostgres.

(* The input function of PostgreSQL's type INET: whether the server takes
   the text for an address. *)
Variable inet_in : string -> bool.

(* AnalyticsRepository.RecordClick: INSERT INTO analytics (short_code,
   ip_address, user_agent) against the schema of RunMigrations: short_code
   VARCHAR(10) NOT NULL with the foreign key to urls, ip_address INET, id
   SERIAL. clicked_at is not among the inserted columns, the column default
   CURRENT_TIMESTAMP fills it in. The address is read by the type's input
   function when the parameters are bound, before the statement runs. *)
Definition AnalyticsRepository_RecordClick (fault : option string)
    (a : Models.Analytics) (w : World) : (Models.Analytics * option error) * World :=
  let w := record_call (SQL_InsertAnalytics (Models.Analytics_ShortCode a)
                          (Models.Analytics_IPAddress a)
                          (Models.Analytics_UserAgent a)) w in
  match fault with
  | Some msg => ((a, Some (errorString msg)), w)
  | None =>
      let p := pg w in
      if negb (inet_in (Models.Analytics_IPAddress a))
      then ((a, Some (errorString (pq_invalid_inet (Models.Analytics_IPAddress a)))), w)
      else if 10 <? len (Models.Analytics_ShortCode a)
      then ((a, Some (errorString pq_value_too_long)), w)
      else
        let p' := {| urls := urls p; analytics := analytics p;
                     url_id_sequence := url_id_sequence p;
                     urls_id_seq := urls_id_seq p;
                     analytics_id_seq := analytics_id_seq p + 1 |} in
        match find_url (Models.Analytics_ShortCode a) p with
        | None => ((a, Some (errorString pq_fk_violation)), set_pg p' w)
        | Some _ =>
            let row := {| Models.Analytics_ID := analytics_id_seq p;
                          Models.Analytics_ShortCode := Models.Analytics_ShortCode a;
                          Models.Analytics_ClickedAt := now w;
                          Models.Analytics_IPAddress := Models.Analytics_IPAddress a;
                          Models.Analytics_UserAgent := Models.Analytics_UserAgent a |} in
            ((row, None),
             set_pg {| urls := urls p; analytics := analytics p ++ [row];
                       url_id_sequence := url_id_sequence p;
                       urls_id_seq := urls_id_seq p;
                       analytics_id_seq := analytics_id_seq p + 1 |} w)
        end
  end.

End WithPostgres.

(* URLRepository.HealthCheck: SELECT 1. *)
Definition URLRepository_HealthCheck (fault : option string) (w : World)
  : (bool * option error) * World :=
  let w := record_call SQL_Select1 w in
  match fault with
  | Some msg => ((false, Some (errorString msg)), w)
  | None => ((true, None), w)
  end.

(* RedisCache: the key space maps a key to its value and expiry instant. *)
Definition RedisCache_ttl : Z := 24 * time_Hour.

Definition RedisCache_Get (fault : option string) (key : string) (w : World)
  : (string * option error) * World :=
  let w := record_call (Redis_Get key) w in
  match fault with
  | Some msg => (("", Some (errorString msg)), w)
  | None =>
      match redis w !! key with
      | Some (value, expiry) =>
          if now w <? expiry then ((value, None), w) else (("", Some redis_Nil), w)
      | None => (("", Some redis_Nil), w)
      end
  end.

Definition RedisCache_SetWithTTL (fault : option string) (key value : string) (ttl : Z)
    (w : World) : option error * World :=
  let w := record_call (Redis_Set key value ttl) w in
  match fault with
  | Some msg => (Some (errorString msg), w)
  | None => (None, set_redis (<[key := (value, now w + ttl)]> (redis w)) w)
  end.

Definition RedisCache_Set (fault : option string) (key value : string) (w : World)
  : option error * World :=
  RedisCache_SetWithTTL fault key value RedisCache_ttl w.

Definition RedisCache_Ping (fault : option string) (w : World) : option error * World :=
  let w := record_call Redis_Ping w in
  match fault with
  | Some msg => (Some (errorString msg), w)
  | None => (None, w)
  end.

End Repository.

(** Package services: the URL service. *)
Module Services.
Import Base62.
Import GoStrings Repository.

Inductive result (A : Type) :=
| Ok (a : A)
| Err (e : error)
| Panic.
Arguments Ok {A} a.
Arguments Err {A} e.
Arguments Panic {A}.

(* What the environment does to the calls of one request: an injected
   driver or connection error per operation, and the rows that other
   sessions commit between this request's existence check and its INSERT. *)
Record Faults := {
  exists_fault : option string;
  nextid_fault : option string;
  create_fault : option string;
  select_fault : option string;
  cache_get_fault : option string;
  cache_set_fault : option string;
  db_ping_fault : option string;
  cache_ping_fault : option string;
  concurrent_inserts : list Models.URL
}.

Definition no_faults : Faults :=
  {| exists_fault := None; nextid_fault := None; create_fault := None;
     select_fault := None; cache_get_fault := None; cache_set_fault := None;
     db_ping_fault := None; cache_ping_fault := None; concurrent_inserts := [] |}.

Definition commit_concurrent (rows : list Models.URL) (w : World) : World :=
  fold_left (fun w r => set_pg (snd (insert_url r w)) w) rows w.

Definition maliciousPatterns : list string :=
  ["javascript:"; "data:"; "file:"; "ftp:"].

Section WithUnicode.

Context `{!Unicode}.

Definition validateURL (rawURL : string) : option error :=
  match NetURL.Parse rawURL with
  | None => Some (errorString "malformed URL")
  | Some parsedURL =>
      if negb (String.eqb (NetURL.Scheme parsedURL) "http")
         && negb (String.eqb (NetURL.Scheme parsedURL) "https")
      then Some (errorString "only HTTP and HTTPS URLs are allowed")
      else if String.eqb (NetURL.Host parsedURL) ""
      then Some (errorString "URL must have a valid host")
      else
        let lowerURL := ToLower rawURL in
        if existsb (fun pattern => Contains lowerURL pattern) maliciousPatterns
        then Some (errorString "potentially malicious URL detected")
        else None
  end.

Definition alias_byte (c : ascii) : bool :=
  byte_between "a" "z" c || byte_between "A" "Z" c || byte_between "0" "9" c
  || Ascii.eqb c "_" || Ascii.eqb c "-".

(* regexp.MatchString("^[a-zA-Z0-9_-]+$", alias); the pattern compiles, so
   the error branch after it is never taken. *)
Definition alias_regexp (alias : string) : bool :=
  negb (String.eqb alias "") && forall_bytes alias_byte alias.

Definition reserved : list string :=
  ["api"; "health"; "admin"; "www"; "app"; "short"; "url"].

Definition validateCustomAlias (alias : string) : option error :=
  if (len alias <? 3) || (20 <? len alias)
  then Some (errorString "custom alias must be between 3 and 20 characters")
  else if negb (alias_regexp alias)
  then Some (errorString
         "custom alias can only contain letters, numbers, hyphens, and underscores")
  else if existsb (fun word => String.eqb (ToLower alias) word) reserved
  then Some (errorString "custom alias cannot be a reserved word")
  else None.

(* None: url.Parse failed and the nil *URL is dereferenced. *)
Definition normalizeURL (rawURL : string) : option string :=
  match NetURL.Parse rawURL with
  | None => None
  | Some parsedURL =>
      Some (NetURL.URL_String
        {| NetURL.Scheme := if String.eqb (NetURL.Scheme parsedURL) ""
                            then "https" else NetURL.Scheme parsedURL;
           NetURL.Opaque := NetURL.Opaque parsedURL;
           NetURL.User := NetURL.User parsedURL;
           NetURL.Host := NetURL.Host parsedURL;
           NetURL.Path := TrimSuffix (NetURL.Path parsedURL) "/";
           NetURL.RawPath := NetURL.RawPath parsedURL;
           NetURL.OmitHost := NetURL.OmitHost parsedURL;
           NetURL.ForceQuery := NetURL.ForceQuery parsedURL;
           NetURL.RawQuery := NetURL.RawQuery parsedURL;
           NetURL.Fragment := NetURL.Fragment parsedURL;
           NetURL.RawFragment := NetURL.RawFragment parsedURL |})
  end.

Definition ShortenURL (f : Faults) (originalURL customAlias : string) (w : World)
  : result Models.URL * World :=
  match validateURL originalURL with
  | Some err => (Err (wrap "invalid URL: " err), w)
  | None =>
      match normalizeURL originalURL with
      | None => (Panic, w)
      | Some normalizedURL =>
          let create shortCode isCustom w :=
            let urlRecord :=
              {| Models.URL_ID := 0; Models.URL_ShortCode := shortCode;
                 Models.URL_OriginalURL := normalizedURL;
                 Models.URL_CustomAlias := isCustom;
                 Models.URL_CreatedAt := 0; Models.URL_ExpiresAt := None |} in
            let w := commit_concurrent (concurrent_inserts f) w in
            match URLRepository_Create (create_fault f) urlRecord w with
            | ((_, Some err), w) => (Err (wrap "failed to create URL: " err), w)
            | ((urlRecord, None), w) =>
                match RedisCache_Set (cache_set_fault f) shortCode normalizedURL w with
                | (Some err, w) =>
                    (Ok urlRecord, log ("Failed to cache URL mapping: " +:+ Error err) w)
                | (None, w) => (Ok urlRecord, w)
                end
            end in
          if negb (String.eqb customAlias "") then
            match validateCustomAlias customAlias with
            | Some err => (Err (wrap "invalid custom alias: " err), w)
            | None =>
                match URLRepository_Exists (exists_fault f) customAlias w with
                | ((_, Some err), w) =>
                    (Err (wrap "failed to check alias existence: " err), w)
                | ((true, None), w) =>
                    (Err (errorString "custom alias already exists"), w)
                | ((false, None), w) => create customAlias true w
                end
            end
          else
            match URLRepository_GetNextID (nextid_fault f) w with
            | ((_, Some err), w) => (Err (wrap "failed to get next ID: " err), w)
            | ((nextID, None), w) => create (encodeBase62 nextID) false w
            end
      end
  end.

Definition GetOriginalURL (f : Faults) (shortCode : string) (w : World)
  : result string * World :=
  match RedisCache_Get (cache_get_fault f) shortCode w with
  | ((originalURL, None), w) => (Ok originalURL, w)
  | ((_, Some err), w) =>
      let w := if is_redis_Nil err then w else log ("Cache error: " +:+ Error err) w in
      match URLRepository_GetByShortCode (select_fault f) shortCode w with
      | ((_, Some err), w) => (Err (wrap "failed to get URL: " err), w)
      | ((None, None), w) => (Err (errorString "URL not found"), w)
      | ((Some urlRecord, None), w) =>
          match RedisCache_Set (cache_set_fault f) shortCode
                  (Models.URL_OriginalURL urlRecord) w with
          | (Some err, w) =>
              (Ok (Models.URL_OriginalURL urlRecord),
               log ("Failed to cache URL mapping: " +:+ Error err) w)
          | (None, w) => (Ok (Models.URL_OriginalURL urlRecord), w)
          end
      end
  end.

Definition GetURLStats (f : Faults) (shortCode : string) (w : World)
  : result Models.URLStats * World :=
  match URLRepository_GetStats (select_fault f) shortCode w with
  | ((_, Some err), w) => (Err (wrap "failed to get URL stats: " err), w)
  | ((None, None), w) => (Err (errorString "URL not found"), w)
  | ((Some stats, None), w) => (Ok stats, w)
  end.

Definition HealthCheck (f : Faults) (w : World) : option error * World :=
  match URLRepository_HealthCheck (db_ping_fault f) w with
  | ((_, Some err), w) => (Some (wrap "database health check failed: " err), w)
  | ((_, None), w) => (None, w)
  end.

Definition CacheHealthCheck (f : Faults) (w : World) : option error * World :=
  match RedisCache_Ping (cache_ping_fault f) w with
  | (Some err, w) => (Some (wrap "cache health check failed: " err), w)
  | (None, w) => (None, w)
  end.

End WithUnicode.

End Services.

(** Package fmt, as far as the rate limiter uses it: the verb %d of Sprintf
    and of Sscanf on an int, the latter with the blanks, sign, digits and
    range check of the library's scanner. *)
Module Fmt.
Import GoStrings.

(* fmt.Sprintf("%d", n) *)
Definition Sprintf_d (n : Z) : string := NilZero.string_of_int (Z.to_int n).

Definition min_int64 : Z := - 2 ^ 63.
Definition max_int64 : Z := 2 ^ 63 - 1.

(* Two's-complement wrap-around of a 64-bit int. *)
Definition wrap_int (n : Z) : Z := (n + 2 ^ 63) mod 2 ^ 64 - 2 ^ 63.

(* SkipSpace of the scanner: runes for which isSpace holds are passed over
   (the table is that of unicode.IsSpace); a newline, also after a carriage
   return, is not: the scan stops there with "unexpected newline", which
   here means that no digit follows. [fuel] bounds the runes looked at. *)
Fixpoint SkipSpace (fuel : nat) (s : string) : string :=
  match fuel with
  | O => s
  | S fuel' =>
      match s with
      | EmptyString => s
      | _ =>
          let '(r, size) := DecodeRuneInString s in
          if r =? 10 then s
          else if IsSpace r then SkipSpace fuel' (slice_from size s)
          else s
      end
  end.

Definition skip_blanks (s : string) : string := SkipSpace (String.length s) s.

(* scanNumber over "0123456789": the value of the digits at the start of
   [s] on top of [acc], and how many there are. *)
Fixpoint scan_digits (acc : Z) (s : string) : Z * nat :=
  match s with
  | EmptyString => (acc, O)
  | String c s' =>
      if NetURL.is_digit c then
        let '(v, k) := scan_digits (acc * 10 + (byte_code c - byte_code "0")) s' in
        (v, S k)
      else (acc, O)
  end.

(* fmt.Sscanf(s, "%d", &count): Some n when count is set to n, None when
   the scan fails and count keeps its previous value. Blanks are skipped,
   one sign is accepted, the digits that follow are the token, and
   strconv.ParseInt refuses a token outside the int64 range; what comes
   after the token is not looked at. *)
Definition Sscanf_d (s : string) : option Z :=
  let s := skip_blanks s in
  let '(negative, s) :=
    match s with
    | String "-" s' => (true, s')
    | String "+" s' => (false, s')
    | _ => (false, s)
    end in
  match scan_digits 0 s with
  | (_, O) => None
  | (v, _) =>
      let n := if negative then - v else v in
      if (min_int64 <=? n) && (n <=? max_int64) then Some n else None
  end.

End Fmt.

(** Package services: the analytics service. The logger is at level Info, so
    the Debugf line of flushBatch leaves no trace. *)
Module Analytics.
Import GoStrings Repository.

Record AnalyticsEvent := {
  Event_ShortCode : string;
  Event_IPAddress : string;
  Event_UserAgent : string;
  Event_Timestamp : Z
}.

(* The service: the buffered channel eventQueue (the events waiting in its
   buffer, oldest first) and the batch that the processEvents goroutine
   keeps between wake-ups. *)
Record AnalyticsService := {
  eventQueue : list AnalyticsEvent;
  batch : list Models.Analytics
}.

Definition eventQueue_cap : Z := 10000.
Definition batchSize : Z := 100.
Definition flushInterval : Z := 5 * time_Second.

Definition NewAnalyticsService : AnalyticsService :=
  {| eventQueue := []; batch := [] |}.

Section WithParseIP.

(* net.ParseIP(s) != nil, from the Go standard library. *)
Variable net_ParseIP : string -> bool.

Definition sanitizeIPAddress (ipAddress : string) : string :=
  let ipAddress :=
    if Contains ipAddress ","
    then TrimSpace (fst (fst (Cut ipAddress ",")))
    else ipAddress in
  if negb (net_ParseIP ipAddress) then "unknown" else ipAddress.

Definition sanitizeUserAgent (userAgent : string) : string :=
  let maxLength := 500 in
  let userAgent :=
    if maxLength <? len userAgent then slice_to (Z.to_nat maxLength) userAgent
    else userAgent in
  let userAgent := TrimSpace userAgent in
  if String.eqb userAgent "" then "unknown" else userAgent.

(* RecordClickAsync has no result: it hands back the service and world
   only. The select with a default case sends when the buffer has room
   and takes the default branch otherwise. *)
Definition RecordClickAsync (shortCode ipAddress userAgent : string)
    (s : AnalyticsService) (w : World) : AnalyticsService * World :=
  let event := {| Event_ShortCode := shortCode;
                  Event_IPAddress := sanitizeIPAddress ipAddress;
                  Event_UserAgent := sanitizeUserAgent userAgent;
                  Event_Timestamp := now w |} in
  if Z.of_nat (List.length (eventQueue s)) <? eventQueue_cap
  then ({| eventQueue := eventQueue s ++ [event]; batch := batch s |}, w)
  else (s, log "Analytics queue full, dropping click event" w).

End WithParseIP.

Section WithPostgres.

Variable inet_in : string -> bool.

(* flushBatch: every item is attempted; a failure is logged and the loop
   goes on. [fault i] is the injected error of the i-th insert. *)
Fixpoint flushBatch_from (i : nat) (fault : nat -> option string)
    (items : list Models.Analytics) (w : World) : World :=
  match items with
  | [] => w
  | analytics :: rest =>
      match AnalyticsRepository_RecordClick inet_in (fault i) analytics w with
      | ((_, Some err), w) =>
          flushBatch_from (S i) fault rest
            (log ("Failed to record click in batch: " +:+ Error err) w)
      | ((_, None), w) => flushBatch_from (S i) fault rest w
      end
  end.

Definition flushBatch (fault : nat -> option string) (items : list Models.Analytics)
    (w : World) : World :=
  flushBatch_from O fault items w.

(* The two cases of the select in processEvents. *)
Inductive Wakeup := EventReceived | TickerFired.

(* One iteration of the for/select loop of processEvents. *)
Definition processEvents_step (fault : nat -> option string) (wake : Wakeup)
    (s : AnalyticsService) (w : World) : AnalyticsService * World :=
  match wake with
  | EventReceived =>
      match eventQueue s with
      | [] => (s, w)
      | event :: queue =>
          let analytics :=
            {| Models.Analytics_ID := 0;
               Models.Analytics_ShortCode := Event_ShortCode event;
               Models.Analytics_ClickedAt := 0;
               Models.Analytics_IPAddress := Event_IPAddress event;
               Models.Analytics_UserAgent := Event_UserAgent event |} in
          let batch' := batch s ++ [analytics] in
          if batchSize <=? Z.of_nat (List.length batch')
          then ({| eventQueue := queue; batch := [] |}, flushBatch fault batch' w)
          else ({| eventQueue := queue; batch := batch' |}, w)
      end
  | TickerFired =>
      if 0 <? Z.of_nat (List.length (batch s))
      then ({| eventQueue := eventQueue s; batch := [] |}, flushBatch fault (batch s) w)
      else (s, w)
  end.

End WithPostgres.

End Analytics.

(** Package handlers: the rate limiter and CORS middleware and the URL
    handlers. A handler returns the response it writes, None when it
    panics. *)
Module Handlers.
Import GoStrings Repository Services.

Inductive Body :=
| ErrorBody (error : string)
| RateLimitBody (error message : string)
| ShortenBody (response : Models.ShortenResponse)
| StatsBody (stats : Models.URLStats)
| HealthBody (status : string)
| MetricsBody (timestamp : Z)
| NoBody.

Inductive Response :=
| JSON (code : Z) (body : Body)
| Redirect (code : Z) (location : string)
| Status (code : Z).

(* What a middleware does with the request: c.Next(), or a response
   written followed by c.Abort(). *)
Inductive Flow := Next | Abort (r : Response).

Definition maxRequests : Z := 100.
Definition timeWindow : Z := time_Minute.

Definition RateLimitMiddleware (f : Faults) (clientIP : string) (w : World)
  : Flow * World :=
  let key := "rate_limit:" +:+ clientIP in
  match RedisCache_Get (cache_get_fault f) key w with
  | ((_, Some _), w) =>
      match RedisCache_SetWithTTL (cache_set_fault f) key "1" timeWindow w with
      | (Some _, w) => (Next, w)
      | (None, w) => (Next, w)
      end
  | ((countStr, None), w) =>
      let count := match Fmt.Sscanf_d countStr with Some n => n | None => 0 end in
      let count := Fmt.wrap_int (count + 1) in
      if maxRequests <? count then
        (Abort (JSON 429
           (RateLimitBody "Rate limit exceeded"
              ("Maximum " +:+ Fmt.Sprintf_d maxRequests
               +:+ " requests per minute allowed"))), w)
      else
        match RedisCache_SetWithTTL (cache_set_fault f) key (Fmt.Sprintf_d count)
                timeWindow w with
        | (Some _, w) => (Next, w)
        | (None, w) => (Next, w)
        end
  end.

Definition CORSMiddleware (method : string) : Flow :=
  if String.eqb method "OPTIONS" then Abort (Status 204) else Next.

Section WithUnicode.

Context `{!Unicode}.

(* URLHandler.ShortenURL; [req] is None when ShouldBindJSON rejects the
   payload, [baseURLHeader] is the X-Base-URL header. *)
Definition URLHandler_ShortenURL (f : Faults) (req : option Models.ShortenRequest)
    (baseURLHeader : string) (w : World) : option Response * World :=
  match req with
  | None => (Some (JSON 400 (ErrorBody "Invalid request payload")), w)
  | Some req =>
      match ShortenURL f (Models.Req_URL req) (Models.Req_CustomAlias req) w with
      | (Panic, w) => (None, w)
      | (Err err, w) =>
          let w := log ("Failed to shorten URL: " +:+ Error err) w in
          if Contains (Error err) "invalid URL"
             || Contains (Error err) "invalid custom alias"
             || Contains (Error err) "already exists"
          then (Some (JSON 400 (ErrorBody (Error err))), w)
          else (Some (JSON 500 (ErrorBody "Failed to create short URL")), w)
      | (Ok urlRecord, w) =>
          let baseURL :=
            if String.eqb baseURLHeader "" then "http://localhost:8080"
            else baseURLHeader in
          let baseURL := TrimSuffix baseURL "/" in
          (Some (JSON 201 (ShortenBody
             {| Models.Resp_ShortCode := Models.URL_ShortCode urlRecord;
                Models.Resp_ShortURL := baseURL +:+ "/" +:+ Models.URL_ShortCode urlRecord;
                Models.Resp_OriginalURL := Models.URL_OriginalURL urlRecord |})), w)
      end
  end.

End WithUnicode.

Definition URLHandler_getClientIP (xForwardedFor xRealIP clientIP : string) : string :=
  if negb (String.eqb xForwardedFor "")
  then TrimSpace (fst (fst (Cut xForwardedFor ",")))
  else if negb (String.eqb xRealIP "") then xRealIP
  else clientIP.

Record Request := {
  Method : string;
  Path : string;
  ClientIP : string;
  XForwardedFor : string;
  XRealIP : string;
  UserAgent : string;
  XBaseURL : string;
  Payload : option Models.ShortenRequest
}.

(* The process: the stores it talks to and its analytics service. *)
Record Server := {
  world : World;
  analyticsService : Analytics.AnalyticsService
}.

Definition with_world (srv : Server) (w : World) : Server :=
  {| world := w; analyticsService := analyticsService srv |}.

Section WithParseIP.

Variable net_ParseIP : string -> bool.

(* URLHandler.RedirectURL; [shortCode] is c.Param("short_code"). *)
Definition URLHandler_RedirectURL (f : Faults) (req : Request) (shortCode : string)
    (srv : Server) : option Response * Server :=
  if String.eqb shortCode ""
  then (Some (JSON 400 (ErrorBody "Short code is required")), srv)
  else
    match GetOriginalURL f shortCode (world srv) with
    | (Panic, w) => (None, with_world srv w)
    | (Err err, w) =>
        if Contains (Error err) "not found"
        then (Some (JSON 404 (ErrorBody "Short URL not found")), with_world srv w)
        else (Some (JSON 500 (ErrorBody "Failed to retrieve URL")),
              with_world srv (log ("Failed to get original URL: " +:+ Error err) w))
    | (Ok originalURL, w) =>
        let ipAddress :=
          URLHandler_getClientIP (XForwardedFor req) (XRealIP req) (ClientIP req) in
        let '(svc, w) :=
          Analytics.RecordClickAsync net_ParseIP shortCode ipAddress (UserAgent req)
            (analyticsService srv) w in
        (Some (Redirect 301 originalURL),
         {| world := w; analyticsService := svc |})
    end.

End WithParseIP.

Definition URLHandler_GetURLStats (f : Faults) (shortCode : string) (srv : Server)
  : option Response * Server :=
  if String.eqb shortCode ""
  then (Some (JSON 400 (ErrorBody "Short code is required")), srv)
  else
    match GetURLStats f shortCode (world srv) with
    | (Panic, w) => (None, with_world srv w)
    | (Err err, w) =>
        if Contains (Error err) "not found"
        then (Some (JSON 404 (ErrorBody "Short URL not found")), with_world srv w)
        else (Some (JSON 500 (ErrorBody "Failed to retrieve statistics")),
              with_world srv (log ("Failed to get URL stats: " +:+ Error err) w))
    | (Ok stats, w) => (Some (JSON 200 (StatsBody stats)), with_world srv w)
    end.

Definition URLHandler_HealthCheck (f : Faults) (srv : Server)
  : option Response * Server :=
  let '(dbErr, w) := HealthCheck f (world srv) in
  let '(status, httpStatus) :=
    match dbErr with
    | Some _ => ("unhealthy", 503)
    | None => ("healthy", 200)
    end in
  let '(cacheErr, w) := CacheHealthCheck f w in
  let status :=
    match cacheErr with
    | Some _ => if String.eqb status "healthy" then "degraded" else status
    | None => status
    end in
  (Some (JSON httpStatus (HealthBody status)), with_world srv w).

Definition URLHandler_MetricsHandler (srv : Server) : option Response * Server :=
  (Some (JSON 200 (MetricsBody (now (world srv) / time_Second))), srv).

End Handlers.

(** The router of gin as main uses it: engine-wide middleware, groups,
    routes with their handler chains, and the lookup of a request's route.
    The routes are kept as a list and looked up by segments, where the
    library keeps a radix tree per method. *)
Module Gin.
Import GoStrings.

(* The handler functions that main hands to the router. *)
Inductive HandlerFunc :=
| gin_Recovery
| LoggerMiddleware
| CORSMiddleware
| SecurityMiddleware
| RateLimitMiddleware
| HealthCheck
| MetricsHandler
| ShortenURL
| GetURLStats
| RedirectURL.

Definition HandlerFunc_eqb (a b : HandlerFunc) : bool :=
  match a, b with
  | gin_Recovery, gin_Recovery | LoggerMiddleware, LoggerMiddleware
  | CORSMiddleware, CORSMiddleware | SecurityMiddleware, SecurityMiddleware
  | RateLimitMiddleware, RateLimitMiddleware | HealthCheck, HealthCheck
  | MetricsHandler, MetricsHandler | ShortenURL, ShortenURL
  | GetURLStats, GetURLStats | RedirectURL, RedirectURL => true
  | _, _ => false
  end.

Record Route := {
  route_method : string;
  route_path : string;
  route_handlers : list HandlerFunc
}.

Record RouterGroup := { Handlers : list HandlerFunc; basePath : string }.

Record Engine := { root : RouterGroup; trees : list Route }.

Definition New : Engine :=
  {| root := {| Handlers := []; basePath := "/" |}; trees := [] |}.

(* engine.Use(middleware): appended to the handlers of the root group. *)
Definition Use (middleware : HandlerFunc) (e : Engine) : Engine :=
  {| root := {| Handlers := Handlers (root e) ++ [middleware];
                basePath := basePath (root e) |};
     trees := trees e |}.

(* joinPaths for a relative path that starts with a slash. *)
Definition joinPaths (absolutePath relativePath : string) : string :=
  if String.eqb relativePath "" then absolutePath
  else TrimSuffix absolutePath "/" +:+ relativePath.

(* group.Group(relativePath): the new group starts from a copy of the
   handlers its parent has at this moment. *)
Definition Group (relativePath : string) (g : RouterGroup) : RouterGroup :=
  {| Handlers := Handlers g; basePath := joinPaths (basePath g) relativePath |}.

(* group.handle: the route gets the group's handlers followed by its own. *)
Definition handle (g : RouterGroup) (httpMethod relativePath : string)
    (handler : HandlerFunc) (e : Engine) : Engine :=
  {| root := root e;
     trees := trees e ++ [{| route_method := httpMethod;
                             route_path := joinPaths (basePath g) relativePath;
                             route_handlers := Handlers g ++ [handler] |}] |}.

Definition GET := fun g => handle g "GET".
Definition POST := fun g => handle g "POST".

Fixpoint split_slash (cur s : string) : list string :=
  match s with
  | EmptyString => [cur]
  | String c s' =>
      if Ascii.eqb c "/" then cur :: split_slash "" s'
      else split_slash (cur +:+ String c EmptyString) s'
  end.

(* A parameter takes the text up to the next slash. At the end of the
   path that text is not empty (the tree does not walk into the parameter
   with nothing left of the path); in the middle it may be. *)
Fixpoint match_segments (pattern path : list string) : option (list (string * string)) :=
  match pattern, path with
  | [], [] => Some []
  | p :: ps, x :: xs =>
      if HasPrefix p ":" then
        if String.eqb x "" && match ps with [] => true | _ :: _ => false end then None
        else match match_segments ps xs with
             | Some params => Some ((slice_from 1 p, x) :: params)
             | None => None
             end
      else if String.eqb p x then match_segments ps xs else None
  | _, _ => None
  end.

Definition match_route (httpMethod path : string) (r : Route)
  : option (list (string * string)) :=
  if String.eqb (route_method r) httpMethod
  then match_segments (split_slash "" (route_path r)) (split_slash "" path)
  else None.

(* A static route wins over a route with a parameter. *)
Definition getValue (e : Engine) (httpMethod path : string)
  : option (Route * list (string * string)) :=
  match List.find
          (fun r => String.eqb (route_method r) httpMethod
                    && String.eqb (route_path r) path) (trees e) with
  | Some r => Some (r, [])
  | None =>
      match List.find
              (fun r => match match_route httpMethod path r with
                        | Some _ => true | None => false end) (trees e) with
      | Some r =>
          match match_route httpMethod path r with
          | Some params => Some (r, params)
          | None => None
          end
      | None => None
      end
  end.

Definition Param (key : string) (params : list (string * string)) : string :=
  match List.find (fun kv => String.eqb (fst kv) key) params with
  | Some kv => snd kv
  | None => ""
  end.

End Gin.

(** Package main: the router that main builds, and a request served by it. *)
Module Main.
Import Gin.

Definition setupRoutes (router : Engine) : Engine :=
  let router := GET (root router) "/health" HealthCheck router in
  let router := GET (root router) "/metrics" MetricsHandler router in
  let api := Group "/api/v1" (root router) in
  let router := POST api "/shorten" ShortenURL router in
  let router := GET api "/urls/:short_code/stats" GetURLStats router in
  GET (root router) "/:short_code" RedirectURL router.

(* The router as main builds it. *)
Definition router : Engine :=
  let router := New in
  let router := Use gin_Recovery router in
  let router := Use LoggerMiddleware router in
  let router := Use CORSMiddleware router in
  let router := Use SecurityMiddleware router in
  let router := Use RateLimitMiddleware router in
  setupRoutes router.

Section WithLibraries.

Context `{!GoStrings.Unicode}.

Variable net_ParseIP : string -> bool.

(* What gin does with a path that no route of the method's tree matches
   but for which the tree recommends a redirect to the path with its
   trailing slash added or taken away (the tsr result of node.getValue and
   the target that redirectTrailingSlash builds, both in the library): the
   Location of the redirect, or None when the tree recommends none. *)
Variable redirectTrailingSlash : list Route -> Handlers.Request -> option string.

(* Runs a handler chain: a middleware either passes on to the rest of the
   chain or aborts with its own response. None is a panic that reached
   the caller. LoggerMiddleware and SecurityMiddleware call Next and decide
   nothing: the one writes its request line when the chain has run, the
   other sets response headers, and neither is kept in the state. *)
Fixpoint run_chain (chain : list HandlerFunc) (f : Services.Faults)
    (req : Handlers.Request) (params : list (string * string))
    (srv : Handlers.Server) : option Handlers.Response * Handlers.Server :=
  match chain with
  | [] => (Some (Handlers.Status 404), srv)
  | h :: rest =>
      match h with
      | gin_Recovery =>
          match run_chain rest f req params srv with
          | (None, srv) => (Some (Handlers.Status 500), srv)
          | r => r
          end
      | LoggerMiddleware | SecurityMiddleware => run_chain rest f req params srv
      | CORSMiddleware =>
          match Handlers.CORSMiddleware (Handlers.Method req) with
          | Handlers.Abort r => (Some r, srv)
          | Handlers.Next => run_chain rest f req params srv
          end
      | RateLimitMiddleware =>
          match Handlers.RateLimitMiddleware f (Handlers.ClientIP req)
                  (Handlers.world srv) with
          | (Handlers.Abort r, w) => (Some r, Handlers.with_world srv w)
          | (Handlers.Next, w) =>
              run_chain rest f req params (Handlers.with_world srv w)
          end
      | HealthCheck => Handlers.URLHandler_HealthCheck f srv
      | MetricsHandler => Handlers.URLHandler_MetricsHandler srv
      | ShortenURL =>
          let '(r, w) :=
            Handlers.URLHandler_ShortenURL f (Handlers.Payload req)
              (Handlers.XBaseURL req) (Handlers.world srv) in
          (r, Handlers.with_world srv w)
      | GetURLStats =>
          Handlers.URLHandler_GetURLStats f (Param "short_code" params) srv
      | RedirectURL =>
          Handlers.URLHandler_RedirectURL net_ParseIP f req
            (Param "short_code" params) srv
      end
  end.

(* The chain that serves a request: that of the matching route, or the
   root group's handlers alone (allNoRoute) when no route matches. *)
Definition handlers_for (e : Engine) (req : Handlers.Request)
  : list HandlerFunc * list (string * string) :=
  match getValue e (Handlers.Method req) (Handlers.Path req) with
  | Some (r, params) => (route_handlers r, params)
  | None => (Handlers (root e), [])
  end.

(* The redirect that handleHTTPRequest answers with, no handler being
   called, when the method has a tree, no route of it matches, the method is
   not CONNECT, the path is not "/" and the tree recommends the redirect
   (RedirectTrailingSlash is on in gin.New): 301 for GET, 307 otherwise. *)
Definition trailing_slash_redirect (e : Engine) (req : Handlers.Request)
  : option Handlers.Response :=
  let httpMethod := Handlers.Method req in
  let rPath := Handlers.Path req in
  let tree := List.filter (fun r => String.eqb (route_method r) httpMethod) (trees e) in
  match tree, getValue e httpMethod rPath with
  | _ :: _, None =>
      if negb (String.eqb httpMethod "CONNECT") && negb (String.eqb rPath "/")
      then
        match redirectTrailingSlash tree req with
        | Some location =>
            Some (Handlers.Redirect (if String.eqb httpMethod "GET" then 301 else 307)
                    location)
        | None => None
        end
      else None
  | _, _ => None
  end.

(* engine.ServeHTTP *)
Definition ServeHTTP (e : Engine) (f : Services.Faults) (req : Handlers.Request)
    (srv : Handlers.Server) : option Handlers.Response * Handlers.Server :=
  match trailing_slash_redirect e req with
  | Some response => (Some response, srv)
  | None =>
      let '(chain, params) := handlers_for e req in
      run_chain chain f req params srv
  end.

End WithLibraries.

End Main.

(** The reference reading of a base-62 numeral, against which the encoder is
    checked: digit values, the numeral of a digit list and a decoder. The
    repository has no decoder of its own. *)
Module Base62Spec.
Import Base62.

Definition is_digit62 (d : Z) : Prop := 0 <= d < 62.

(* Most significant digit first. *)
Fixpoint value_msd (acc : Z) (ds : list Z) : Z :=
  match ds with
  | [] => acc
  | d :: ds' => value_msd (acc * 62 + d) ds'
  end.

Definition base62_string (ds : list Z) : string :=
  string_of_list_ascii (map (byte_at base62Chars) ds).

Definition digit_value (c : ascii) : option Z :=
  match String.index 0 (String c EmptyString) base62Chars with
  | Some i => Some (Z.of_nat i)
  | None => None
  end.

Fixpoint decode_from (acc : Z) (s : string) : option Z :=
  match s with
  | EmptyString => Some acc
  | String c s' =>
      match digit_value c with
      | Some d => decode_from (acc * 62 + d) s'
      | None => None
      end
  end.

Definition decodeBase62 (s : string) : option Z :=
  match s with
  | EmptyString => None
  | _ => decode_from 0 s
  end.

(* The digits that the loop of encodeBase62 emits, least significant
   first. *)
Fixpoint digits_lsd (fuel : nat) (num : Z) : list Z :=
  match fuel with
  | O => []
  | S fuel' =>
      if 0 <? num then Z.rem num 62 :: digits_lsd fuel' (Z.quot num 62) else []
  end.

Definition msd_digits (num : Z) : list Z :=
  if num =? 0 then [0] else rev (digits_lsd 64 num).

End Base62Spec.

(** Runs of requests used to state the scenarios. *)
Module Scenario.
Import Repository Services Handlers.

(* One client's requests hitting the rate limiter at the given instants,
   the cache answering without errors. *)
Fixpoint serve_all (clientIP : string) (times : list Z) (w : World)
  : list Flow * World :=
  match times with
  | [] => ([], w)
  | t :: ts =>
      let '(flow, w) := RateLimitMiddleware no_faults clientIP (set_now t w) in
      let '(flows, w) := serve_all clientIP ts w in
      (flow :: flows, w)
  end.

Definition rate_key (clientIP : string) : string := "rate_limit:" +:+ clientIP.

Definition denied : Flow :=
  Abort (JSON 429 (RateLimitBody "Rate limit exceeded"
                     "Maximum 100 requests per minute allowed")).

(* Whether GetOriginalURL's cache read is a hit: no read error and a
   value that has not expired. *)
Definition cache_hit (f : Faults) (key : string) (w : World) : bool :=
  match cache_get_fault f, redis w !! key with
  | None, Some (_, expiry) => now w <? expiry
  | _, _ => false
  end.

(* What a click is to be queued as at instant [t], written out over the
   library alone. The address is the text before the first comma, trimmed,
   when the address holds a comma, and the address itself otherwise; the
   literal "unknown" takes its place when net.ParseIP refuses it. The user
   agent is cut to its first 500 bytes and then trimmed, and is "unknown"
   when nothing is left. *)
Definition event_of (net_ParseIP : string -> bool) (t : Z)
    (click : string * string * string) : Analytics.AnalyticsEvent :=
  let '(shortCode, ipAddress, userAgent) := click in
  let address :=
    if GoStrings.Contains ipAddress ","
    then GoStrings.TrimSpace (fst (fst (GoStrings.Cut ipAddress ",")))
    else ipAddress in
  let agent :=
    GoStrings.TrimSpace
      (if 500 <? GoStrings.len userAgent then GoStrings.slice_to 500 userAgent
       else userAgent) in
  {| Analytics.Event_ShortCode := shortCode;
     Analytics.Event_IPAddress := if net_ParseIP address then address else "unknown";
     Analytics.Event_UserAgent := if String.eqb agent "" then "unknown" else agent;
     Analytics.Event_Timestamp := t |}.

(* Clicks captured one after the other while nothing drains the queue. *)
Fixpoint capture_all (net_ParseIP : string -> bool)
    (clicks : list (string * string * string))
    (s : Analytics.AnalyticsService) (w : World)
  : Analytics.AnalyticsService * World :=
  match clicks with
  | [] => (s, w)
  | (shortCode, ipAddress, userAgent) :: rest =>
      let '(s, w) :=
        Analytics.RecordClickAsync net_ParseIP shortCode ipAddress userAgent s w in
      capture_all net_ParseIP rest s w
  end.

(* A click captured at [t_capture] into an idle service, received by the
   worker, and flushed by the ticker at [t_flush]. *)
Definition capture_then_flush (net_ParseIP inet_in : string -> bool)
    (shortCode ipAddress userAgent : string) (t_capture t_flush : Z) (w : World)
  : Analytics.AnalyticsService * World :=
  let '(s, w) :=
    Analytics.RecordClickAsync net_ParseIP shortCode ipAddress userAgent
      Analytics.NewAnalyticsService (set_now t_capture w) in
  let '(s, w) :=
    Analytics.processEvents_step inet_in (fun _ => None) Analytics.EventReceived s w in
  Analytics.processEvents_step inet_in (fun _ => None) Analytics.TickerFired s
    (set_now t_flush w).

Definition empty_world : World :=
  {| pg := {| urls := []; analytics := []; url_id_sequence := 1;
              urls_id_seq := 1; analytics_id_seq := 1 |};
     redis := ∅; now := 0; calls := []; logs := [] |}.

(* A trailing-slash recommendation for the closed examples, after what gin
   documents for RedirectTrailingSlash: the redirect goes to the path
   without its last slash, or with one added, when a route of the tree
   matches that path. The library's tree recommends the redirect for some
   further paths; the statements that are not closed examples hold for any
   recommendation. *)
Definition documented_redirect (tree : list Gin.Route) (req : Request)
  : option string :=
  let path := Path req in
  let other :=
    if GoStrings.HasSuffix path "/"
    then GoStrings.slice_to (String.length path - 1) path
    else path +:+ "/" in
  if existsb (fun r =>
                match Gin.match_segments (Gin.split_slash "" (Gin.route_path r))
                        (Gin.split_slash "" other) with
                | Some _ => true
                | None => false
                end) tree
  then Some other
  else None.

End Scenario.

(** Package config: the settings read from the environment. The variables
    that godotenv.Load adds from a .env file are taken as part of [env]. *)
Module Config.

Record Config := {
  Port : string;
  Environment : string;
  DatabaseURL : string;
  RedisURL : string;
  BaseURL : string
}.

(* os.Getenv: the empty string for a variable that is not set. *)
Definition os_Getenv (env : gmap string string) (key : string) : string :=
  match env !! key with
  | Some value => value
  | None => ""
  end.

Definition getEnv (env : gmap string string) (key defaultValue : string) : string :=
  let value := os_Getenv env key in
  if negb (String.eqb value "") then value else defaultValue.

Definition Load (env : gmap string string) : Config :=
  {| Port := getEnv env "PORT" "8080";
     Environment := getEnv env "ENVIRONMENT" "development";
     DatabaseURL :=
       getEnv env "DATABASE_URL" "postgres://localhost:5432/urlshortener?sslmode=disable";
     RedisURL := getEnv env "REDIS_URL" "redis://localhost:6379";
     BaseURL := getEnv env "BASE_URL" "http://localhost:8080" |}.

End Config.

(** Measures and runs used to state what the worker, the limiter and the
    handlers keep. *)
Module Runs.
Import Repository Services Handlers.

(* The clicks that the INSERTs into analytics issued so far were made
   with, oldest first: code, address and user agent. *)
Fixpoint inserted_clicks (cs : list Call) : list (string * string * string) :=
  match cs with
  | [] => []
  | SQL_InsertAnalytics shortCode ipAddress userAgent :: rest =>
      (shortCode, ipAddress, userAgent) :: inserted_clicks rest
  | _ :: rest => inserted_clicks rest
  end.

Definition item_click (a : Models.Analytics) : string * string * string :=
  (Models.Analytics_ShortCode a, Models.Analytics_IPAddress a,
   Models.Analytics_UserAgent a).

Definition event_click (e : Analytics.AnalyticsEvent) : string * string * string :=
  (Analytics.Event_ShortCode e, Analytics.Event_IPAddress e,
   Analytics.Event_UserAgent e).

(* The clicks that the worker has to do with, in the order of their
   arrival: those it has issued an INSERT for, those in its batch, those
   still in the queue. *)
Definition clicks_in_order (s : Analytics.AnalyticsService) (w : World)
  : list (string * string * string) :=
  inserted_clicks (calls w)
  ++ map item_click (Analytics.batch s)
  ++ map event_click (Analytics.eventQueue s).

(* The wake-ups of the processEvents loop, one after the other. *)
Fixpoint processEvents_run (inet_in : string -> bool) (fault : nat -> option string)
    (wakes : list Analytics.Wakeup) (s : Analytics.AnalyticsService) (w : World)
  : Analytics.AnalyticsService * World :=
  match wakes with
  | [] => (s, w)
  | wake :: rest =>
      let '(s, w) := Analytics.processEvents_step inet_in fault wake s w in
      processEvents_run inet_in fault rest s w
  end.

(* The number that a string of decimal digits denotes, read from the left
   with [acc] as the value so far. *)
Fixpoint decimal_value (acc : Z) (d : Decimal.uint) : Z :=
  match d with
  | Decimal.Nil => acc
  | Decimal.D0 l => decimal_value (acc * 10 + 0) l
  | Decimal.D1 l => decimal_value (acc * 10 + 1) l
  | Decimal.D2 l => decimal_value (acc * 10 + 2) l
  | Decimal.D3 l => decimal_value (acc * 10 + 3) l
  | Decimal.D4 l => decimal_value (acc * 10 + 4) l
  | Decimal.D5 l => decimal_value (acc * 10 + 5) l
  | Decimal.D6 l => decimal_value (acc * 10 + 6) l
  | Decimal.D7 l => decimal_value (acc * 10 + 7) l
  | Decimal.D8 l => decimal_value (acc * 10 + 8) l
  | Decimal.D9 l => decimal_value (acc * 10 + 9) l
  end.

(* Whether the INSERT of the item at position [i] of a batch goes through,
   for an item whose code the urls table holds: the environment injects no
   error and the column of type INET takes the address. *)
Definition goes_through (inet_in : string -> bool) (fault : nat -> option string)
    (i : nat) (a : Models.Analytics) : bool :=
  match fault i with
  | None => inet_in (Models.Analytics_IPAddress a)
  | Some _ => false
  end.

(* The items of a batch whose INSERT goes through, [i] being the position
   of the first item in the batch. *)
Fixpoint let_through (inet_in : string -> bool) (i : nat)
    (fault : nat -> option string) (items : list Models.Analytics)
  : list Models.Analytics :=
  match items with
  | [] => []
  | a :: rest =>
      if goes_through inet_in fault i a
      then a :: let_through inet_in (S i) fault rest
      else let_through inet_in (S i) fault rest
  end.


(* What the sanitizers promise of a queued event: a user agent that is not
   empty and at most 500 bytes long, and an address that is the literal
   "unknown" or one that net.ParseIP accepts. *)
Definition sanitized (net_ParseIP : string -> bool) (e : Analytics.AnalyticsEvent)
  : Prop :=
  Analytics.Event_UserAgent e <> ""
  /\ GoStrings.len (Analytics.Event_UserAgent e) <= 500
  /\ (Analytics.Event_IPAddress e = "unknown"
      \/ net_ParseIP (Analytics.Event_IPAddress e) = true).

(* Each instant lies less than one window after the one before it. *)
Fixpoint spaced (prev : Z) (ts : list Z) : Prop :=
  match ts with
  | [] => True
  | t :: ts' => prev <= t < prev + timeWindow /\ spaced t ts'
  end.

End Runs.

(** The closed examples and witnesses below run on ASCII text, where
    strings.ToLower never reaches the Unicode tables. They are stated with
    this instance, whose method is not called on their inputs; every other
    statement is about an arbitrary instance. *)
#[global] Instance ascii_examples : GoStrings.Unicode := fun s => s.

(** * Properties *)

Import GoStrings Base62 Base62Spec Repository Services Fmt Analytics Handlers Scenario.

(** ** The repository's unit tests, run on the embedding *)

Example TestBase62Encoding :
  map encodeBase62 [0; 1; 61; 62; 123; 12345; 999999]
  = ["0"; "1"; "Z"; "10"; "1Z"; "3d7"; "4c91"].
Proof. vm_compute. reflexivity. Qed.

Example TestValidateURL_valid {U : Unicode} :
  map validateURL
    ["https://example.com"; "http://example.com";
     "https://subdomain.example.com/path";
     "https://example.com:8080/path?query=value";
     "https://www.example.com/path/to/resource"; "http://192.168.1.1:3000"]
  = repeat None 6.
Proof. vm_compute. reflexivity. Qed.

Example TestValidateURL_invalid {U : Unicode} :
  forallb (fun rawURL => match validateURL rawURL with Some _ => true | None => false end)
    ["javascript:alert('xss')"; "file:///etc/passwd"; "ftp://example.com";
     "data:text/html,<script>alert('xss')</script>"; "not-a-url"; "";
     "https://"; "http://"]
  = true.
Proof. vm_compute. reflexivity. Qed.

Example TestValidateCustomAlias_valid {U : Unicode} :
  map validateCustomAlias
    ["my-link"; "user_123"; "abc"; "test-link-123"; "MyCustomAlias"; "valid-alias";
     "user123"]
  = repeat None 7.
Proof. vm_compute. reflexivity. Qed.

Example TestValidateCustomAlias_invalid {U : Unicode} :
  forallb (fun alias => match validateCustomAlias alias with
                        | Some _ => true | None => false end)
    ["ab"; "a"; ""; "api"; "admin"; "health"; "my alias"; "my@alias"; "my.alias";
     "very-long-alias-that-exceeds-twenty-characters"]
  = true.
Proof. vm_compute. reflexivity. Qed.

Example TestNormalizeURL {U : Unicode} :
  map normalizeURL
    ["example.com"; "http://example.com/"; "https://example.com/path/";
     "https://example.com/path?query=value"; "http://subdomain.example.com"]
  = map Some
      ["https://example.com"; "http://example.com"; "https://example.com/path";
       "https://example.com/path?query=value"; "http://subdomain.example.com"].
Proof. vm_compute. reflexivity. Qed.

(** ** The base-62 encoder *)

Lemma encode_loop_acc fuel : forall num acc,
  encode_loop fuel num acc = acc ++ encode_loop fuel num [].
Proof.
  induction fuel as [|k IH]; intros num acc; simpl.
  - now rewrite app_nil_r.
  - destruct (0 <? num); [|now rewrite app_nil_r].
    rewrite IH, (IH _ [_]), <- app_assoc. reflexivity.
Qed.

Lemma encode_loop_digits fuel : forall num,
  encode_loop fuel num [] = map (byte_at base62Chars) (digits_lsd fuel num).
Proof.
  induction fuel as [|k IH]; intros num; simpl; [reflexivity|].
  destruct (0 <? num); [|reflexivity].
  rewrite encode_loop_acc, IH. reflexivity.
Qed.

Lemma digits_lsd_range fuel : forall num, Forall is_digit62 (digits_lsd fuel num).
Proof.
  induction fuel as [|k IH]; intros num; simpl; [constructor|].
  destruct (Z.ltb_spec 0 num); constructor; [|apply IH].
  unfold is_digit62.
  pose proof (Z.rem_bound_pos num 62). lia.
Qed.

Lemma value_msd_snoc ds : forall acc d,
  value_msd acc (ds ++ [d]) = value_msd acc ds * 62 + d.
Proof. induction ds as [|x ds IH]; intros; simpl; [reflexivity|apply IH]. Qed.

Lemma quot62_bound k num :
  0 < num < 2 ^ Z.of_nat (S k) -> 0 <= Z.quot num 62 < 2 ^ Z.of_nat k.
Proof.
  intros [Hpos Hlt]. split; [apply Z.quot_pos; lia|].
  apply Z.quot_lt_upper_bound; try lia.
  rewrite Nat2Z.inj_succ, Z.pow_succ_r in Hlt by lia.
  assert (0 < 2 ^ Z.of_nat k) by (apply Z.pow_pos_nonneg; lia). lia.
Qed.

Lemma digits_lsd_value fuel : forall num,
  0 <= num < 2 ^ Z.of_nat fuel ->
  value_msd 0 (rev (digits_lsd fuel num)) = num.
Proof.
  induction fuel as [|k IH]; intros num Hn.
  - simpl in *. lia.
  - cbn [digits_lsd]. destruct (Z.ltb_spec 0 num); [|simpl; lia].
    cbn [rev]. rewrite value_msd_snoc, IH by (apply quot62_bound; lia).
    pose proof (Z.quot_rem' num 62). lia.
Qed.

Lemma digits_lsd_msd_nonzero fuel : forall num,
  0 <= num < 2 ^ Z.of_nat fuel ->
  hd 0 (rev (digits_lsd fuel num)) = 0 -> num = 0.
Proof.
  induction fuel as [|k IH]; intros num Hn Hhd.
  - simpl in *. lia.
  - cbn [digits_lsd] in Hhd. destruct (Z.ltb_spec 0 num); [|lia].
    cbn [rev] in Hhd.
    pose proof (quot62_bound k num ltac:(lia)) as Hq.
    destruct (rev (digits_lsd k (Z.quot num 62))) as [|d ds] eqn:E.
    + simpl in Hhd.
      pose proof (digits_lsd_value k _ Hq) as Hv. rewrite E in Hv. simpl in Hv.
      pose proof (Z.quot_rem' num 62). lia.
    + simpl in Hhd. specialize (IH _ Hq). rewrite E in IH. specialize (IH Hhd).
      pose proof (digits_lsd_value k _ Hq) as Hv. rewrite E, IH in Hv.
      (* quot = 0 but digits nonempty: impossible *)
      destruct k; simpl in E; [discriminate|].
      rewrite IH in E. simpl in E. discriminate.
Qed.

Lemma digit_value_byte_at d :
  is_digit62 d -> digit_value (byte_at base62Chars d) = Some d.
Proof.
  intros [Hlo Hhi].
  rewrite <- (Z2Nat.id d) by lia.
  assert (Hk : (Z.to_nat d < 62)%nat) by lia.
  generalize dependent (Z.to_nat d). intros k Hk.
  do 62 (destruct k as [|k]; [reflexivity|]). lia.
Qed.

Lemma get_In (s : string) : forall (k : nat) c,
  String.get k s = Some c -> In c (list_ascii_of_string s).
Proof.
  induction s as [|a s IH]; intros k c; simpl; [discriminate|].
  destruct k; [intros [= ->]; now left|]. intros H. right. eapply IH, H.
Qed.

Lemma byte_at_alphabet d :
  is_digit62 d -> In (byte_at base62Chars d) (list_ascii_of_string base62Chars).
Proof.
  intros Hd. pose proof (digit_value_byte_at d Hd) as Hv.
  unfold byte_at in *.
  destruct (String.get (Z.to_nat d) base62Chars) eqn:E; [eapply get_In, E|].
  vm_compute in Hv. destruct Hd. congruence.
Qed.

Lemma decode_from_base62_string ds : forall acc,
  Forall is_digit62 ds ->
  decode_from acc (base62_string ds) = Some (value_msd acc ds).
Proof.
  unfold base62_string.
  induction ds as [|d ds IH]; intros acc Hds; [reflexivity|].
  inversion Hds; subst. cbn [map string_of_list_ascii decode_from value_msd].
  rewrite digit_value_byte_at by assumption. apply IH. assumption.
Qed.

Lemma encodeBase62_digits num : encodeBase62 num = base62_string (msd_digits num).
Proof.
  unfold encodeBase62, msd_digits, base62_string.
  destruct (num =? 0); [reflexivity|].
  now rewrite encode_loop_digits, map_rev.
Qed.

Lemma msd_digits_range num : Forall is_digit62 (msd_digits num).
Proof.
  unfold msd_digits. destruct (num =? 0).
  - repeat constructor; unfold is_digit62; lia.
  - apply Forall_rev, digits_lsd_range.
Qed.

Lemma msd_digits_value num :
  0 <= num < 2 ^ 63 -> value_msd 0 (msd_digits num) = num.
Proof.
  intros Hn. unfold msd_digits. destruct (Z.eqb_spec num 0); [subst; reflexivity|].
  apply digits_lsd_value. change (Z.of_nat 64) with 64. lia.
Qed.

Lemma msd_digits_head num :
  0 <= num < 2 ^ 63 -> num <> 0 -> hd 0 (msd_digits num) <> 0.
Proof.
  intros Hn Hnz Hhd. unfold msd_digits in Hhd.
  destruct (Z.eqb_spec num 0); [contradiction|].
  apply Hnz, (digits_lsd_msd_nonzero 64); [change (Z.of_nat 64) with 64; lia|assumption].
Qed.

Lemma msd_digits_nonempty num : 0 <= num -> msd_digits num <> [].
Proof.
  intros Hn. unfold msd_digits. destruct (Z.eqb_spec num 0); [discriminate|].
  cbn [digits_lsd]. destruct (Z.ltb_spec 0 num); [|lia].
  cbn [rev]. intros Hnil. apply app_eq_nil in Hnil as [_ Hnil]. discriminate.
Qed.

Lemma decode_encodeBase62 num :
  0 <= num < 2 ^ 63 -> decodeBase62 (encodeBase62 num) = Some num.
Proof.
  intros Hn. rewrite encodeBase62_digits.
  pose proof (msd_digits_nonempty num ltac:(lia)) as Hne.
  pose proof (decode_from_base62_string (msd_digits num) 0 (msd_digits_range num)) as Hd.
  rewrite msd_digits_value in Hd by assumption.
  unfold decodeBase62. destruct (base62_string (msd_digits num)) eqn:E; [|exact Hd].
  unfold base62_string in E. destruct (msd_digits num); [contradiction|discriminate].
Qed.

(** C1. For every non-negative int64 [n], [encodeBase62 n] is the base-62
    numeral of [n], most significant digit first, over [base62Chars], and
    [encodeBase62 0] is "0": there is a list of digits below 62, not empty,
    whose numeral is the output and whose value is [n], with a leading digit
    that is zero only for [n = 0]. Hence the reference decoder is a left
    inverse, the encoder is injective on non-negative int64 values, every
    output character belongs to the alphabet, and an output other than "0"
    does not start with the digit '0'. *)
Theorem encodeBase62_bijective_msd_first (n : Z) (Hn : 0 <= n < 2 ^ 63) :
  encodeBase62 0 = "0"
  /\ (exists ds : list Z,
        encodeBase62 n = base62_string ds /\ ds <> [] /\ Forall is_digit62 ds
        /\ value_msd 0 ds = n /\ (n <> 0 -> hd 0 ds <> 0))
  /\ decodeBase62 (encodeBase62 n) = Some n
  /\ (forall m : Z, 0 <= m < 2 ^ 63 -> encodeBase62 m = encodeBase62 n -> m = n)
  /\ Forall (fun c => In c (list_ascii_of_string base62Chars))
            (list_ascii_of_string (encodeBase62 n))
  /\ (encodeBase62 n <> "0" ->
      exists c rest, encodeBase62 n = String c rest /\ c <> "0"%char).
Proof.
  split; [reflexivity|]. split; [|split; [|split; [|split]]].
  - exists (msd_digits n).
    repeat split; auto using encodeBase62_digits, msd_digits_range, msd_digits_value, msd_digits_head.
    apply msd_digits_nonempty; lia.
  - now apply decode_encodeBase62.
  - intros m Hm Heq. apply decode_encodeBase62 in Hm, Hn. congruence.
  - rewrite encodeBase62_digits. unfold base62_string.
    rewrite list_ascii_of_string_of_list_ascii. apply List.Forall_map.
    eapply List.Forall_impl; [|apply msd_digits_range]. intros d Hd. now apply byte_at_alphabet.
  - intros Hne. assert (Hnz : n <> 0) by (intros ->; now apply Hne).
    pose proof (msd_digits_head n Hn Hnz) as Hhd.
    pose proof (msd_digits_range n) as Hr.
    rewrite encodeBase62_digits. unfold base62_string.
    destruct (msd_digits n) as [|d ds]; [simpl in Hhd; lia|].
    exists (byte_at base62Chars d), (string_of_list_ascii (map (byte_at base62Chars) ds)).
    split; [reflexivity|]. intros Hc. inversion Hr; subst.
    pose proof (digit_value_byte_at d ltac:(assumption)) as Hv.
    rewrite Hc in Hv. vm_compute in Hv. simpl in Hhd. congruence.
Qed.

Lemma encodeBase62_bijective_msd_first_witness :
  decodeBase62 (encodeBase62 999999) = Some 999999 /\ encodeBase62 999999 = "4c91".
Proof.
  split; [|reflexivity].
  apply (encodeBase62_bijective_msd_first 999999); vm_compute; split; congruence.
Defined.

(** ** Validation in the shortening path *)

Lemma validateURL_ok_normalizeURL {U : Unicode} rawURL :
  validateURL rawURL = None -> exists normalizedURL, normalizeURL rawURL = Some normalizedURL.
Proof.
  unfold validateURL, normalizeURL.
  destruct (NetURL.Parse rawURL) as [parsedURL|]; [eauto|discriminate].
Qed.

Lemma validateURL_example_com {U : Unicode} :
  validateURL "example.com"
  = Some (errorString "only HTTP and HTTPS URLs are allowed").
Proof. vm_compute. reflexivity. Qed.

(** C2, as the claim states it, fails: on "example.com" the service stops in
    validateURL, whose scheme check precedes normalizeURL, and returns the
    invalid-URL error; no record and no code come back. *)
Lemma shorten_example_com_is_rejected :
  ShortenURL no_faults "example.com" "" empty_world
  = (Err (errorString "invalid URL: only HTTP and HTTPS URLs are allowed"), empty_world)
  /\ ~ (exists urlRecord w,
          ShortenURL no_faults "example.com" "" empty_world = (Ok urlRecord, w)).
Proof.
  assert (H : ShortenURL no_faults "example.com" "" empty_world
              = (Err (errorString "invalid URL: only HTTP and HTTPS URLs are allowed"),
                 empty_world)).
  { unfold ShortenURL. rewrite validateURL_example_com. reflexivity. }
  split; [exact H|]. intros (urlRecord & w & Hok). rewrite H in Hok. discriminate.
Qed.

(** C2, amended. For the input "example.com" (no scheme), whatever the alias,
    the environment and the state, ShortenURL fails with the invalid-URL
    error "only HTTP and HTTPS URLs are allowed" and leaves the state as it
    was. normalizeURL on its own maps "example.com" to "https://example.com",
    and with the scheme written out the same request succeeds with the code
    derived from the counter and that normalized URL. *)
Theorem shorten_example_com_needs_scheme
    {U : Unicode} (f : Faults) (customAlias : string) (w : World) :
  ShortenURL f "example.com" customAlias w
  = (Err (errorString "invalid URL: only HTTP and HTTPS URLs are allowed"), w)
  /\ normalizeURL "example.com" = Some "https://example.com"
  /\ exists urlRecord w',
       ShortenURL no_faults "https://example.com" "" empty_world = (Ok urlRecord, w')
       /\ Models.URL_ShortCode urlRecord = encodeBase62 1
       /\ Models.URL_OriginalURL urlRecord = "https://example.com".
Proof.
  split; [|split].
  - unfold ShortenURL. rewrite validateURL_example_com. reflexivity.
  - vm_compute. reflexivity.
  - eexists _, _. split; [vm_compute; reflexivity|]. split; reflexivity.
Qed.

(** C8. When validateURL fails, or when it passes and the non-empty custom
    alias fails validateCustomAlias, ShortenURL returns that validation
    error, wrapped as "invalid URL: ..." or "invalid custom alias: ...", and
    the world it hands back is the one it was given: no nextval on the
    sequence, no existence query, no insert, no cache write, nothing added to
    the trace of calls. *)
Theorem ShortenURL_validation_fails_fast {U : Unicode}
    (f : Faults) (originalURL customAlias : string) (w : World) (e : error) :
  validateURL originalURL = Some e
  \/ (validateURL originalURL = None /\ customAlias <> ""
      /\ validateCustomAlias customAlias = Some e) ->
  exists msg,
    ShortenURL f originalURL customAlias w = (Err (errorString msg), w)
    /\ calls (snd (ShortenURL f originalURL customAlias w)) = calls w
    /\ pg (snd (ShortenURL f originalURL customAlias w)) = pg w
    /\ redis (snd (ShortenURL f originalURL customAlias w)) = redis w
    /\ (validateURL originalURL = Some e -> msg = "invalid URL: " +:+ Error e)
    /\ (validateURL originalURL = None -> msg = "invalid custom alias: " +:+ Error e).
Proof.
  intros [Hurl | (Hurl & Halias & Hval)].
  - exists ("invalid URL: " +:+ Error e).
    assert (Hrun : ShortenURL f originalURL customAlias w
                   = (Err (errorString ("invalid URL: " +:+ Error e)), w)).
    { unfold ShortenURL. rewrite Hurl. reflexivity. }
    rewrite Hrun. repeat split; try reflexivity. congruence.
  - exists ("invalid custom alias: " +:+ Error e).
    destruct (validateURL_ok_normalizeURL _ Hurl) as [normalizedURL Hnorm].
    assert (Hrun : ShortenURL f originalURL customAlias w
                   = (Err (errorString ("invalid custom alias: " +:+ Error e)), w)).
    { unfold ShortenURL. rewrite Hurl, Hnorm.
      destruct (String.eqb_spec customAlias ""); [contradiction|].
      cbn [negb]. rewrite Hval. reflexivity. }
    rewrite Hrun. repeat split; try reflexivity. congruence.
Qed.

Lemma ShortenURL_validation_fails_fast_witness :
  exists msg,
    ShortenURL no_faults "https://example.com" "api" empty_world
    = (Err (errorString msg), empty_world)
    /\ msg = "invalid custom alias: custom alias cannot be a reserved word".
Proof.
  destruct (ShortenURL_validation_fails_fast no_faults "https://example.com" "api"
              empty_world (errorString "custom alias cannot be a reserved word"))
    as (msg & Hrun & _ & _ & _ & _ & Hmsg).
  - right. split; [vm_compute; reflexivity|]. split; [discriminate|].
    vm_compute. reflexivity.
  - exists msg. split; [exact Hrun|]. apply Hmsg. vm_compute. reflexivity.
Defined.

(** ** The cache and the rate limiter *)

Lemma RedisCache_Get_fault msg key w :
  RedisCache_Get (Some msg) key w
  = (("", Some (errorString msg)), record_call (Redis_Get key) w).
Proof. reflexivity. Qed.

Lemma RedisCache_Get_hit key w value expiry :
  redis w !! key = Some (value, expiry) -> now w < expiry ->
  RedisCache_Get None key w = ((value, None), record_call (Redis_Get key) w).
Proof.
  intros Hlook Hlive. unfold RedisCache_Get. cbn [redis now record_call].
  rewrite Hlook. destruct (Z.ltb_spec (now w) expiry); [reflexivity|lia].
Qed.

Lemma RedisCache_Get_expired key w value expiry :
  redis w !! key = Some (value, expiry) -> expiry <= now w ->
  RedisCache_Get None key w = (("", Some redis_Nil), record_call (Redis_Get key) w).
Proof.
  intros Hlook Hdead. unfold RedisCache_Get. cbn [redis now record_call].
  rewrite Hlook. destruct (Z.ltb_spec (now w) expiry); [lia|reflexivity].
Qed.

Lemma RedisCache_Get_absent key w :
  redis w !! key = None ->
  RedisCache_Get None key w = (("", Some redis_Nil), record_call (Redis_Get key) w).
Proof.
  intros Hlook. unfold RedisCache_Get. cbn [redis now record_call].
  rewrite Hlook. reflexivity.
Qed.

Lemma RedisCache_SetWithTTL_ok key value ttl w :
  RedisCache_SetWithTTL None key value ttl w
  = (None, set_redis (<[key := (value, now w + ttl)]> (redis w))
             (record_call (Redis_Set key value ttl) w)).
Proof. reflexivity. Qed.

Lemma RedisCache_SetWithTTL_fault msg key value ttl w :
  RedisCache_SetWithTTL (Some msg) key value ttl w
  = (Some (errorString msg), record_call (Redis_Set key value ttl) w).
Proof. reflexivity. Qed.

Lemma Sscanf_Sprintf_upto_100 k :
  0 <= k <= 100 -> Sscanf_d (Sprintf_d k) = Some k.
Proof.
  intros Hk.
  assert (Hall : forallb (fun n => match Sscanf_d (Sprintf_d n) with
                                   | Some v => v =? n
                                   | None => false
                                   end)
                   (map Z.of_nat (seq 0 101)) = true) by (vm_compute; reflexivity).
  rewrite forallb_forall in Hall.
  specialize (Hall k). destruct (Sscanf_d (Sprintf_d k)) as [v|].
  - f_equal. apply Z.eqb_eq, Hall.
    apply in_map_iff. exists (Z.to_nat k). split; [lia|apply in_seq; lia].
  - discriminate Hall.
    apply in_map_iff. exists (Z.to_nat k). split; [lia|apply in_seq; lia].
Qed.

Lemma wrap_int_small n : min_int64 <= n <= max_int64 -> wrap_int n = n.
Proof.
  unfold wrap_int, min_int64, max_int64. intros Hn.
  rewrite Z.mod_small by lia. lia.
Qed.

(** The limiter on a read error or an absent key: the counter restarts. *)
Lemma RateLimitMiddleware_restart f clientIP w e w1 :
  RedisCache_Get (cache_get_fault f) (rate_key clientIP) w = (("", Some e), w1) ->
  RateLimitMiddleware f clientIP w
  = (Next, snd (RedisCache_SetWithTTL (cache_set_fault f) (rate_key clientIP) "1"
                  timeWindow w1)).
Proof.
  intros Hget. unfold RateLimitMiddleware. fold (rate_key clientIP). rewrite Hget.
  destruct (RedisCache_SetWithTTL _ _ _ _ _) as [[err|] w2]; reflexivity.
Qed.

(** The limiter on a live counter that reads [k]. *)
Lemma RateLimitMiddleware_counted f clientIP w k expiry :
  cache_get_fault f = None ->
  redis w !! rate_key clientIP = Some (Sprintf_d k, expiry) -> now w < expiry ->
  0 <= k <= 100 ->
  RateLimitMiddleware f clientIP w
  = if 100 <=? k
    then (denied, record_call (Redis_Get (rate_key clientIP)) w)
    else (Next, snd (RedisCache_SetWithTTL (cache_set_fault f) (rate_key clientIP)
                       (Sprintf_d (k + 1)) timeWindow
                       (record_call (Redis_Get (rate_key clientIP)) w))).
Proof.
  intros Hf Hlook Hlive Hk. unfold RateLimitMiddleware. fold (rate_key clientIP).
  rewrite Hf, (RedisCache_Get_hit _ _ _ _ Hlook Hlive).
  rewrite Sscanf_Sprintf_upto_100 by assumption.
  rewrite wrap_int_small by (unfold min_int64, max_int64; lia).
  unfold maxRequests.
  destruct (Z.ltb_spec 100 (k + 1)), (Z.leb_spec 100 k); try lia.
  - reflexivity.
  - destruct (RedisCache_SetWithTTL _ _ _ _ _) as [[err|] w2]; reflexivity.
Qed.

(** C10. Whatever error the cache read returns, the limiter does what it
    does for an absent key: it lets the request through and issues one write
    of the counter "1" with the window as TTL; when that write succeeds the
    stored counter is "1" with a fresh 60-second TTL, whatever had been
    counted before. On a world where the key is absent, the run with the
    read error and the run with a healthy read are the same run. *)
Theorem rate_limit_read_error_restarts_counter
    (f f' : Faults) (clientIP : string) (w : World) (msg : string) :
  cache_get_fault f = Some msg ->
  fst (RateLimitMiddleware f clientIP w) = Next
  /\ calls (snd (RateLimitMiddleware f clientIP w))
     = calls w ++ [Redis_Get (rate_key clientIP);
                   Redis_Set (rate_key clientIP) "1" timeWindow]
  /\ (cache_set_fault f = None ->
      redis (snd (RateLimitMiddleware f clientIP w))
      = <[rate_key clientIP := ("1", now w + 60 * time_Second)]> (redis w))
  /\ (redis w !! rate_key clientIP = None ->
      cache_get_fault f' = None -> cache_set_fault f' = cache_set_fault f ->
      RateLimitMiddleware f' clientIP w = RateLimitMiddleware f clientIP w).
Proof.
  intros Hget.
  assert (Hrun : RateLimitMiddleware f clientIP w
                 = (Next, snd (RedisCache_SetWithTTL (cache_set_fault f)
                                 (rate_key clientIP) "1" timeWindow
                                 (record_call (Redis_Get (rate_key clientIP)) w)))).
  { eapply RateLimitMiddleware_restart. rewrite Hget. apply RedisCache_Get_fault. }
  rewrite Hrun. split; [reflexivity|]. split; [|split].
  - destruct (cache_set_fault f); cbn; rewrite <- app_assoc; reflexivity.
  - intros Hset. rewrite Hset. reflexivity.
  - intros Habsent Hget' Hset'.
    erewrite RateLimitMiddleware_restart
      by (rewrite Hget'; apply RedisCache_Get_absent, Habsent).
    rewrite Hset'. reflexivity.
Qed.

Lemma rate_limit_read_error_restarts_counter_witness :
  let f := {| exists_fault := None; nextid_fault := None; create_fault := None;
              select_fault := None;
              cache_get_fault := Some "dial tcp 10.0.0.5:6379: i/o timeout";
              cache_set_fault := None; db_ping_fault := None;
              cache_ping_fault := None; concurrent_inserts := [] |} in
  let w := set_now (30 * time_Second)
             (set_redis {[ rate_key "203.0.113.7" := ("57", 45 * time_Second) ]}
                empty_world) in
  fst (RateLimitMiddleware f "203.0.113.7" w) = Next
  /\ redis (snd (RateLimitMiddleware f "203.0.113.7" w)) !! rate_key "203.0.113.7"
     = Some ("1", 90 * time_Second).
Proof.
  intros f w.
  destruct (rate_limit_read_error_restarts_counter f f "203.0.113.7" w
              "dial tcp 10.0.0.5:6379: i/o timeout" eq_refl)
    as (Hflow & _ & Hredis & _).
  split; [exact Hflow|]. rewrite (Hredis eq_refl). apply lookup_insert_eq.
Defined.

Lemma serve_all_app clientIP ts1 : forall ts2 w,
  serve_all clientIP (ts1 ++ ts2) w
  = (fst (serve_all clientIP ts1 w)
     ++ fst (serve_all clientIP ts2 (snd (serve_all clientIP ts1 w))),
     snd (serve_all clientIP ts2 (snd (serve_all clientIP ts1 w)))).
Proof.
  induction ts1 as [|t ts1 IH]; intros ts2 w.
  - cbn [app serve_all fst snd]. now destruct (serve_all clientIP ts2 w).
  - cbn [app serve_all].
    destruct (RateLimitMiddleware no_faults clientIP (set_now t w)) as [flow w1].
    rewrite IH. destruct (serve_all clientIP ts1 w1) as [flows w2]. reflexivity.
Qed.

Lemma last_cons_default {A} (t : A) ts d : List.last (t :: ts) d = List.last ts t.
Proof.
  revert t d. induction ts as [|x ts IH]; intros t d; [reflexivity|].
  change (List.last (t :: x :: ts) d) with (List.last (x :: ts) d).
  rewrite (IH x d), (IH x t). reflexivity.
Qed.

Lemma Forall_last {A} (P : A -> Prop) (l : list A) : forall d,
  Forall P l -> P d -> P (List.last l d).
Proof.
  induction l as [|x l IH]; intros d Hl Hd; [exact Hd|].
  inversion Hl; subst. rewrite last_cons_default. now apply IH.
Qed.

(** While the counter stays below the threshold, every request of the
    window is let through and leaves the counter one higher, with the TTL
    counted from that request. *)
Lemma serve_all_allowed clientIP (T : Z) : forall ts k w t0,
  1 <= k -> k + Z.of_nat (length ts) <= 100 ->
  redis w !! rate_key clientIP = Some (Sprintf_d k, t0 + timeWindow) ->
  T <= t0 ->
  Forall (fun t => T <= t < T + timeWindow) ts ->
  fst (serve_all clientIP ts w) = repeat Next (length ts)
  /\ redis (snd (serve_all clientIP ts w)) !! rate_key clientIP
     = Some (Sprintf_d (k + Z.of_nat (length ts)), List.last ts t0 + timeWindow).
Proof.
  induction ts as [|t ts IH]; intros k w t0 Hk Hmax Hlook Ht0 Hwin.
  - cbn [serve_all fst snd length repeat List.last]. rewrite Z.add_0_r. now split.
  - cbn [length] in Hmax. inversion Hwin as [|? ? Ht Hwin']; subst.
    cbn [serve_all].
    rewrite (RateLimitMiddleware_counted no_faults clientIP (set_now t w) k
               (t0 + timeWindow))
      by (try reflexivity; try assumption; cbn; lia).
    destruct (Z.leb_spec 100 k); [lia|].
    rewrite RedisCache_SetWithTTL_ok. cbn [snd].
    set (w1 := set_redis _ _).
    assert (Hlook1 : redis w1 !! rate_key clientIP
                     = Some (Sprintf_d (k + 1), t + timeWindow))
      by (subst w1; cbn [redis set_redis now record_call set_now];
          apply lookup_insert_eq).
    destruct (IH (k + 1) w1 t) as (Hflows & Hl); try assumption; try lia.
    destruct (serve_all clientIP ts w1) as [flows w2]. cbn [fst snd] in *.
    split; [cbn [length repeat]; now rewrite Hflows|].
    rewrite last_cons_default, Hl.
    replace (k + 1 + Z.of_nat (length ts)) with (k + Z.of_nat (length (t :: ts)))
      by (cbn [length]; lia).
    reflexivity.
Qed.

(** C3. One client, no cache errors, no counter stored yet, and 101 requests
    in sequence that all fall within 60 seconds of the first: the first 100
    are let through and the 101st is refused with status 429. The refused
    request leaves the cache as it found it, the counter then still reads
    "100"; and a request that finds a live counter [k] below 100 writes
    [k + 1] back with the TTL reset to the window length, while one that
    finds 100 or more is refused without a write. *)
Theorem rate_limit_100_allowed_then_denied
    (clientIP : string) (w : World) (t1 : Z) (allowed : list Z) (t101 : Z) :
  redis w !! rate_key clientIP = None ->
  length allowed = 99%nat ->
  Forall (fun t => t1 <= t < t1 + timeWindow) (allowed ++ [t101]) ->
  fst (serve_all clientIP (t1 :: allowed ++ [t101]) w) = repeat Next 100 ++ [denied]
  /\ redis (snd (serve_all clientIP (t1 :: allowed ++ [t101]) w))
     = redis (snd (serve_all clientIP (t1 :: allowed) w))
  /\ redis (snd (serve_all clientIP (t1 :: allowed) w)) !! rate_key clientIP
     = Some ("100", List.last allowed t1 + 60 * time_Second)
  /\ (forall w0 k expiry,
        1 <= k <= 100 ->
        redis w0 !! rate_key clientIP = Some (Sprintf_d k, expiry) ->
        now w0 < expiry ->
        (k < 100 ->
         fst (RateLimitMiddleware no_faults clientIP w0) = Next
         /\ redis (snd (RateLimitMiddleware no_faults clientIP w0))
            = <[rate_key clientIP := (Sprintf_d (k + 1), now w0 + 60 * time_Second)]>
                (redis w0))
        /\ (k = 100 ->
            fst (RateLimitMiddleware no_faults clientIP w0) = denied
            /\ redis (snd (RateLimitMiddleware no_faults clientIP w0)) = redis w0)).
Proof.
  intros Habsent Hlen Hwin.
  apply Forall_app in Hwin as [Hwin Hlast]. inversion Hlast as [|? ? Ht101 _]; subst.
  (* request 1 starts the window *)
  assert (Hfirst : RateLimitMiddleware no_faults clientIP (set_now t1 w)
                   = (Next, set_redis (<[rate_key clientIP := ("1", t1 + timeWindow)]>
                                         (redis w))
                              (record_call (Redis_Set (rate_key clientIP) "1" timeWindow)
                                 (record_call (Redis_Get (rate_key clientIP))
                                    (set_now t1 w))))).
  { erewrite RateLimitMiddleware_restart
      by (apply RedisCache_Get_absent; exact Habsent).
    reflexivity. }
  set (w1 := set_redis _ _) in Hfirst.
  assert (Hlook1 : redis w1 !! rate_key clientIP = Some (Sprintf_d 1, t1 + timeWindow))
    by (subst w1; cbn [redis set_redis]; apply lookup_insert_eq).
  (* requests 2 to 100 *)
  destruct (serve_all_allowed clientIP t1 allowed 1 w1 t1) as (Hflows & Hl);
    try assumption; try lia.
  rewrite Hlen in Hflows, Hl. change (1 + Z.of_nat 99) with 100 in Hl.
  assert (Hprefix : serve_all clientIP (t1 :: allowed) w
                    = (repeat Next 100, snd (serve_all clientIP allowed w1))).
  { cbn [serve_all]. rewrite Hfirst.
    destruct (serve_all clientIP allowed w1) as [flows w2]. cbn [fst snd] in *.
    now rewrite Hflows. }
  set (w100 := snd (serve_all clientIP allowed w1)) in *.
  (* request 101 *)
  assert (Hdenied : RateLimitMiddleware no_faults clientIP (set_now t101 w100)
                    = (denied, record_call (Redis_Get (rate_key clientIP))
                                 (set_now t101 w100))).
  { rewrite (RateLimitMiddleware_counted no_faults clientIP (set_now t101 w100) 100
               (List.last allowed t1 + timeWindow));
      [reflexivity|reflexivity|exact Hl| |lia].
    cbn [now set_now].
    pose proof (Forall_last (fun t => t1 <= t < t1 + timeWindow) allowed t1 Hwin) as Hl'.
    cbn beta in Hl'. unfold timeWindow, time_Minute, time_Second in *. lia. }
  assert (Hall : serve_all clientIP (t1 :: allowed ++ [t101]) w
                 = (repeat Next 100 ++ [denied],
                    record_call (Redis_Get (rate_key clientIP)) (set_now t101 w100))).
  { change (t1 :: allowed ++ [t101]) with ((t1 :: allowed) ++ [t101]).
    rewrite serve_all_app, Hprefix. cbn [fst snd serve_all]. rewrite Hdenied.
    reflexivity. }
  rewrite Hall, Hprefix. cbn [fst snd].
  split; [reflexivity|]. split; [reflexivity|]. split; [exact Hl|].
  intros w0 k expiry Hk Hlook Hlive. split.
  - intros Hlt.
    rewrite (RateLimitMiddleware_counted no_faults clientIP w0 k expiry)
      by (try reflexivity; try assumption; lia).
    destruct (Z.leb_spec 100 k); [lia|]. split; reflexivity.
  - intros ->.
    rewrite (RateLimitMiddleware_counted no_faults clientIP w0 100 expiry)
      by (try reflexivity; try assumption; lia).
    split; reflexivity.
Qed.

Lemma rate_limit_100_allowed_then_denied_witness :
  fst (serve_all "203.0.113.7"
         (0 :: map (fun i => Z.of_nat i * (time_Second / 2)) (seq 1 99)
            ++ [59 * time_Second]) empty_world)
  = repeat Next 100 ++ [denied].
Proof.
  apply (rate_limit_100_allowed_then_denied "203.0.113.7" empty_world 0
           (map (fun i => Z.of_nat i * (time_Second / 2)) (seq 1 99))
           (59 * time_Second)).
  - reflexivity.
  - reflexivity.
  - apply List.Forall_forall. intros t Hin.
    assert (Hall : forallb (fun t => (0 <=? t) && (t <? 0 + timeWindow))
                     (map (fun i => Z.of_nat i * (time_Second / 2)) (seq 1 99)
                        ++ [59 * time_Second]) = true)
      by (vm_compute; reflexivity).
    rewrite forallb_forall in Hall. specialize (Hall t Hin).
    unfold timeWindow, time_Minute, time_Second in *. lia.
Defined.

(** ** Analytics capture *)

Lemma substring_length_le s : forall n m,
  (String.length (String.substring n m s) <= String.length s)%nat.
Proof.
  induction s as [|c s IH]; intros n m; [destruct n, m; cbn; lia|].
  destruct n as [|n]; [destruct m as [|m]|]; cbn [String.substring String.length].
  - lia.
  - specialize (IH O m). lia.
  - specialize (IH n m). lia.
Qed.

Lemma TrimLeftFunc_IsSpace_length fuel : forall s,
  (String.length (TrimLeftFunc_IsSpace fuel s) <= String.length s)%nat.
Proof.
  induction fuel as [|fuel IH]; intros s; cbn [TrimLeftFunc_IsSpace]; [lia|].
  destruct s as [|c s']; [cbn; lia|].
  destruct (DecodeRuneInString (String c s')) as [r size].
  destruct (IsSpace r); [|lia].
  specialize (IH (slice_from size (String c s'))).
  pose proof (substring_length_le (String c s') size
                (String.length (String c s') - size)) as Hsub.
  unfold slice_from in *. lia.
Qed.

Lemma TrimRightFunc_IsSpace_length fuel : forall s,
  (String.length (TrimRightFunc_IsSpace fuel s) <= String.length s)%nat.
Proof.
  induction fuel as [|fuel IH]; intros s; cbn [TrimRightFunc_IsSpace]; [lia|].
  destruct s as [|c s']; [cbn; lia|].
  destruct (DecodeLastRuneInString (String c s')) as [r size].
  destruct (IsSpace r); [|lia].
  specialize (IH (slice_to (String.length (String c s') - size) (String c s'))).
  pose proof (substring_length_le (String c s') 0
                (String.length (String c s') - size)) as Hsub.
  unfold slice_to in *. lia.
Qed.

Lemma TrimLeftSpace_length s : (String.length (TrimLeftSpace s) <= String.length s)%nat.
Proof. apply TrimLeftFunc_IsSpace_length. Qed.

Lemma TrimRightSpace_length s : (String.length (TrimRightSpace s) <= String.length s)%nat.
Proof. apply TrimRightFunc_IsSpace_length. Qed.

Lemma TrimSpace_length s : (String.length (TrimSpace s) <= String.length s)%nat.
Proof.
  unfold TrimSpace. pose proof (TrimRightSpace_length (TrimLeftSpace s)).
  pose proof (TrimLeftSpace_length s). lia.
Qed.

Lemma slice_to_length n s : (String.length (slice_to n s) <= n)%nat.
Proof.
  unfold slice_to. revert s. induction n as [|n IH]; intros s.
  - destruct s; cbn; lia.
  - destruct s as [|c s]; cbn [String.substring String.length]; [lia|].
    specialize (IH s). lia.
Qed.

Lemma RecordClickAsync_world net_ParseIP shortCode ipAddress userAgent s w :
  let r := RecordClickAsync net_ParseIP shortCode ipAddress userAgent s w in
  now (snd r) = now w /\ pg (snd r) = pg w /\ redis (snd r) = redis w
  /\ calls (snd r) = calls w /\ batch (fst r) = batch s.
Proof.
  unfold RecordClickAsync.
  destruct (Z.of_nat (length (eventQueue s)) <? eventQueue_cap); cbn; repeat split.
Qed.

(** The event that RecordClickAsync builds is the one written out in
    [event_of]. *)
Lemma RecordClickAsync_event net_ParseIP shortCode ipAddress userAgent t :
  {| Event_ShortCode := shortCode;
     Event_IPAddress := sanitizeIPAddress net_ParseIP ipAddress;
     Event_UserAgent := sanitizeUserAgent userAgent;
     Event_Timestamp := t |}
  = event_of net_ParseIP t (shortCode, ipAddress, userAgent).
Proof.
  unfold event_of, sanitizeIPAddress, sanitizeUserAgent. cbv zeta.
  destruct (net_ParseIP _); reflexivity.
Qed.

Lemma capture_all_queue net_ParseIP clicks : forall s w,
  eventQueue (fst (capture_all net_ParseIP clicks s w))
  = eventQueue s
    ++ firstn (Z.to_nat (eventQueue_cap - Z.of_nat (length (eventQueue s))))
         (map (event_of net_ParseIP (now w)) clicks).
Proof.
  induction clicks as [|[[shortCode ipAddress] userAgent] clicks IH]; intros s w.
  - cbn [capture_all fst map]. now rewrite firstn_nil, app_nil_r.
  - cbn [capture_all map].
    pose proof (RecordClickAsync_world net_ParseIP shortCode ipAddress userAgent s w)
      as (Hnow & _).
    unfold RecordClickAsync in *.
    destruct (Z.ltb_spec (Z.of_nat (length (eventQueue s))) eventQueue_cap) as [Hroom|Hfull].
    + rewrite IH. cbn [eventQueue now]. rewrite length_app, <- app_assoc. cbn [length].
      replace (Z.to_nat (eventQueue_cap - Z.of_nat (length (eventQueue s))))
        with (S (Z.to_nat (eventQueue_cap
                           - Z.of_nat (length (eventQueue s) + 1)))) by lia.
      rewrite RecordClickAsync_event. reflexivity.
    + rewrite IH. cbn [now log].
      replace (Z.to_nat (eventQueue_cap - Z.of_nat (length (eventQueue s))))
        with O by lia.
      reflexivity.
Qed.

(** The event of [event_of] is sanitized: its user agent is not empty and
    at most 500 bytes long, its address is "unknown" or one that net.ParseIP
    accepts. *)
Lemma event_of_sanitized net_ParseIP t click :
  Runs.sanitized net_ParseIP (event_of net_ParseIP t click).
Proof.
  destruct click as [[shortCode ipAddress] userAgent].
  unfold Runs.sanitized, event_of. cbv zeta.
  cbn [Event_UserAgent Event_IPAddress].
  set (cut := if 500 <? len userAgent then slice_to 500 userAgent else userAgent).
  set (address := if Contains ipAddress "," then _ else _).
  assert (Hcut : (String.length cut <= 500)%nat).
  { subst cut. unfold len.
    destruct (Z.ltb_spec 500 (Z.of_nat (String.length userAgent))); [|lia].
    apply slice_to_length. }
  pose proof (TrimSpace_length cut) as Htrim.
  split; [|split].
  - destruct (String.eqb_spec (TrimSpace cut) ""); [discriminate|assumption].
  - destruct (String.eqb_spec (TrimSpace cut) ""); [vm_compute; discriminate|].
    unfold len. lia.
  - destruct (net_ParseIP address) eqn:Hip; [right; exact Hip|now left].
Qed.

(** C7. RecordClickAsync has no error result and its select has a default
    case, so for every input and queue state it returns, without waiting,
    and returns nothing that the caller could take for a failure. With room
    in the queue (fewer than 10000 events) the sanitized event, stamped with
    the current time, goes to the back of the queue and nothing else
    changes; with a full queue the service is returned as it was and a
    warning is logged. The sanitized event is written out in [event_of]:
    the code as given; the first comma-separated part of the address,
    trimmed, or "unknown" when net.ParseIP refuses it; the first 500 bytes
    of the user agent, trimmed, or "unknown" when that is empty. So its user
    agent is never empty and never longer than 500 bytes, and its address is
    "unknown" or a parsable one. In both cases the batch, the database, the
    cache, the clock and the trace of store calls are untouched. Capturing
    any run of clicks keeps the events that fit, in order, and drops the
    excess ones only. *)
Theorem RecordClickAsync_never_blocks_never_fails
    (net_ParseIP : string -> bool) (shortCode ipAddress userAgent : string)
    (s : AnalyticsService) (w : World) (clicks : list (string * string * string)) :
  let r := RecordClickAsync net_ParseIP shortCode ipAddress userAgent s w in
  let event := event_of net_ParseIP (now w) (shortCode, ipAddress, userAgent) in
  (Z.of_nat (length (eventQueue s)) < 10000 ->
   eventQueue (fst r) = eventQueue s ++ [event] /\ snd r = w)
  /\ (10000 <= Z.of_nat (length (eventQueue s)) ->
      fst r = s /\ snd r = log "Analytics queue full, dropping click event" w)
  /\ Runs.sanitized net_ParseIP event
  /\ batch (fst r) = batch s
  /\ pg (snd r) = pg w /\ redis (snd r) = redis w
  /\ now (snd r) = now w /\ calls (snd r) = calls w
  /\ eventQueue (fst (capture_all net_ParseIP clicks s w))
     = eventQueue s
       ++ firstn (Z.to_nat (10000 - Z.of_nat (length (eventQueue s))))
            (map (event_of net_ParseIP (now w)) clicks).
Proof.
  intros r event.
  pose proof (RecordClickAsync_world net_ParseIP shortCode ipAddress userAgent s w)
    as (Hnow & Hpg & Hredis & Hcalls & Hbatch).
  fold r in Hnow, Hpg, Hredis, Hcalls, Hbatch.
  split; [|split; [|split; [apply event_of_sanitized|]]].
  - intros Hroom. subst r event. unfold RecordClickAsync.
    destruct (Z.ltb_spec (Z.of_nat (length (eventQueue s))) eventQueue_cap);
      [|unfold eventQueue_cap in *; lia].
    cbn [fst snd eventQueue]. rewrite RecordClickAsync_event. split; reflexivity.
  - intros Hfull. subst r. unfold RecordClickAsync.
    destruct (Z.ltb_spec (Z.of_nat (length (eventQueue s))) eventQueue_cap);
      [unfold eventQueue_cap in *; lia|split; reflexivity].
  - repeat split; try assumption. apply capture_all_queue.
Qed.

Lemma RecordClickAsync_never_blocks_never_fails_witness :
  let is_address ip := String.eqb ip "203.0.113.7" in
  let nbsp := String "194" (String "160" "") in
  let event ip ua :=
    {| Event_ShortCode := "3d7"; Event_IPAddress := ip; Event_UserAgent := ua;
       Event_Timestamp := 0 |} in
  let full := {| eventQueue := repeat (event "203.0.113.7" "curl/8.5.0") (Z.to_nat 10000);
                 batch := [] |} in
  eventQueue (fst (RecordClickAsync is_address "3d7" " 203.0.113.7 , 10.0.0.1"
                     ("  curl/8.5.0 " +:+ nbsp) NewAnalyticsService empty_world))
  = [event "203.0.113.7" "curl/8.5.0"]
  /\ eventQueue (fst (RecordClickAsync is_address "3d7" "203.0.113.700" nbsp
                        NewAnalyticsService empty_world))
     = [event "unknown" "unknown"]
  /\ RecordClickAsync is_address "3d7" "203.0.113.7" "curl/8.5.0" full empty_world
     = (full, log "Analytics queue full, dropping click event" empty_world).
Proof.
  intros is_address nbsp event full. split; [|split].
  - destruct (RecordClickAsync_never_blocks_never_fails is_address "3d7"
                " 203.0.113.7 , 10.0.0.1" ("  curl/8.5.0 " +:+ nbsp)
                NewAnalyticsService empty_world []) as ((Hqueue & _) & _).
    + vm_compute. reflexivity.
    + rewrite Hqueue. vm_compute. reflexivity.
  - destruct (RecordClickAsync_never_blocks_never_fails is_address "3d7"
                "203.0.113.700" nbsp NewAnalyticsService empty_world [])
      as ((Hqueue & _) & _).
    + vm_compute. reflexivity.
    + rewrite Hqueue. vm_compute. reflexivity.
  - destruct (RecordClickAsync_never_blocks_never_fails is_address "3d7"
                "203.0.113.7" "curl/8.5.0" full empty_world [])
      as (_ & Hfull & _).
    destruct Hfull as [Hs Hw]; [vm_compute; discriminate|].
    rewrite (surjective_pairing (RecordClickAsync _ _ _ _ _ _)), Hs, Hw. reflexivity.
Defined.

(** ** Cache-aside resolution *)

Lemma GetByShortCode_found shortCode w urlRecord :
  find_url shortCode (pg w) = Some urlRecord ->
  URLRepository_GetByShortCode None shortCode w
  = ((Some urlRecord, None), record_call (SQL_SelectURL shortCode) w).
Proof.
  intros Hfind. unfold URLRepository_GetByShortCode. cbn [pg record_call].
  rewrite Hfind. reflexivity.
Qed.

(** A hit answers from the cache and touches nothing else. *)
Lemma GetOriginalURL_hit f shortCode w value expiry :
  cache_get_fault f = None ->
  redis w !! shortCode = Some (value, expiry) -> now w < expiry ->
  GetOriginalURL f shortCode w = (Ok value, record_call (Redis_Get shortCode) w).
Proof.
  intros Hf Hlook Hlive. unfold GetOriginalURL.
  rewrite Hf, (RedisCache_Get_hit _ _ _ _ Hlook Hlive). reflexivity.
Qed.

(** A miss or a cache error falls through to the store and writes the
    store's value to the cache. *)
Lemma GetOriginalURL_fallthrough f shortCode w urlRecord :
  cache_hit f shortCode w = false ->
  select_fault f = None ->
  find_url shortCode (pg w) = Some urlRecord ->
  exists w1,
    GetOriginalURL f shortCode w = (Ok (Models.URL_OriginalURL urlRecord), w1)
    /\ pg w1 = pg w /\ now w1 = now w
    /\ calls w1 = calls w ++ [Redis_Get shortCode; SQL_SelectURL shortCode;
                              Redis_Set shortCode (Models.URL_OriginalURL urlRecord)
                                RedisCache_ttl]
    /\ redis w1 = match cache_set_fault f with
                  | None => <[shortCode := (Models.URL_OriginalURL urlRecord,
                                            now w + RedisCache_ttl)]> (redis w)
                  | Some _ => redis w
                  end.
Proof.
  intros Hmiss Hsel Hfind. unfold cache_hit in Hmiss.
  assert (Hget : exists e,
             RedisCache_Get (cache_get_fault f) shortCode w
             = (("", Some e), record_call (Redis_Get shortCode) w)).
  { destruct (cache_get_fault f) as [msg|]; [eexists; apply RedisCache_Get_fault|].
    destruct (redis w !! shortCode) as [[value expiry]|] eqn:Hlook.
    - exists redis_Nil. eapply RedisCache_Get_expired; [exact Hlook|].
      apply Z.ltb_ge. exact Hmiss.
    - exists redis_Nil. now apply RedisCache_Get_absent. }
  destruct Hget as [e Hget]. unfold GetOriginalURL. rewrite Hget, Hsel.
  assert (Hsql : forall w0, pg w0 = pg w ->
             URLRepository_GetByShortCode None shortCode w0
             = ((Some urlRecord, None), record_call (SQL_SelectURL shortCode) w0)).
  { intros w0 Hpg. apply GetByShortCode_found. now rewrite Hpg. }
  destruct (is_redis_Nil e); rewrite Hsql by reflexivity;
    unfold RedisCache_Set;
    (destruct (cache_set_fault f) as [msg|];
     [rewrite RedisCache_SetWithTTL_fault|rewrite RedisCache_SetWithTTL_ok]);
    eexists; (split; [reflexivity|]); cbn; rewrite <- ?app_assoc; repeat split.
Qed.

Lemma GetOriginalURL_value f shortCode w urlRecord :
  find_url shortCode (pg w) = Some urlRecord ->
  (forall value expiry, redis w !! shortCode = Some (value, expiry) ->
                        value = Models.URL_OriginalURL urlRecord) ->
  select_fault f = None ->
  fst (GetOriginalURL f shortCode w) = Ok (Models.URL_OriginalURL urlRecord)
  /\ pg (snd (GetOriginalURL f shortCode w)) = pg w
  /\ (forall value expiry,
        redis (snd (GetOriginalURL f shortCode w)) !! shortCode = Some (value, expiry) ->
        value = Models.URL_OriginalURL urlRecord).
Proof.
  intros Hfind Hcoh Hsel.
  destruct (cache_hit f shortCode w) eqn:Hhit.
  - unfold cache_hit in Hhit.
    destruct (cache_get_fault f) as [msg|] eqn:Hf; [discriminate|].
    destruct (redis w !! shortCode) as [[value expiry]|] eqn:Hlook; [|discriminate].
    apply Z.ltb_lt in Hhit.
    rewrite (GetOriginalURL_hit f shortCode w value expiry Hf Hlook Hhit).
    cbn [fst snd pg redis record_call]. rewrite (Hcoh _ _ eq_refl).
    repeat split. intros v e Hv. rewrite Hlook in Hv. exact (Hcoh _ _ Hv).
  - destruct (GetOriginalURL_fallthrough f shortCode w urlRecord Hhit Hsel Hfind)
      as (w1 & Hrun & Hpg & _ & _ & Hredis).
    rewrite Hrun. cbn [fst snd]. repeat split; [exact Hpg|].
    intros v e. rewrite Hredis. destruct (cache_set_fault f).
    + apply Hcoh.
    + rewrite lookup_insert_eq. now intros [= <- <-].
Qed.

(** C9. Let the store hold a mapping for the code, let the store's lookup
    answer without error, and let any cache entry under the code hold the
    store's target URL. Then GetOriginalURL returns that target URL in every
    cache state: hit, miss, expired entry, or a failing cache read; and a
    second call, at any later instant and under any cache faults, returns it
    again. On a hit the only call made is the cache read: no SQL runs and the
    cache is unchanged. Otherwise the calls are the cache read, the SELECT by
    short code, and a cache write of the store's value with the 24-hour TTL,
    which, when it succeeds, leaves that value in the cache. *)
Theorem GetOriginalURL_same_target_in_every_cache_state
    (f f2 : Faults) (shortCode : string) (w : World) (urlRecord : Models.URL) (t2 : Z) :
  find_url shortCode (pg w) = Some urlRecord ->
  (forall value expiry, redis w !! shortCode = Some (value, expiry) ->
                        value = Models.URL_OriginalURL urlRecord) ->
  select_fault f = None -> select_fault f2 = None ->
  let target := Models.URL_OriginalURL urlRecord in
  let w1 := snd (GetOriginalURL f shortCode w) in
  fst (GetOriginalURL f shortCode w) = Ok target
  /\ fst (GetOriginalURL f2 shortCode (set_now t2 w1)) = Ok target
  /\ (cache_hit f shortCode w = true ->
      calls w1 = calls w ++ [Redis_Get shortCode]
      /\ List.filter is_sql (calls w1) = List.filter is_sql (calls w)
      /\ redis w1 = redis w)
  /\ (cache_hit f shortCode w = false ->
      calls w1 = calls w ++ [Redis_Get shortCode; SQL_SelectURL shortCode;
                             Redis_Set shortCode target (24 * time_Hour)]
      /\ (cache_set_fault f = None ->
          redis w1 !! shortCode = Some (target, now w + 24 * time_Hour)))
  /\ pg w1 = pg w.
Proof.
  intros Hfind Hcoh Hsel Hsel2 target w1.
  destruct (GetOriginalURL_value f shortCode w urlRecord Hfind Hcoh Hsel)
    as (Hval & Hpg & Hcoh1).
  fold w1 in Hpg, Hcoh1. split; [exact Hval|]. split; [|split; [|split]].
  - apply (GetOriginalURL_value f2 shortCode (set_now t2 w1) urlRecord);
      cbn [pg redis set_now]; [now rewrite Hpg|exact Hcoh1|exact Hsel2].
  - intros Hhit. unfold cache_hit in Hhit.
    destruct (cache_get_fault f) as [msg|] eqn:Hf; [discriminate|].
    destruct (redis w !! shortCode) as [[value expiry]|] eqn:Hlook; [|discriminate].
    apply Z.ltb_lt in Hhit. subst w1.
    rewrite (GetOriginalURL_hit f shortCode w value expiry Hf Hlook Hhit).
    cbn [snd calls redis record_call]. repeat split.
    rewrite List.filter_app. cbn. now rewrite app_nil_r.
  - intros Hmiss.
    destruct (GetOriginalURL_fallthrough f shortCode w urlRecord Hmiss Hsel Hfind)
      as (w' & Hrun & _ & _ & Hcalls & Hredis).
    subst w1. rewrite Hrun. cbn [snd]. split; [exact Hcalls|].
    intros Hset. rewrite Hredis, Hset. apply lookup_insert_eq.
  - exact Hpg.
Qed.

Lemma GetOriginalURL_same_target_in_every_cache_state_witness :
  let row := {| Models.URL_ID := 1; Models.URL_ShortCode := "3d7";
                Models.URL_OriginalURL := "https://example.com";
                Models.URL_CustomAlias := false; Models.URL_CreatedAt := 0;
                Models.URL_ExpiresAt := None |} in
  let w := set_pg {| urls := [row]; analytics := []; url_id_sequence := 12346;
                     urls_id_seq := 2; analytics_id_seq := 1 |} empty_world in
  let outage := {| exists_fault := None; nextid_fault := None; create_fault := None;
                   select_fault := None;
                   cache_get_fault := Some "dial tcp 10.0.0.5:6379: connect: connection refused";
                   cache_set_fault := Some "dial tcp 10.0.0.5:6379: connect: connection refused";
                   db_ping_fault := None; cache_ping_fault := None;
                   concurrent_inserts := [] |} in
  fst (GetOriginalURL outage "3d7" w) = Ok "https://example.com"
  /\ fst (GetOriginalURL no_faults "3d7"
            (set_now time_Hour (snd (GetOriginalURL outage "3d7" w))))
     = Ok "https://example.com".
Proof.
  intros row w outage.
  destruct (GetOriginalURL_same_target_in_every_cache_state outage no_faults "3d7" w
              row time_Hour) as (H1 & H2 & _).
  - reflexivity.
  - intros value expiry Hlook. subst w. cbn [redis set_pg empty_world] in Hlook.
    rewrite lookup_empty in Hlook. discriminate.
  - reflexivity.
  - reflexivity.
  - split; [exact H1|exact H2].
Defined.

(** ** A duplicate code at insert time *)

Lemma commit_concurrent_frame rows : forall w,
  redis (commit_concurrent rows w) = redis w
  /\ calls (commit_concurrent rows w) = calls w
  /\ now (commit_concurrent rows w) = now w
  /\ logs (commit_concurrent rows w) = logs w.
Proof.
  unfold commit_concurrent.
  induction rows as [|r rows IH]; intros w; [repeat split|].
  cbn [fold_left]. destruct (IH (set_pg (snd (insert_url r w)) w)) as (H1 & H2 & H3 & H4).
  rewrite H1, H2, H3, H4. repeat split.
Qed.

Lemma validateCustomAlias_nonempty {U : Unicode} alias :
  validateCustomAlias alias = None -> alias <> "".
Proof. intros Hval ->. vm_compute in Hval. discriminate. Qed.

Lemma unique_violation_is_not_a_client_error :
  Contains ("failed to create URL: " +:+ pq_unique_violation) "invalid URL"
  || Contains ("failed to create URL: " +:+ pq_unique_violation) "invalid custom alias"
  || Contains ("failed to create URL: " +:+ pq_unique_violation) "already exists"
  = false.
Proof. vm_compute. reflexivity. Qed.

(** C6, as the claim states it, fails: with the alias free at the existence
    check and a concurrent session inserting the same code before this
    request's INSERT, the unique constraint rejects the INSERT, ShortenURL
    returns "failed to create URL: pq: duplicate key value ...", and the
    handler, which matches none of its three client-error phrases in it,
    answers 500 "Failed to create short URL", not the 400 of the
    alias-already-exists path. *)
Lemma insert_race_is_answered_500 :
  let rival := {| Models.URL_ID := 0; Models.URL_ShortCode := "my-link";
                  Models.URL_OriginalURL := "https://rival.example";
                  Models.URL_CustomAlias := true; Models.URL_CreatedAt := 0;
                  Models.URL_ExpiresAt := None |} in
  let race := {| exists_fault := None; nextid_fault := None; create_fault := None;
                 select_fault := None; cache_get_fault := None;
                 cache_set_fault := None; db_ping_fault := None;
                 cache_ping_fault := None; concurrent_inserts := [rival] |} in
  let req := {| Models.Req_URL := "https://example.com";
                Models.Req_CustomAlias := "my-link" |} in
  fst (URLRepository_Exists None "my-link" empty_world) = (false, None)
  /\ fst (ShortenURL race "https://example.com" "my-link" empty_world)
     = Err (errorString ("failed to create URL: " +:+ pq_unique_violation))
  /\ fst (URLHandler_ShortenURL race (Some req) "" empty_world)
     = Some (JSON 500 (ErrorBody "Failed to create short URL"))
  /\ fst (URLHandler_ShortenURL no_faults (Some req) ""
            (commit_concurrent [rival] empty_world))
     = Some (JSON 400 (ErrorBody "custom alias already exists")).
Proof. vm_compute. repeat split. Qed.

(** C6, amended. If the alias passes validation and the existence check
    finds it free, but by the time of the INSERT another session has
    committed a row with the same code, then the INSERT fails on the unique
    constraint, ShortenURL returns the wrapped store error "failed to create
    URL: pq: duplicate key value violates unique constraint ...", and the
    handler answers with status 500 "Failed to create short URL", a generic
    server error; nothing panics, no row is added for this request and the
    cache is not written. *)
Theorem insert_race_surfaces_as_server_error {U : Unicode}
    (f : Faults) (originalURL customAlias baseURLHeader : string) (w : World) :
  validateURL originalURL = None ->
  validateCustomAlias customAlias = None ->
  len customAlias <= 10 ->
  exists_fault f = None -> create_fault f = None ->
  find_url customAlias (pg w) = None ->
  find_url customAlias
    (pg (commit_concurrent (concurrent_inserts f)
           (record_call (SQL_Exists customAlias) w))) <> None ->
  let req := {| Models.Req_URL := originalURL; Models.Req_CustomAlias := customAlias |} in
  let w' := snd (ShortenURL f originalURL customAlias w) in
  fst (ShortenURL f originalURL customAlias w)
  = Err (errorString ("failed to create URL: " +:+ pq_unique_violation))
  /\ fst (URLHandler_ShortenURL f (Some req) baseURLHeader w)
     = Some (JSON 500 (ErrorBody "Failed to create short URL"))
  /\ urls (pg w')
     = urls (pg (commit_concurrent (concurrent_inserts f)
                   (record_call (SQL_Exists customAlias) w)))
  /\ redis w' = redis w
  /\ calls w' = calls w ++ [SQL_Exists customAlias; SQL_InsertURL customAlias].
Proof.
  intros Hurl Halias Hlen Hex Hcr Hfree Htaken req w'.
  destruct (validateURL_ok_normalizeURL _ Hurl) as [normalizedURL Hnorm].
  pose proof (validateCustomAlias_nonempty _ Halias) as Hne.
  set (w1 := record_call (SQL_Exists customAlias) w) in *.
  set (w2 := commit_concurrent (concurrent_inserts f) w1) in *.
  destruct (commit_concurrent_frame (concurrent_inserts f) w1) as (Hr2 & Hc2 & _ & _).
  fold w2 in Hr2, Hc2.
  destruct (find_url customAlias (pg w2)) as [rival|] eqn:Hfind; [clear Htaken|congruence].
  assert (Hrun : ShortenURL f originalURL customAlias w
                 = (Err (errorString ("failed to create URL: " +:+ pq_unique_violation)),
                    set_pg (snd (insert_url
                                   {| Models.URL_ID := 0;
                                      Models.URL_ShortCode := customAlias;
                                      Models.URL_OriginalURL := normalizedURL;
                                      Models.URL_CustomAlias := true;
                                      Models.URL_CreatedAt := 0;
                                      Models.URL_ExpiresAt := None |}
                                   (record_call (SQL_InsertURL customAlias) w2)))
                      (record_call (SQL_InsertURL customAlias) w2))).
  { unfold ShortenURL. rewrite Hurl, Hnorm.
    destruct (String.eqb_spec customAlias ""); [contradiction|]. cbn [negb].
    rewrite Halias, Hex. unfold URLRepository_Exists. fold w1.
    change (pg w1) with (pg w). rewrite Hfree. fold w2.
    unfold URLRepository_Create. rewrite Hcr.
    cbn [Models.URL_ShortCode]. unfold insert_url.
    cbn [Models.URL_ShortCode pg record_call].
    destruct (Z.ltb_spec 10 (len customAlias)); [lia|].
    rewrite Hfind. reflexivity. }
  subst w'. rewrite Hrun. cbn [fst snd].
  split; [reflexivity|]. split; [|split; [|split]].
  - unfold URLHandler_ShortenURL. subst req.
    cbn [Models.Req_URL Models.Req_CustomAlias]. rewrite Hrun.
    cbn [Error]. rewrite unique_violation_is_not_a_client_error. reflexivity.
  - unfold insert_url. cbn [Models.URL_ShortCode pg record_call set_pg snd].
    destruct (Z.ltb_spec 10 (len customAlias)); [lia|]. rewrite Hfind. reflexivity.
  - cbn [redis set_pg record_call]. rewrite Hr2. reflexivity.
  - cbn [calls set_pg record_call]. rewrite Hc2. subst w1. cbn [calls record_call].
    rewrite <- app_assoc. reflexivity.
Qed.

Lemma insert_race_surfaces_as_server_error_witness :
  let rival := {| Models.URL_ID := 0; Models.URL_ShortCode := "my-link";
                  Models.URL_OriginalURL := "https://rival.example";
                  Models.URL_CustomAlias := true; Models.URL_CreatedAt := 0;
                  Models.URL_ExpiresAt := None |} in
  let race := {| exists_fault := None; nextid_fault := None; create_fault := None;
                 select_fault := None; cache_get_fault := None;
                 cache_set_fault := None; db_ping_fault := None;
                 cache_ping_fault := None; concurrent_inserts := [rival] |} in
  fst (URLHandler_ShortenURL race
         (Some {| Models.Req_URL := "https://example.com";
                  Models.Req_CustomAlias := "my-link" |}) "" empty_world)
  = Some (JSON 500 (ErrorBody "Failed to create short URL")).
Proof.
  intros rival race.
  apply (insert_race_surfaces_as_server_error race "https://example.com" "my-link" ""
           empty_world); try (vm_compute; reflexivity).
  - vm_compute. discriminate.
  - vm_compute. discriminate.
Defined.

(** ** Which routes the rate limiter guards *)

Lemma router_chains r :
  In r (Gin.trees Main.router) ->
  exists h, Gin.route_handlers r
            = [Gin.gin_Recovery; Gin.LoggerMiddleware; Gin.CORSMiddleware;
               Gin.SecurityMiddleware; Gin.RateLimitMiddleware; h].
Proof.
  intros Hin. vm_compute in Hin.
  repeat (destruct Hin as [<-|Hin]; [eexists; reflexivity|]). contradiction.
Qed.

Lemma handlers_for_shape req :
  exists rest, fst (Main.handlers_for Main.router req)
               = [Gin.gin_Recovery; Gin.LoggerMiddleware; Gin.CORSMiddleware;
                  Gin.SecurityMiddleware; Gin.RateLimitMiddleware] ++ rest.
Proof.
  unfold Main.handlers_for, Gin.getValue.
  destruct (find _ (Gin.trees Main.router)) as [r|] eqn:Hstatic.
  - apply find_some in Hstatic as [Hin _].
    destruct (router_chains r Hin) as [h ->]. now exists [h].
  - clear Hstatic.
    destruct (find _ (Gin.trees Main.router)) as [r|] eqn:Hparam;
      [|exists []; reflexivity].
    apply find_some in Hparam as [Hin _]. destruct (router_chains r Hin) as [h Hh].
    destruct (Gin.match_route _ _ r); cbn [fst];
      [rewrite Hh; now exists [h]|exists []; reflexivity].
Qed.

(** The route that the lookup returns is one of the table, registered under
    the method of the request. *)
Lemma getValue_route e httpMethod path r params :
  Gin.getValue e httpMethod path = Some (r, params) ->
  In r (Gin.trees e) /\ Gin.route_method r = httpMethod.
Proof.
  unfold Gin.getValue.
  destruct (find _ (Gin.trees e)) as [r0|] eqn:Hstatic.
  - intros [= <- _]. apply find_some in Hstatic as [Hin Hm].
    apply andb_prop in Hm as [Hm _]. split; [exact Hin|].
    now apply String.eqb_eq.
  - clear Hstatic.
    destruct (find _ (Gin.trees e)) as [r0|] eqn:Hparam; [|discriminate].
    apply find_some in Hparam as [Hin Hm].
    destruct (Gin.match_route httpMethod path r0) eqn:Hmatch; [|discriminate].
    intros [= <- _]. split; [exact Hin|].
    unfold Gin.match_route in Hmatch.
    destruct (String.eqb_spec (Gin.route_method r0) httpMethod); [assumption|discriminate].
Qed.

(** The routes of main, with the method and the handler of each. *)
Lemma router_routes r :
  In r (Gin.trees Main.router) ->
  (Gin.route_method r = "GET" \/ Gin.route_method r = "POST")
  /\ exists h, Gin.route_handlers r
               = [Gin.gin_Recovery; Gin.LoggerMiddleware; Gin.CORSMiddleware;
                  Gin.SecurityMiddleware; Gin.RateLimitMiddleware; h]
               /\ (Gin.route_path r = "/:short_code" -> h = Gin.RedirectURL).
Proof.
  intros Hin. vm_compute in Hin.
  repeat (destruct Hin as [<-|Hin];
          [split; [vm_compute; tauto|eexists; split; [reflexivity|]];
           first [reflexivity | discriminate]|]).
  contradiction.
Qed.

(** A request that the router answers with its trailing-slash redirect runs
    no middleware and no handler. *)
Lemma trailing_slash_redirect_runs_no_handler
    {U : Unicode} net_ParseIP redirectTrailingSlash e f req srv response :
  Main.trailing_slash_redirect redirectTrailingSlash e req = Some response ->
  Main.ServeHTTP net_ParseIP redirectTrailingSlash e f req srv = (Some response, srv)
  /\ Gin.getValue e (Method req) (Path req) = None.
Proof.
  intros Hredirect. unfold Main.ServeHTTP. rewrite Hredirect. split; [reflexivity|].
  unfold Main.trailing_slash_redirect in Hredirect.
  destruct (List.filter _ (Gin.trees e)); [discriminate|].
  destruct (Gin.getValue e (Method req) (Path req)); [discriminate|reflexivity].
Qed.

(** With the redirect that gin documents, GET /abc123/ and GET /health/ are
    answered by the router itself, with 301 to the path without the slash:
    no middleware runs, so the limiter is not consulted and a client whose
    counter stands at 100 is not refused. *)
Example trailing_slash_is_answered_by_the_router :
  let srv :=
    {| world :=
         set_now (30 * time_Second)
           (set_redis {[ rate_key "203.0.113.7" := ("100", 60 * time_Second) ]}
              empty_world);
       analyticsService := NewAnalyticsService |} in
  let get path :=
    {| Method := "GET"; Path := path; ClientIP := "203.0.113.7";
       XForwardedFor := ""; XRealIP := ""; UserAgent := "curl/8.5.0";
       XBaseURL := ""; Payload := None |} in
  let serve := Main.ServeHTTP (fun _ => true) documented_redirect Main.router no_faults in
  serve (get "/abc123/") srv = (Some (Redirect 301 "/abc123"), srv)
  /\ serve (get "/health/") srv = (Some (Redirect 301 "/health"), srv)
  /\ fst (serve (get "/abc123") srv)
     = Some (JSON 429 (RateLimitBody "Rate limit exceeded"
                         "Maximum 100 requests per minute allowed")).
Proof. vm_compute. repeat split. Qed.

(** C5, as the claim states it, fails: the chain that the router runs for
    GET /abc123 contains the rate limiter ahead of RedirectURL. A client
    whose counter stands at 100 gets 429 for a redirect request, after one
    read of its rate-limit key and no lookup of the code; with the counter at
    5 the same request is redirected and the counter becomes 6. The path
    matches the redirect route, so the router's trailing-slash redirect is
    not in play. *)
Lemma redirect_route_is_rate_limited :
  let row := {| Models.URL_ID := 1; Models.URL_ShortCode := "abc123";
                Models.URL_OriginalURL := "https://example.com";
                Models.URL_CustomAlias := true; Models.URL_CreatedAt := 0;
                Models.URL_ExpiresAt := None |} in
  let world_with count :=
    set_now (30 * time_Second)
      (set_redis {[ rate_key "203.0.113.7" := (count, 60 * time_Second) ]}
         (set_pg {| urls := [row]; analytics := []; url_id_sequence := 1;
                    urls_id_seq := 2; analytics_id_seq := 1 |} empty_world)) in
  let server count :=
    {| world := world_with count; analyticsService := NewAnalyticsService |} in
  let req := {| Method := "GET"; Path := "/abc123"; ClientIP := "203.0.113.7";
                XForwardedFor := ""; XRealIP := ""; UserAgent := "curl/8.5.0";
                XBaseURL := ""; Payload := None |} in
  let serve := Main.ServeHTTP (fun _ => true) documented_redirect Main.router no_faults in
  fst (Main.handlers_for Main.router req)
  = [Gin.gin_Recovery; Gin.LoggerMiddleware; Gin.CORSMiddleware;
     Gin.SecurityMiddleware; Gin.RateLimitMiddleware; Gin.RedirectURL]
  /\ fst (serve req (server "100"))
     = Some (JSON 429 (RateLimitBody "Rate limit exceeded"
                         "Maximum 100 requests per minute allowed"))
  /\ calls (world (snd (serve req (server "100"))))
     = [Redis_Get (rate_key "203.0.113.7")]
  /\ fst (serve req (server "5")) = Some (Redirect 301 "https://example.com")
  /\ redis (world (snd (serve req (server "5")))) !! rate_key "203.0.113.7"
     = Some ("6", 90 * time_Second).
Proof. vm_compute. repeat split. Qed.

(** C5, amended. main registers the rate limiter on the engine before any
    route, so it is in the chain of every route, the redirect route
    included: each of the five routes (health, metrics, shorten, stats and
    the redirect GET /:short_code) has the chain recovery, logger, CORS,
    security headers, rate limiter, then its own handler. For every request
    that the router matches to a route, whatever the libraries do elsewhere,
    the limiter's check on the client's counter comes first: a refusal by
    it is the response and the route's handler is not run, and only when it
    lets the request through does the handler run, on the state that the
    limiter left. For the redirect route that handler is RedirectURL. *)
Theorem rate_limiter_guards_every_route :
  map (fun r => (Gin.route_method r, Gin.route_path r, Gin.route_handlers r))
      (Gin.trees Main.router)
  = map (fun '(m, p, h) =>
           (m, p, [Gin.gin_Recovery; Gin.LoggerMiddleware; Gin.CORSMiddleware;
                   Gin.SecurityMiddleware; Gin.RateLimitMiddleware; h]))
      [("GET", "/health", Gin.HealthCheck);
       ("GET", "/metrics", Gin.MetricsHandler);
       ("POST", "/api/v1/shorten", Gin.ShortenURL);
       ("GET", "/api/v1/urls/:short_code/stats", Gin.GetURLStats);
       ("GET", "/:short_code", Gin.RedirectURL)]
  /\ (forall (U : Unicode) net_ParseIP redirectTrailingSlash f req srv r params,
        Gin.getValue Main.router (Method req) (Path req) = Some (r, params) ->
        exists h,
          Gin.route_handlers r
          = [Gin.gin_Recovery; Gin.LoggerMiddleware; Gin.CORSMiddleware;
             Gin.SecurityMiddleware; Gin.RateLimitMiddleware; h]
          /\ (Gin.route_path r = "/:short_code" -> h = Gin.RedirectURL)
          /\ Main.ServeHTTP net_ParseIP redirectTrailingSlash Main.router f req srv
             = match RateLimitMiddleware f (ClientIP req) (world srv) with
               | (Abort response, w') => (Some response, with_world srv w')
               | (Next, w') =>
                   match Main.run_chain net_ParseIP [h] f req params
                           (with_world srv w') with
                   | (None, srv') => (Some (Status 500), srv')
                   | served => served
                   end
               end).
Proof.
  split; [reflexivity|].
  intros U net_ParseIP redirectTrailingSlash f req srv r params Hroute.
  destruct (getValue_route _ _ _ _ _ Hroute) as [Hin Hmethod].
  destruct (router_routes r Hin) as (Hverb & h & Hchain & Hredirect).
  exists h. split; [exact Hchain|]. split; [exact Hredirect|].
  unfold Main.ServeHTTP, Main.trailing_slash_redirect, Main.handlers_for.
  rewrite Hroute.
  destruct (List.filter _ (Gin.trees Main.router)); rewrite Hchain;
    cbn [Main.run_chain]; unfold CORSMiddleware;
    (destruct (String.eqb_spec (Method req) "OPTIONS") as [Hopt|_];
     [rewrite Hopt in Hmethod; destruct Hverb as [Hv|Hv]; rewrite Hmethod in Hv;
      discriminate|]);
    destruct (RateLimitMiddleware f (ClientIP req) (world srv)) as [[|response] w'];
    reflexivity.
Qed.

(** ** The timestamp of a persisted click *)

Lemma RecordClick_inserts inet_in a w urlRecord :
  inet_in (Models.Analytics_IPAddress a) = true ->
  find_url (Models.Analytics_ShortCode a) (pg w) = Some urlRecord ->
  len (Models.Analytics_ShortCode a) <= 10 ->
  analytics (pg (snd (AnalyticsRepository_RecordClick inet_in None a w)))
  = analytics (pg w)
    ++ [{| Models.Analytics_ID := analytics_id_seq (pg w);
           Models.Analytics_ShortCode := Models.Analytics_ShortCode a;
           Models.Analytics_ClickedAt := now w;
           Models.Analytics_IPAddress := Models.Analytics_IPAddress a;
           Models.Analytics_UserAgent := Models.Analytics_UserAgent a |}]
  /\ fst (AnalyticsRepository_RecordClick inet_in None a w)
     = ({| Models.Analytics_ID := analytics_id_seq (pg w);
           Models.Analytics_ShortCode := Models.Analytics_ShortCode a;
           Models.Analytics_ClickedAt := now w;
           Models.Analytics_IPAddress := Models.Analytics_IPAddress a;
           Models.Analytics_UserAgent := Models.Analytics_UserAgent a |}, None).
Proof.
  intros Hinet Hfind Hlen. unfold AnalyticsRepository_RecordClick.
  cbn [pg now record_call]. rewrite Hinet. cbn [negb].
  destruct (Z.ltb_spec 10 (len (Models.Analytics_ShortCode a))); [lia|].
  rewrite Hfind. split; reflexivity.
Qed.

(** C4 is not what the code does. A click captured at [t_capture] is queued
    with that instant in its Timestamp field, but the worker builds the
    record to persist without it and the INSERT leaves clicked_at to the
    column default, so the row that reaches the analytics table is stamped
    with the instant of the flush, [t_flush]. The click is one that the
    table takes: its code is in the urls table and the address it is queued
    with is one that the column of type INET accepts. *)
Theorem flushed_click_is_stamped_at_flush
    (net_ParseIP inet_in : string -> bool) (shortCode ipAddress userAgent : string)
    (t_capture t_flush : Z) (w : World) (urlRecord : Models.URL) :
  find_url shortCode (pg w) = Some urlRecord ->
  len shortCode <= 10 ->
  inet_in (sanitizeIPAddress net_ParseIP ipAddress) = true ->
  eventQueue (fst (RecordClickAsync net_ParseIP shortCode ipAddress userAgent
                     NewAnalyticsService (set_now t_capture w)))
  = [{| Event_ShortCode := shortCode;
        Event_IPAddress := sanitizeIPAddress net_ParseIP ipAddress;
        Event_UserAgent := sanitizeUserAgent userAgent;
        Event_Timestamp := t_capture |}]
  /\ analytics (pg (snd (capture_then_flush net_ParseIP inet_in shortCode ipAddress
                           userAgent t_capture t_flush w)))
     = analytics (pg w)
       ++ [{| Models.Analytics_ID := analytics_id_seq (pg w);
              Models.Analytics_ShortCode := shortCode;
              Models.Analytics_ClickedAt := t_flush;
              Models.Analytics_IPAddress := sanitizeIPAddress net_ParseIP ipAddress;
              Models.Analytics_UserAgent := sanitizeUserAgent userAgent |}].
Proof.
  intros Hfind Hlen Hinet. split; [reflexivity|].
  assert (Hrun : capture_then_flush net_ParseIP inet_in shortCode ipAddress userAgent
                   t_capture t_flush w
                 = (NewAnalyticsService,
                    flushBatch inet_in (fun _ => None)
                      [{| Models.Analytics_ID := 0;
                          Models.Analytics_ShortCode := shortCode;
                          Models.Analytics_ClickedAt := 0;
                          Models.Analytics_IPAddress :=
                            sanitizeIPAddress net_ParseIP ipAddress;
                          Models.Analytics_UserAgent := sanitizeUserAgent userAgent |}]
                      (set_now t_flush (set_now t_capture w))))
    by reflexivity.
  rewrite Hrun. unfold flushBatch. cbn [flushBatch_from snd].
  match goal with
  | |- context [AnalyticsRepository_RecordClick inet_in None ?a ?w0] =>
      destruct (RecordClick_inserts inet_in a w0 urlRecord Hinet Hfind Hlen)
        as (Hrows & Hres);
      destruct (AnalyticsRepository_RecordClick inet_in None a w0) as [[row err] w']
  end.
  cbn [fst snd] in *. injection Hres as -> ->. exact Hrows.
Qed.

Lemma flushed_click_is_stamped_at_flush_witness :
  let row := {| Models.URL_ID := 1; Models.URL_ShortCode := "3d7";
                Models.URL_OriginalURL := "https://example.com";
                Models.URL_CustomAlias := false; Models.URL_CreatedAt := 0;
                Models.URL_ExpiresAt := None |} in
  let w := set_pg {| urls := [row]; analytics := []; url_id_sequence := 12346;
                     urls_id_seq := 2; analytics_id_seq := 1 |} empty_world in
  map Models.Analytics_ClickedAt
    (analytics (pg (snd (capture_then_flush (fun _ => true)
                           (fun value => String.eqb value "203.0.113.7")
                           "3d7" "203.0.113.7" "curl/8.5.0"
                           (10 * time_Second) (15 * time_Second) w))))
  = [15 * time_Second].
Proof.
  intros row w.
  destruct (flushed_click_is_stamped_at_flush (fun _ => true)
              (fun value => String.eqb value "203.0.113.7") "3d7" "203.0.113.7"
              "curl/8.5.0" (10 * time_Second) (15 * time_Second) w row)
    as [_ Hrows].
  - reflexivity.
  - vm_compute. discriminate.
  - reflexivity.
  - rewrite Hrows. reflexivity.
Defined.

(** * Further properties of the code *)

Import Runs.

(** ** Length of the codes *)

Lemma digits_lsd_length fuel : forall num k,
  0 <= num < 62 ^ Z.of_nat k -> (length (digits_lsd fuel num) <= k)%nat.
Proof.
  induction fuel as [|fuel IH]; intros num k Hn; [cbn; lia|].
  cbn [digits_lsd]. destruct (Z.ltb_spec 0 num); [|cbn; lia].
  destruct k as [|k]; [cbn in Hn; lia|].
  cbn [length]. apply le_n_S, IH.
  rewrite Nat2Z.inj_succ, Z.pow_succ_r in Hn by lia.
  split; [apply Z.quot_pos; lia|apply Z.quot_lt_upper_bound; lia].
Qed.

Lemma length_string_of_list_ascii l :
  String.length (string_of_list_ascii l) = length l.
Proof. induction l as [|c l IH]; cbn; congruence. Qed.

Lemma encodeBase62_len_le num k :
  (1 <= k)%nat -> 0 <= num < 62 ^ Z.of_nat k -> 1 <= len (encodeBase62 num) <= Z.of_nat k.
Proof.
  intros Hk Hn. rewrite encodeBase62_digits. unfold len, base62_string.
  rewrite length_string_of_list_ascii, length_map.
  pose proof (msd_digits_nonempty num ltac:(lia)) as Hne.
  assert (length (msd_digits num) <= k)%nat.
  { unfold msd_digits. destruct (num =? 0); [cbn; lia|].
    rewrite length_rev. now apply digits_lsd_length. }
  destruct (msd_digits num); [contradiction|cbn [length] in *; lia].
Qed.

(** X1. A counter value below 62^10 is encoded in at least one and at most
    ten characters, which is what the column short_code VARCHAR(10) holds;
    every non-negative int64 is encoded in at most eleven; and a negative
    number, for which the loop never runs, is encoded as the empty string. *)
Theorem encodeBase62_length (num : Z) :
  (0 <= num < 62 ^ 10 -> 1 <= len (encodeBase62 num) <= 10)
  /\ (0 <= num < 2 ^ 63 -> 1 <= len (encodeBase62 num) <= 11)
  /\ (num < 0 -> encodeBase62 num = "").
Proof.
  split; [|split].
  - intros Hn. apply (encodeBase62_len_le num 10); [lia|exact Hn].
  - intros Hn. apply (encodeBase62_len_le num 11); [lia|].
    change (Z.of_nat 11) with 11. assert (2 ^ 63 < 62 ^ 11) by (vm_compute; reflexivity). lia.
  - intros Hn. unfold encodeBase62. destruct (Z.eqb_spec num 0); [lia|].
    cbn [encode_loop]. destruct (Z.ltb_spec 0 num); [lia|reflexivity].
Qed.

(** ** What a successful shorten leaves behind *)

Lemma find_url_app_new shortCode p row :
  find_url shortCode p = None ->
  Models.URL_ShortCode row = shortCode ->
  List.find (fun r => String.eqb (Models.URL_ShortCode r) shortCode) (urls p ++ [row])
  = Some row.
Proof.
  unfold find_url. intros Hnone Hcode.
  induction (urls p) as [|r rows IH]; cbn [app List.find] in *.
  - rewrite Hcode, String.eqb_refl. reflexivity.
  - destruct (String.eqb (Models.URL_ShortCode r) shortCode); [discriminate|auto].
Qed.

Lemma insert_url_sequence u w :
  url_id_sequence (snd (insert_url u w)) = url_id_sequence (pg w).
Proof.
  unfold insert_url. destruct (10 <? len (Models.URL_ShortCode u)); [reflexivity|].
  destruct (find_url (Models.URL_ShortCode u) (pg w)); reflexivity.
Qed.

Lemma commit_concurrent_sequence rows : forall w,
  url_id_sequence (pg (commit_concurrent rows w)) = url_id_sequence (pg w).
Proof.
  unfold commit_concurrent.
  induction rows as [|r rows IH]; intros w; [reflexivity|].
  cbn [fold_left]. rewrite IH. cbn [pg set_pg]. apply insert_url_sequence.
Qed.

Lemma URLRepository_Create_ok fault u w row w1 :
  URLRepository_Create fault u w = ((row, None), w1) ->
  row = {| Models.URL_ID := urls_id_seq (pg w);
           Models.URL_ShortCode := Models.URL_ShortCode u;
           Models.URL_OriginalURL := Models.URL_OriginalURL u;
           Models.URL_CustomAlias := Models.URL_CustomAlias u;
           Models.URL_CreatedAt := now w;
           Models.URL_ExpiresAt := Models.URL_ExpiresAt u |}
  /\ find_url (Models.URL_ShortCode u) (pg w) = None
  /\ len (Models.URL_ShortCode u) <= 10
  /\ urls (pg w1) = urls (pg w) ++ [row]
  /\ url_id_sequence (pg w1) = url_id_sequence (pg w)
  /\ analytics (pg w1) = analytics (pg w)
  /\ redis w1 = redis w /\ now w1 = now w
  /\ calls w1 = calls w ++ [SQL_InsertURL (Models.URL_ShortCode u)].
Proof.
  unfold URLRepository_Create, insert_url. destruct fault; [discriminate|].
  cbn [pg now record_call].
  destruct (Z.ltb_spec 10 (len (Models.URL_ShortCode u))); [discriminate|].
  destruct (find_url (Models.URL_ShortCode u) (pg w)) eqn:Hfind; [discriminate|].
  intros [= <- <-]. cbn. repeat split. lia.
Qed.

Lemma RedisCache_Set_frame fault key value w :
  pg (snd (RedisCache_Set fault key value w)) = pg w
  /\ now (snd (RedisCache_Set fault key value w)) = now w
  /\ redis (snd (RedisCache_Set fault key value w))
     = match fault with
       | None => <[key := (value, now w + RedisCache_ttl)]> (redis w)
       | Some _ => redis w
       end.
Proof. destruct fault; repeat split. Qed.

Lemma log_frame line w :
  pg (log line w) = pg w /\ redis (log line w) = redis w /\ now (log line w) = now w.
Proof. repeat split. Qed.

(** The part of ShortenURL after the code is chosen. *)
Lemma ShortenURL_create_ok f shortCode normalizedURL isCustom w0 urlRecord w' :
  match URLRepository_Create (create_fault f)
          {| Models.URL_ID := 0; Models.URL_ShortCode := shortCode;
             Models.URL_OriginalURL := normalizedURL;
             Models.URL_CustomAlias := isCustom;
             Models.URL_CreatedAt := 0; Models.URL_ExpiresAt := None |}
          (commit_concurrent (concurrent_inserts f) w0) with
  | ((_, Some err), w) => (Err (wrap "failed to create URL: " err), w)
  | ((urlRecord, None), w) =>
      match RedisCache_Set (cache_set_fault f) shortCode normalizedURL w with
      | (Some err, w) =>
          (Ok urlRecord, log ("Failed to cache URL mapping: " +:+ Error err) w)
      | (None, w) => (Ok urlRecord, w)
      end
  end = (Ok urlRecord, w') ->
  Models.URL_ShortCode urlRecord = shortCode
  /\ Models.URL_OriginalURL urlRecord = normalizedURL
  /\ Models.URL_CustomAlias urlRecord = isCustom
  /\ Models.URL_CreatedAt urlRecord = now w0
  /\ find_url shortCode (pg w') = Some urlRecord
  /\ url_id_sequence (pg w') = url_id_sequence (pg w0)
  /\ redis w' = match cache_set_fault f with
                | None => <[shortCode := (normalizedURL, now w0 + RedisCache_ttl)]>
                            (redis w0)
                | Some _ => redis w0
                end.
Proof.
  destruct (commit_concurrent_frame (concurrent_inserts f) w0) as (Hr & _ & Hn & _).
  pose proof (commit_concurrent_sequence (concurrent_inserts f) w0) as Hs.
  set (w1 := commit_concurrent (concurrent_inserts f) w0) in *.
  destruct (URLRepository_Create _ _ w1) as [[row [err|]] w2] eqn:Hcreate; [discriminate|].
  apply URLRepository_Create_ok in Hcreate
    as (Hrow & Hfree & _ & Hurls & Hseq & _ & Hredis & Hnow & _).
  cbn [Models.URL_ShortCode Models.URL_OriginalURL Models.URL_CustomAlias
       Models.URL_ExpiresAt] in *.
  destruct (RedisCache_Set_frame (cache_set_fault f) shortCode normalizedURL w2)
    as (Hpg3 & _ & Hredis3).
  assert (Hpost : forall w3, pg w3 = pg w2 ->
            redis w3 = match cache_set_fault f with
                       | None => <[shortCode := (normalizedURL, now w2 + RedisCache_ttl)]>
                                   (redis w2)
                       | Some _ => redis w2
                       end ->
            (Ok row, w3) = (Ok urlRecord, w') ->
            Models.URL_ShortCode urlRecord = shortCode
            /\ Models.URL_OriginalURL urlRecord = normalizedURL
            /\ Models.URL_CustomAlias urlRecord = isCustom
            /\ Models.URL_CreatedAt urlRecord = now w0
            /\ find_url shortCode (pg w') = Some urlRecord
            /\ url_id_sequence (pg w') = url_id_sequence (pg w0)
            /\ redis w' = match cache_set_fault f with
                          | None => <[shortCode := (normalizedURL, now w0 + RedisCache_ttl)]>
                                      (redis w0)
                          | Some _ => redis w0
                          end).
  { intros w3 Hpg Hred [= <- <-]. rewrite Hrow at 1 2 3 4. cbn.
    rewrite Hn. repeat split.
    - unfold find_url. rewrite Hpg, Hurls.
      apply find_url_app_new; [exact Hfree|]. rewrite Hrow. reflexivity.
    - rewrite Hpg, Hseq, Hs. reflexivity.
    - rewrite Hred, Hredis, Hnow, Hr, Hn. reflexivity. }
  destruct (RedisCache_Set _ _ _ w2) as [[err|] w3]; cbn [snd] in *; intros Hrun;
    eapply Hpost; try exact Hrun; assumption.
Qed.

Lemma ShortenURL_ok_inv {U : Unicode}
    (f : Faults) (originalURL customAlias : string) (w w' : World)
    (urlRecord : Models.URL) :
  ShortenURL f originalURL customAlias w = (Ok urlRecord, w') ->
  validateURL originalURL = None
  /\ normalizeURL originalURL = Some (Models.URL_OriginalURL urlRecord)
  /\ Models.URL_CreatedAt urlRecord = now w
  /\ find_url (Models.URL_ShortCode urlRecord) (pg w') = Some urlRecord
  /\ (customAlias <> "" ->
      Models.URL_ShortCode urlRecord = customAlias
      /\ Models.URL_CustomAlias urlRecord = true
      /\ validateCustomAlias customAlias = None
      /\ url_id_sequence (pg w') = url_id_sequence (pg w))
  /\ (customAlias = "" ->
      Models.URL_ShortCode urlRecord = encodeBase62 (url_id_sequence (pg w))
      /\ Models.URL_CustomAlias urlRecord = false
      /\ url_id_sequence (pg w') = url_id_sequence (pg w) + 1)
  /\ redis w'
     = match cache_set_fault f with
       | None => <[Models.URL_ShortCode urlRecord :=
                     (Models.URL_OriginalURL urlRecord, now w + 24 * time_Hour)]>
                   (redis w)
       | Some _ => redis w
       end.
Proof.
  unfold ShortenURL.
  destruct (validateURL originalURL) as [e|] eqn:Hurl; [discriminate|].
  destruct (normalizeURL originalURL) as [normalizedURL|] eqn:Hnorm; [|discriminate].
  destruct (String.eqb_spec customAlias "") as [->|Hne]; cbn [negb].
  - unfold URLRepository_GetNextID.
    destruct (nextid_fault f); [discriminate|].
    intros Hrun. apply ShortenURL_create_ok in Hrun
      as (Hcode & Htarget & Hcustom & Hat & Hfind & Hseq & Hredis).
    cbn [pg now redis set_pg record_call url_id_sequence] in *.
    subst normalizedURL. rewrite Hcode.
    repeat split; try assumption; try congruence.
  - destruct (validateCustomAlias customAlias) as [e|] eqn:Halias; [discriminate|].
    unfold URLRepository_Exists. destruct (exists_fault f); [discriminate|].
    cbn [pg record_call].
    destruct (find_url customAlias (pg w)); [discriminate|].
    intros Hrun. apply ShortenURL_create_ok in Hrun
      as (Hcode & Htarget & Hcustom & Hat & Hfind & Hseq & Hredis).
    cbn [pg now redis set_pg record_call url_id_sequence] in *.
    subst normalizedURL. rewrite Hcode.
    repeat split; try assumption; try congruence.
Qed.


(** X2. Whenever ShortenURL reports success, whatever the environment did:
    the raw URL had passed validateURL, the record returned carries the
    normalized URL and the creation instant, and the store holds exactly that
    record under the returned code. With a custom alias the code is the
    alias, which had passed validateCustomAlias, and the sequence is left
    alone; without one the code is the encoding of the sequence value, and
    the sequence has moved on by one. The cache holds the mapping with the
    24-hour TTL if the cache write went through and is unchanged if not. *)
Theorem ShortenURL_success_is_durable {U : Unicode}
    (f : Faults) (originalURL customAlias : string) (w w' : World)
    (urlRecord : Models.URL) :
  ShortenURL f originalURL customAlias w = (Ok urlRecord, w') ->
  validateURL originalURL = None
  /\ normalizeURL originalURL = Some (Models.URL_OriginalURL urlRecord)
  /\ Models.URL_CreatedAt urlRecord = now w
  /\ find_url (Models.URL_ShortCode urlRecord) (pg w') = Some urlRecord
  /\ (customAlias <> "" ->
      Models.URL_ShortCode urlRecord = customAlias
      /\ Models.URL_CustomAlias urlRecord = true
      /\ validateCustomAlias customAlias = None
      /\ url_id_sequence (pg w') = url_id_sequence (pg w))
  /\ (customAlias = "" ->
      Models.URL_ShortCode urlRecord = encodeBase62 (url_id_sequence (pg w))
      /\ Models.URL_CustomAlias urlRecord = false
      /\ url_id_sequence (pg w') = url_id_sequence (pg w) + 1)
  /\ redis w'
     = match cache_set_fault f with
       | None => <[Models.URL_ShortCode urlRecord :=
                     (Models.URL_OriginalURL urlRecord, now w + 24 * time_Hour)]>
                   (redis w)
       | Some _ => redis w
       end.
Proof.
  intros Hrun.
  destruct (ShortenURL_ok_inv f originalURL customAlias w w' urlRecord Hrun)
    as (Hvalid & Hnorm & Hat & Hfind & Halias & Hcounter & Hredis).
  split; [exact Hvalid|]. split; [exact Hnorm|]. split; [exact Hat|].
  split; [exact Hfind|]. split; [exact Halias|]. split; [exact Hcounter|exact Hredis].
Qed.

Lemma ShortenURL_success_is_durable_witness :
  exists urlRecord w',
    ShortenURL no_faults "https://example.com/docs/" "" empty_world = (Ok urlRecord, w')
    /\ Models.URL_OriginalURL urlRecord = "https://example.com/docs"
    /\ find_url "1" (pg w') = Some urlRecord
    /\ url_id_sequence (pg w') = 2.
Proof.
  destruct (ShortenURL no_faults "https://example.com/docs/" "" empty_world)
    as [[urlRecord|e|] w'] eqn:Hrun; try (vm_compute in Hrun; discriminate).
  exists urlRecord, w'.
  destruct (ShortenURL_success_is_durable no_faults "https://example.com/docs/" ""
              empty_world w' urlRecord Hrun)
    as (_ & Hnorm & _ & Hfind & _ & Hcounter & _).
  destruct (Hcounter eq_refl) as (Hcode & _ & Hseq).
  split; [reflexivity|]. split; [|split].
  - assert (Hn : normalizeURL "https://example.com/docs/"
                 = Some "https://example.com/docs") by (vm_compute; reflexivity).
    rewrite Hn in Hnorm. now injection Hnorm.
  - rewrite Hcode in Hfind. exact Hfind.
  - rewrite Hseq. reflexivity.
Defined.

(** X3. Shorten, then resolve. After a successful ShortenURL for a code that
    had no cache entry before, GetOriginalURL for the returned code gives
    back the normalized URL at any later instant and under any cache faults,
    as long as the store's SELECT answers. When the cache write of the
    shorten went through and the read falls within the 24 hours of its TTL
    on a healthy cache, the answer comes from the cache alone. *)
Theorem shorten_then_resolve {U : Unicode}
    (f f2 : Faults) (originalURL customAlias : string) (w w' : World)
    (urlRecord : Models.URL) (t : Z) :
  ShortenURL f originalURL customAlias w = (Ok urlRecord, w') ->
  redis w !! Models.URL_ShortCode urlRecord = None ->
  select_fault f2 = None ->
  fst (GetOriginalURL f2 (Models.URL_ShortCode urlRecord) (set_now t w'))
  = Ok (Models.URL_OriginalURL urlRecord)
  /\ (cache_set_fault f = None -> cache_get_fault f2 = None ->
      t < now w + 24 * time_Hour ->
      calls (snd (GetOriginalURL f2 (Models.URL_ShortCode urlRecord) (set_now t w')))
      = calls w' ++ [Redis_Get (Models.URL_ShortCode urlRecord)]).
Proof.
  intros Hrun Hfresh Hsel.
  destruct (ShortenURL_ok_inv f originalURL customAlias w w' urlRecord Hrun)
    as (_ & _ & _ & Hfind & _ & _ & Hredis).
  split.
  - apply (GetOriginalURL_value f2 _ (set_now t w') urlRecord);
      cbn [pg redis set_now]; [exact Hfind| |exact Hsel].
    intros value expiry. rewrite Hredis. destruct (cache_set_fault f).
    + rewrite Hfresh. discriminate.
    + rewrite lookup_insert_eq. now intros [= <- _].
  - intros Hset Hget Hlive. rewrite Hset in Hredis.
    rewrite (GetOriginalURL_hit f2 _ (set_now t w') (Models.URL_OriginalURL urlRecord)
               (now w + 24 * time_Hour)); [reflexivity|exact Hget| |exact Hlive].
    cbn [redis set_now]. rewrite Hredis. apply lookup_insert_eq.
Qed.

Lemma shorten_then_resolve_witness :
  exists urlRecord w',
    ShortenURL no_faults "https://example.com/a?b=c" "my-link" empty_world
    = (Ok urlRecord, w')
    /\ fst (GetOriginalURL no_faults "my-link" (set_now (3 * time_Hour) w'))
       = Ok "https://example.com/a?b=c".
Proof.
  destruct (ShortenURL no_faults "https://example.com/a?b=c" "my-link" empty_world)
    as [[urlRecord|e|] w'] eqn:Hrun; try (vm_compute in Hrun; discriminate).
  exists urlRecord, w'. split; [reflexivity|].
  assert (Hcode : Models.URL_ShortCode urlRecord = "my-link")
    by (vm_compute in Hrun; now injection Hrun as <- _).
  assert (Htarget : Models.URL_OriginalURL urlRecord = "https://example.com/a?b=c")
    by (vm_compute in Hrun; now injection Hrun as <- _).
  destruct (shorten_then_resolve no_faults no_faults "https://example.com/a?b=c"
              "my-link" empty_world w' urlRecord (3 * time_Hour) Hrun) as [Hres _].
  - rewrite Hcode. reflexivity.
  - reflexivity.
  - rewrite Hcode, Htarget in Hres. exact Hres.
Defined.

(** ** The allocation sequence *)

Lemma URLRepository_Create_sequence fault u w :
  url_id_sequence (pg (snd (URLRepository_Create fault u w))) = url_id_sequence (pg w).
Proof.
  unfold URLRepository_Create. destruct fault; [reflexivity|].
  pose proof (insert_url_sequence u (record_call (SQL_InsertURL (Models.URL_ShortCode u)) w))
    as Hseq.
  destruct (insert_url u _) as [[row|msg] p]; cbn [snd pg set_pg] in *; exact Hseq.
Qed.

(** The tail of ShortenURL after the code is chosen keeps the sequence. *)
Lemma ShortenURL_create_sequence f shortCode normalizedURL isCustom w0 :
  url_id_sequence
    (pg (snd
       match URLRepository_Create (create_fault f)
               {| Models.URL_ID := 0; Models.URL_ShortCode := shortCode;
                  Models.URL_OriginalURL := normalizedURL;
                  Models.URL_CustomAlias := isCustom;
                  Models.URL_CreatedAt := 0; Models.URL_ExpiresAt := None |}
               (commit_concurrent (concurrent_inserts f) w0) with
       | ((_, Some err), w) => (Err (wrap "failed to create URL: " err), w)
       | ((urlRecord, None), w) =>
           match RedisCache_Set (cache_set_fault f) shortCode normalizedURL w with
           | (Some err, w) =>
               (Ok urlRecord, log ("Failed to cache URL mapping: " +:+ Error err) w)
           | (None, w) => (Ok urlRecord, w)
           end
       end))
  = url_id_sequence (pg w0).
Proof.
  rewrite <- (commit_concurrent_sequence (concurrent_inserts f) w0).
  set (w1 := commit_concurrent (concurrent_inserts f) w0).
  rewrite <- (URLRepository_Create_sequence (create_fault f)
                {| Models.URL_ID := 0; Models.URL_ShortCode := shortCode;
                   Models.URL_OriginalURL := normalizedURL;
                   Models.URL_CustomAlias := isCustom;
                   Models.URL_CreatedAt := 0; Models.URL_ExpiresAt := None |} w1).
  destruct (URLRepository_Create _ _ w1) as [[row [err|]] w2]; [reflexivity|].
  cbn [snd].
  destruct (RedisCache_Set_frame (cache_set_fault f) shortCode normalizedURL w2)
    as (Hpg & _).
  destruct (RedisCache_Set _ _ _ w2) as [[err|] w3]; cbn [snd pg log] in *;
    now rewrite Hpg.
Qed.

(** X4. The sequence moves on by exactly one in a ShortenURL call that
    reaches nextval, whether the insert that follows succeeds or fails (a
    failed insert leaves a gap and the value is not handed out again), and it
    is left alone in every other call: with a custom alias, on a rejected
    URL, and when nextval itself fails. *)
Theorem sequence_value_is_consumed_once {U : Unicode}
    (f : Faults) (originalURL customAlias : string) (w : World) :
  (validateURL originalURL = None -> customAlias = "" -> nextid_fault f = None ->
   url_id_sequence (pg (snd (ShortenURL f originalURL customAlias w)))
   = url_id_sequence (pg w) + 1)
  /\ (customAlias <> "" ->
      url_id_sequence (pg (snd (ShortenURL f originalURL customAlias w)))
      = url_id_sequence (pg w))
  /\ (validateURL originalURL <> None ->
      url_id_sequence (pg (snd (ShortenURL f originalURL customAlias w)))
      = url_id_sequence (pg w))
  /\ (nextid_fault f <> None ->
      url_id_sequence (pg (snd (ShortenURL f originalURL customAlias w)))
      = url_id_sequence (pg w)).
Proof.
  assert (Hcases :
    url_id_sequence (pg (snd (ShortenURL f originalURL customAlias w)))
    = match validateURL originalURL, nextid_fault f with
      | None, None => if String.eqb customAlias "" then url_id_sequence (pg w) + 1
                      else url_id_sequence (pg w)
      | _, _ => url_id_sequence (pg w)
      end).
  { unfold ShortenURL.
    destruct (validateURL originalURL) as [e|] eqn:Hurl; [reflexivity|].
    destruct (validateURL_ok_normalizeURL _ Hurl) as [normalizedURL ->].
    destruct (String.eqb_spec customAlias "") as [->|Hne]; cbn [negb].
    - unfold URLRepository_GetNextID. destruct (nextid_fault f); [reflexivity|].
      rewrite ShortenURL_create_sequence. reflexivity.
    - assert (Halias :
        url_id_sequence
          (pg (snd
             match validateCustomAlias customAlias with
             | Some err => (Err (wrap "invalid custom alias: " err), w)
             | None =>
                 match URLRepository_Exists (exists_fault f) customAlias w with
                 | ((_, Some err), w) =>
                     (Err (wrap "failed to check alias existence: " err), w)
                 | ((true, None), w) =>
                     (Err (errorString "custom alias already exists"), w)
                 | ((false, None), w) =>
                     match URLRepository_Create (create_fault f)
                             {| Models.URL_ID := 0; Models.URL_ShortCode := customAlias;
                                Models.URL_OriginalURL := normalizedURL;
                                Models.URL_CustomAlias := true;
                                Models.URL_CreatedAt := 0;
                                Models.URL_ExpiresAt := None |}
                             (commit_concurrent (concurrent_inserts f) w) with
                     | ((_, Some err), w) => (Err (wrap "failed to create URL: " err), w)
                     | ((urlRecord, None), w) =>
                         match RedisCache_Set (cache_set_fault f) customAlias
                                 normalizedURL w with
                         | (Some err, w) =>
                             (Ok urlRecord,
                              log ("Failed to cache URL mapping: " +:+ Error err) w)
                         | (None, w) => (Ok urlRecord, w)
                         end
                     end
                 end
             end))
        = url_id_sequence (pg w)).
      { destruct (validateCustomAlias customAlias); [reflexivity|].
        unfold URLRepository_Exists. destruct (exists_fault f); [reflexivity|].
        cbn [pg record_call].
        destruct (find_url customAlias (pg w)); [reflexivity|].
        rewrite ShortenURL_create_sequence. reflexivity. }
      rewrite Halias. destruct (nextid_fault f); reflexivity. }
  rewrite Hcases. repeat split.
  - intros -> -> ->. reflexivity.
  - intros Hne. destruct (validateURL originalURL), (nextid_fault f); try reflexivity.
    destruct (String.eqb_spec customAlias ""); [contradiction|reflexivity].
  - intros Hbad. destruct (validateURL originalURL); [reflexivity|contradiction].
  - intros Hbad. destruct (validateURL originalURL), (nextid_fault f);
      try reflexivity; contradiction.
Qed.

(** ** Aliases against the schema and the routes *)

Lemma commit_concurrent_pg rows : forall wa wb,
  pg wa = pg wb -> now wa = now wb ->
  pg (commit_concurrent rows wa) = pg (commit_concurrent rows wb).
Proof.
  unfold commit_concurrent.
  induction rows as [|r rows IH]; intros wa wb Hpg Hnow; [exact Hpg|].
  cbn [fold_left]. apply IH; [|exact Hnow].
  cbn [pg set_pg]. unfold insert_url. now rewrite Hpg, Hnow.
Qed.

Lemma value_too_long_is_not_a_client_error :
  Contains ("failed to create URL: " +:+ pq_value_too_long) "invalid URL"
  || Contains ("failed to create URL: " +:+ pq_value_too_long) "invalid custom alias"
  || Contains ("failed to create URL: " +:+ pq_value_too_long) "already exists"
  = false.
Proof. vm_compute. reflexivity. Qed.

(** X5. validateCustomAlias admits aliases of up to 20 characters, while the
    column short_code is a VARCHAR(10). An alias of 11 to 20 characters that
    passes validation and is free therefore gets as far as the INSERT, which
    the database rejects: ShortenURL returns "failed to create URL: pq: value
    too long for type character varying(10)", the handler answers 500, and
    neither a row nor a cache entry is created. *)
Theorem long_alias_passes_validation_but_not_the_insert {U : Unicode}
    (f : Faults) (originalURL customAlias baseURLHeader : string) (w : World) :
  validateURL originalURL = None ->
  validateCustomAlias customAlias = None ->
  10 < len customAlias ->
  exists_fault f = None -> create_fault f = None ->
  find_url customAlias (pg w) = None ->
  fst (ShortenURL f originalURL customAlias w)
  = Err (errorString ("failed to create URL: " +:+ pq_value_too_long))
  /\ fst (URLHandler_ShortenURL f
            (Some {| Models.Req_URL := originalURL;
                     Models.Req_CustomAlias := customAlias |}) baseURLHeader w)
     = Some (JSON 500 (ErrorBody "Failed to create short URL"))
  /\ urls (pg (snd (ShortenURL f originalURL customAlias w)))
     = urls (pg (commit_concurrent (concurrent_inserts f) w))
  /\ redis (snd (ShortenURL f originalURL customAlias w)) = redis w.
Proof.
  intros Hurl Halias Hlen Hex Hcr Hfree.
  destruct (validateURL_ok_normalizeURL _ Hurl) as [normalizedURL Hnorm].
  pose proof (validateCustomAlias_nonempty _ Halias) as Hne.
  set (w1 := record_call (SQL_Exists customAlias) w).
  set (w2 := commit_concurrent (concurrent_inserts f) w1).
  assert (Hrun : ShortenURL f originalURL customAlias w
                 = (Err (errorString ("failed to create URL: " +:+ pq_value_too_long)),
                    set_pg (pg w2) (record_call (SQL_InsertURL customAlias) w2))).
  { unfold ShortenURL. rewrite Hurl, Hnorm.
    destruct (String.eqb_spec customAlias ""); [contradiction|]. cbn [negb].
    rewrite Halias, Hex. unfold URLRepository_Exists. fold w1.
    change (pg w1) with (pg w). rewrite Hfree. fold w2.
    unfold URLRepository_Create, insert_url. rewrite Hcr.
    cbn [Models.URL_ShortCode pg record_call].
    destruct (Z.ltb_spec 10 (len customAlias)); [reflexivity|lia]. }
  rewrite Hrun. cbn [fst snd pg redis set_pg record_call].
  split; [reflexivity|]. split; [|split].
  - unfold URLHandler_ShortenURL. cbn [Models.Req_URL Models.Req_CustomAlias].
    rewrite Hrun. cbn [Error]. rewrite value_too_long_is_not_a_client_error.
    reflexivity.
  - subst w2 w1. f_equal. now apply commit_concurrent_pg.
  - subst w2. destruct (commit_concurrent_frame (concurrent_inserts f) w1) as (-> & _).
    reflexivity.
Qed.

Lemma long_alias_passes_validation_but_not_the_insert_witness :
  validateCustomAlias "test-link-123" = None
  /\ fst (URLHandler_ShortenURL no_faults
            (Some {| Models.Req_URL := "https://example.com";
                     Models.Req_CustomAlias := "test-link-123" |}) "" empty_world)
     = Some (JSON 500 (ErrorBody "Failed to create short URL")).
Proof.
  split; [vm_compute; reflexivity|].
  apply (long_alias_passes_validation_but_not_the_insert no_faults "https://example.com"
           "test-link-123" "" empty_world); vm_compute; reflexivity.
Defined.

Lemma validateCustomAlias_bytes {U : Unicode} alias :
  validateCustomAlias alias = None -> forall_bytes alias_byte alias = true.
Proof.
  unfold validateCustomAlias, alias_regexp.
  destruct ((len alias <? 3) || (20 <? len alias)); [discriminate|].
  destruct (negb (alias =? ""))%string; [|discriminate].
  destruct (forall_bytes alias_byte alias); [reflexivity|discriminate].
Qed.

Lemma eqb_slash s t : (String "/" s =? String "/" t)%string = (s =? t)%string.
Proof. reflexivity. Qed.

Lemma append_cons c s t : String c s +:+ t = String c (s +:+ t).
Proof. reflexivity. Qed.

Lemma append_nil_right s : s +:+ "" = s.
Proof. induction s as [|a s IH]; [reflexivity|]. now rewrite append_cons, IH. Qed.

Lemma append_snoc s c t : (s +:+ String c "") +:+ t = s +:+ String c t.
Proof. induction s as [|a s IH]; [reflexivity|]. now rewrite !append_cons, IH. Qed.

Lemma split_slash_alias alias : forall cur,
  forall_bytes alias_byte alias = true ->
  Gin.split_slash cur alias = [cur +:+ alias].
Proof.
  induction alias as [|c alias IH]; intros cur Hbytes; cbn [Gin.split_slash].
  - now rewrite append_nil_right.
  - cbn [forall_bytes] in Hbytes. apply andb_prop in Hbytes as [Hc Hrest].
    destruct (Ascii.eqb_spec c "/") as [->|_]; [vm_compute in Hc; discriminate|].
    rewrite IH by assumption. now rewrite append_snoc.
Qed.

Lemma alias_is_no_param alias :
  forall_bytes alias_byte alias = true -> HasPrefix alias ":" = false.
Proof.
  destruct alias as [|c alias]; [reflexivity|]. cbn [forall_bytes].
  intros Hbytes. apply andb_prop in Hbytes as [Hc _]. unfold HasPrefix.
  cbn [String.prefix].
  destruct (Ascii.ascii_dec ":" c) as [<-|]; [vm_compute in Hc; discriminate|reflexivity].
Qed.

(** X6. An alias that validateCustomAlias accepts is a single path segment
    that the router hands to RedirectURL with short_code bound to the alias,
    behind the engine-wide middleware; the one exception is "metrics", which
    is accepted as an alias although GET /metrics is a static route of its
    own, so that a mapping stored under it is never reached. *)
Theorem accepted_alias_is_routed_to_redirect {U : Unicode} (alias : string) :
  validateCustomAlias alias = None ->
  validateCustomAlias "metrics" = None
  /\ (alias <> "metrics" ->
      Gin.getValue Main.router "GET" ("/" +:+ alias)
      = Some ({| Gin.route_method := "GET"; Gin.route_path := "/:short_code";
                 Gin.route_handlers :=
                   [Gin.gin_Recovery; Gin.LoggerMiddleware; Gin.CORSMiddleware;
                    Gin.SecurityMiddleware; Gin.RateLimitMiddleware;
                    Gin.RedirectURL] |},
              [("short_code", alias)]))
  /\ (alias = "metrics" ->
      exists route, Gin.getValue Main.router "GET" ("/" +:+ alias) = Some (route, [])
                    /\ Gin.route_path route = "/metrics"
                    /\ In Gin.MetricsHandler (Gin.route_handlers route)
                    /\ ~ In Gin.RedirectURL (Gin.route_handlers route)).
Proof.
  intros Hvalid. split; [vm_compute; reflexivity|]. split.
  - intros Hmetrics.
    pose proof (validateCustomAlias_bytes _ Hvalid) as Hbytes.
    pose proof (validateCustomAlias_nonempty _ Hvalid) as Hne.
    assert (Hhealth : ("health" =? alias)%string = false).
    { apply String.eqb_neq. intros <-. vm_compute in Hvalid. discriminate. }
    assert (Hapi : ("api" =? alias)%string = false).
    { apply String.eqb_neq. intros <-. vm_compute in Hvalid. discriminate. }
    assert (Hm : ("metrics" =? alias)%string = false)
      by (apply String.eqb_neq; congruence).
    assert (Hstats : ("api/v1/urls/:short_code/stats" =? alias)%string = false).
    { apply String.eqb_neq. intros <-. vm_compute in Hbytes. discriminate. }
    assert (Hparam : (":short_code" =? alias)%string = false).
    { apply String.eqb_neq. intros <-. vm_compute in Hbytes. discriminate. }
    assert (Hempty : (alias =? "")%string = false) by (now apply String.eqb_neq).
    assert (Hsplit : Gin.split_slash "" (String "/" alias) = [""; alias]).
    { cbn [Gin.split_slash]. change (Ascii.eqb "/" "/") with true. cbn iota.
      now rewrite (split_slash_alias alias "" Hbytes). }
    unfold Gin.getValue. rewrite append_cons. change ("" +:+ alias) with alias.
    let routes := eval vm_compute in (Gin.trees Main.router) in
    change (Gin.trees Main.router) with routes.
    cbn [List.find Gin.route_method Gin.route_path].
    change ("GET" =? "GET")%string with true.
    change ("POST" =? "GET")%string with false.
    rewrite !eqb_slash, Hhealth, Hm, Hstats, Hparam. cbn [andb].
    unfold Gin.match_route. cbn [Gin.route_method Gin.route_path].
    change ("GET" =? "GET")%string with true.
    change ("POST" =? "GET")%string with false.
    cbn iota. rewrite Hsplit.
    change (Gin.split_slash "" "/health") with [""; "health"].
    change (Gin.split_slash "" "/metrics") with [""; "metrics"].
    change (Gin.split_slash "" "/api/v1/urls/:short_code/stats")
      with [""; "api"; "v1"; "urls"; ":short_code"; "stats"].
    change (Gin.split_slash "" "/:short_code") with [""; ":short_code"].
    cbn [Gin.match_segments].
    change (HasPrefix "" ":") with false.
    change (HasPrefix "health" ":") with false.
    change (HasPrefix "metrics" ":") with false.
    change (HasPrefix "api" ":") with false.
    change (HasPrefix ":short_code" ":") with true.
    change ("" =? "")%string with true.
    cbn iota. rewrite ?Hhealth, ?Hm, ?Hapi, ?Hempty. cbn [andb]. cbn iota.
    cbn [Gin.route_method Gin.route_path].
    change ("GET" =? "GET")%string with true. cbn iota.
    change (Gin.split_slash "" "/:short_code") with [""; ":short_code"].
    cbn [Gin.match_segments].
    change (HasPrefix "" ":") with false.
    change (HasPrefix ":short_code" ":") with true.
    change ("" =? "")%string with true.
    cbn iota. rewrite Hempty. reflexivity.
  - intros ->. eexists. split; [vm_compute; reflexivity|].
    split; [reflexivity|]. split; [cbn; tauto|].
    cbn. intros H. repeat (destruct H as [H|H]; [discriminate|]). exact H.
Qed.

Lemma accepted_alias_is_routed_to_redirect_witness :
  exists route,
    Gin.getValue Main.router "GET" "/my-link" = Some (route, [("short_code", "my-link")])
    /\ Gin.route_path route = "/:short_code".
Proof.
  destruct (accepted_alias_is_routed_to_redirect "my-link") as (_ & Hroute & _).
  - vm_compute. reflexivity.
  - eexists. split; [apply Hroute; discriminate|reflexivity].
Defined.

(** ** Resolving and redirecting *)

Lemma not_found_is_matched :
  Contains "URL not found" "not found" = true.
Proof. reflexivity. Qed.

(** X7. A code that the store does not know, with no live cache entry under
    it: GetOriginalURL returns "URL not found" after one cache read and one
    SELECT, and writes nothing to the cache; RedirectURL answers 404 and
    queues no click event. *)
Theorem unknown_code_is_not_found_and_not_cached
    (net_ParseIP : string -> bool) (f : Faults) (req : Request) (shortCode : string)
    (srv : Server) :
  shortCode <> "" ->
  find_url shortCode (pg (world srv)) = None ->
  cache_hit f shortCode (world srv) = false ->
  select_fault f = None ->
  fst (GetOriginalURL f shortCode (world srv)) = Err (errorString "URL not found")
  /\ redis (snd (GetOriginalURL f shortCode (world srv))) = redis (world srv)
  /\ calls (snd (GetOriginalURL f shortCode (world srv)))
     = calls (world srv) ++ [Redis_Get shortCode; SQL_SelectURL shortCode]
  /\ fst (URLHandler_RedirectURL net_ParseIP f req shortCode srv)
     = Some (JSON 404 (ErrorBody "Short URL not found"))
  /\ analyticsService (snd (URLHandler_RedirectURL net_ParseIP f req shortCode srv))
     = analyticsService srv.
Proof.
  intros Hne Hfind Hmiss Hsel. set (w := world srv) in *.
  assert (Hget : exists e,
             RedisCache_Get (cache_get_fault f) shortCode w
             = (("", Some e), record_call (Redis_Get shortCode) w)).
  { unfold cache_hit in Hmiss.
    destruct (cache_get_fault f) as [msg|]; [eexists; apply RedisCache_Get_fault|].
    destruct (redis w !! shortCode) as [[value expiry]|] eqn:Hlook.
    - exists redis_Nil. eapply RedisCache_Get_expired; [exact Hlook|].
      apply Z.ltb_ge. exact Hmiss.
    - exists redis_Nil. now apply RedisCache_Get_absent. }
  destruct Hget as [e Hget].
  assert (Hrun : exists w1,
             GetOriginalURL f shortCode w = (Err (errorString "URL not found"), w1)
             /\ redis w1 = redis w
             /\ calls w1 = calls w ++ [Redis_Get shortCode; SQL_SelectURL shortCode]).
  { unfold GetOriginalURL. rewrite Hget, Hsel. unfold URLRepository_GetByShortCode.
    destruct (is_redis_Nil e); cbn [pg record_call log]; rewrite Hfind;
      eexists; (split; [reflexivity|]); cbn; rewrite <- app_assoc; split; reflexivity. }
  destruct Hrun as (w1 & Hrun & Hredis & Hcalls).
  rewrite Hrun. cbn [fst snd]. repeat split; try assumption.
  - unfold URLHandler_RedirectURL.
    destruct (String.eqb_spec shortCode ""); [contradiction|].
    fold w. rewrite Hrun. cbn [Error]. rewrite not_found_is_matched. reflexivity.
  - unfold URLHandler_RedirectURL.
    destruct (String.eqb_spec shortCode ""); [contradiction|].
    fold w. rewrite Hrun. cbn [Error]. rewrite not_found_is_matched. reflexivity.
Qed.

Lemma unknown_code_is_not_found_and_not_cached_witness :
  fst (URLHandler_RedirectURL (fun _ => true) no_faults
         {| Method := "GET"; Path := "/nope"; ClientIP := "203.0.113.7";
            XForwardedFor := ""; XRealIP := ""; UserAgent := "curl/8.5.0";
            XBaseURL := ""; Payload := None |} "nope"
         {| world := empty_world; analyticsService := NewAnalyticsService |})
  = Some (JSON 404 (ErrorBody "Short URL not found")).
Proof.
  apply (unknown_code_is_not_found_and_not_cached (fun _ => true) no_faults _ "nope"
           {| world := empty_world; analyticsService := NewAnalyticsService |});
    [discriminate|reflexivity|reflexivity|reflexivity].
Defined.



(** ** The analytics queue and its worker *)

Lemma sanitizeUserAgent_bounds userAgent :
  sanitizeUserAgent userAgent <> "" /\ len (sanitizeUserAgent userAgent) <= 500.
Proof.
  unfold sanitizeUserAgent.
  set (cut := if 500 <? len userAgent then slice_to (Z.to_nat 500) userAgent
              else userAgent).
  assert (Hcut : (String.length cut <= 500)%nat).
  { subst cut. unfold len. destruct (Z.ltb_spec 500 (Z.of_nat (String.length userAgent))).
    - pose proof (slice_to_length (Z.to_nat 500) userAgent). lia.
    - lia. }
  pose proof (TrimSpace_length cut) as Htrim.
  destruct (String.eqb_spec (TrimSpace cut) "") as [_|Hne].
  - split; [discriminate|vm_compute; discriminate].
  - split; [exact Hne|unfold len; lia].
Qed.

Lemma sanitizeIPAddress_cases net_ParseIP ipAddress :
  sanitizeIPAddress net_ParseIP ipAddress = "unknown"
  \/ net_ParseIP (sanitizeIPAddress net_ParseIP ipAddress) = true.
Proof.
  unfold sanitizeIPAddress.
  set (ip := if Contains ipAddress "," then _ else _).
  destruct (net_ParseIP ip) eqn:Hip; cbn [negb]; [right; exact Hip|now left].
Qed.

(** X9. The queue keeps its bound and its events are sanitized: if the
    queue holds at most 10000 events, each with a non-empty user agent of at
    most 500 bytes and an address that is "unknown" or accepted by
    net.ParseIP, then the same is true after RecordClickAsync, for every
    code, address and user agent handed in. *)
Theorem RecordClickAsync_keeps_queue_bounded_and_sanitized
    (net_ParseIP : string -> bool) (shortCode ipAddress userAgent : string)
    (s : AnalyticsService) (w : World) :
  Z.of_nat (length (eventQueue s)) <= 10000 ->
  Forall (sanitized net_ParseIP) (eventQueue s) ->
  let s' := fst (RecordClickAsync net_ParseIP shortCode ipAddress userAgent s w) in
  Z.of_nat (length (eventQueue s')) <= 10000
  /\ Forall (sanitized net_ParseIP) (eventQueue s').
Proof.
  intros Hlen Hall s'. subst s'. unfold RecordClickAsync.
  change eventQueue_cap with 10000.
  destruct (Z.ltb_spec (Z.of_nat (length (eventQueue s))) 10000) as [Hroom|Hfull];
    cbn [fst eventQueue]; [|now split].
  split; [rewrite length_app; cbn [length]; lia|].
  apply Forall_app. split; [exact Hall|]. constructor; [|constructor].
  unfold sanitized. cbn [Event_UserAgent Event_IPAddress].
  destruct (sanitizeUserAgent_bounds userAgent) as [Hne Hle].
  split; [exact Hne|]. split; [exact Hle|]. apply sanitizeIPAddress_cases.
Qed.

Lemma RecordClickAsync_keeps_queue_bounded_and_sanitized_witness :
  Forall (sanitized (fun ip => String.eqb ip "203.0.113.7"))
    (eventQueue (fst (RecordClickAsync (fun ip => String.eqb ip "203.0.113.7")
                        "3d7" "not an address" "   " NewAnalyticsService empty_world))).
Proof.
  apply (RecordClickAsync_keeps_queue_bounded_and_sanitized
           (fun ip => String.eqb ip "203.0.113.7") "3d7" "not an address" "   "
           NewAnalyticsService empty_world).
  - vm_compute. discriminate.
  - constructor.
Defined.

Lemma RecordClick_frame inet_in fault a w :
  let w' := snd (AnalyticsRepository_RecordClick inet_in fault a w) in
  calls w'
  = calls w ++ [SQL_InsertAnalytics (Models.Analytics_ShortCode a)
                  (Models.Analytics_IPAddress a) (Models.Analytics_UserAgent a)]
  /\ urls (pg w') = urls (pg w) /\ now w' = now w /\ redis w' = redis w
  /\ logs w' = logs w.
Proof.
  unfold AnalyticsRepository_RecordClick. destruct fault; [cbn; repeat split|].
  cbn [pg record_call].
  destruct (inet_in (Models.Analytics_IPAddress a)); [|cbn; repeat split].
  cbn [negb].
  destruct (10 <? len (Models.Analytics_ShortCode a)); [cbn; repeat split|].
  destruct (find_url (Models.Analytics_ShortCode a) (pg w)); cbn; repeat split.
Qed.


Lemma flushBatch_from_calls inet_in fault items : forall i w,
  calls (flushBatch_from inet_in i fault items w)
  = calls w
    ++ map (fun a => SQL_InsertAnalytics (Models.Analytics_ShortCode a)
                       (Models.Analytics_IPAddress a) (Models.Analytics_UserAgent a))
         items.
Proof.
  induction items as [|a items IH]; intros i w; cbn [flushBatch_from map].
  - now rewrite app_nil_r.
  - destruct (RecordClick_frame inet_in (fault i) a w) as (Hcalls & _).
    destruct (AnalyticsRepository_RecordClick inet_in (fault i) a w)
      as [[row [err|]] w1];
      cbn [snd] in Hcalls; rewrite IH; cbn [calls log]; rewrite Hcalls, <- app_assoc;
      reflexivity.
Qed.

Lemma inserted_clicks_app cs1 cs2 :
  inserted_clicks (cs1 ++ cs2) = inserted_clicks cs1 ++ inserted_clicks cs2.
Proof.
  induction cs1 as [|c cs1 IH]; [reflexivity|].
  destruct c; cbn [app inserted_clicks]; rewrite IH; reflexivity.
Qed.

Lemma inserted_clicks_flush inet_in fault items w :
  inserted_clicks (calls (flushBatch inet_in fault items w))
  = inserted_clicks (calls w) ++ map item_click items.
Proof.
  unfold flushBatch. rewrite flushBatch_from_calls, inserted_clicks_app. f_equal.
  induction items as [|a items IH]; [reflexivity|].
  cbn [map inserted_clicks]. now rewrite IH.
Qed.

Lemma processEvents_step_keeps inet_in fault wake s w :
  Z.of_nat (length (batch s)) < batchSize ->
  let r := processEvents_step inet_in fault wake s w in
  Z.of_nat (length (batch (fst r))) < batchSize
  /\ clicks_in_order (fst r) (snd r) = clicks_in_order s w.
Proof.
  intros Hb. unfold processEvents_step, clicks_in_order. cbv zeta. destruct wake.
  - destruct (eventQueue s) as [|event queue] eqn:Hq; cbn [fst snd];
      [rewrite Hq; split; [exact Hb|reflexivity]|].
    destruct (Z.leb_spec batchSize
                (Z.of_nat (length (batch s ++
                   [{| Models.Analytics_ID := 0;
                       Models.Analytics_ShortCode := Event_ShortCode event;
                       Models.Analytics_ClickedAt := 0;
                       Models.Analytics_IPAddress := Event_IPAddress event;
                       Models.Analytics_UserAgent := Event_UserAgent event |}]))))
      as [Hfull|Hroom]; cbn [fst snd eventQueue batch length map app].
    + split; [unfold batchSize; lia|].
      rewrite inserted_clicks_flush, List.map_app, <- !app_assoc. reflexivity.
    + split; [exact Hroom|].
      rewrite List.map_app, <- !app_assoc. reflexivity.
  - destruct (0 <? Z.of_nat (length (batch s)));
      cbn [fst snd eventQueue batch length map app].
    + split; [unfold batchSize; lia|].
      rewrite inserted_clicks_flush, <- !app_assoc. reflexivity.
    + split; [exact Hb|reflexivity].
Qed.

(** X10. The worker neither loses, repeats, reorders nor alters a click.
    Over any run of wake-ups of the processEvents loop, whatever inserts
    fail and whatever the database accepts, the clicks (code, address and
    user agent) of the INSERTs issued so far, followed by those in the
    batch, followed by those still queued, are the same list as before the
    run: each received event is handed to exactly one INSERT, with its own
    three values, in the order of arrival. The batch, flushed when it
    reaches 100, stays below 100 between wake-ups. *)
Theorem processEvents_attempts_each_event_once
    (inet_in : string -> bool) (fault : nat -> option string) (wakes : list Wakeup)
    (s : AnalyticsService) (w : World) :
  Z.of_nat (length (batch s)) < 100 ->
  let r := processEvents_run inet_in fault wakes s w in
  Z.of_nat (length (batch (fst r))) < 100
  /\ inserted_clicks (calls (snd r))
     ++ map item_click (batch (fst r))
     ++ map event_click (eventQueue (fst r))
     = inserted_clicks (calls w)
       ++ map item_click (batch s)
       ++ map event_click (eventQueue s).
Proof.
  revert s w. induction wakes as [|wake wakes IH]; intros s w Hb r; subst r.
  - cbn [processEvents_run fst snd]. split; [exact Hb|reflexivity].
  - cbn [processEvents_run].
    destruct (processEvents_step_keeps inet_in fault wake s w Hb) as (Hb1 & Hsame1).
    destruct (processEvents_step inet_in fault wake s w) as [s1 w1].
    cbn [fst snd] in *.
    destruct (IH s1 w1 Hb1) as (Hb2 & Hsame2). split; [exact Hb2|].
    unfold clicks_in_order in Hsame1. rewrite Hsame2. exact Hsame1.
Qed.

Lemma processEvents_attempts_each_event_once_witness :
  let s := fst (capture_all (fun _ => true)
                  [("3d7", "203.0.113.7", "a"); ("3d7", "203.0.113.8", "b");
                   ("3d7", "203.0.113.9", "c")] NewAnalyticsService empty_world) in
  let r := processEvents_run (fun _ => true)
             (fun i => if Nat.eqb i 0 then Some "pq: bad connection" else None)
             [EventReceived; EventReceived; TickerFired; TickerFired; EventReceived]
             s empty_world in
  inserted_clicks (calls (snd r))
  = [("3d7", "203.0.113.7", "a"); ("3d7", "203.0.113.8", "b")]
  /\ map item_click (batch (fst r)) = [("3d7", "203.0.113.9", "c")]
  /\ eventQueue (fst r) = [].
Proof.
  intros s r.
  destruct (processEvents_attempts_each_event_once (fun _ => true)
              (fun i => if Nat.eqb i 0 then Some "pq: bad connection" else None)
              [EventReceived; EventReceived; TickerFired; TickerFired; EventReceived]
              s empty_world) as [_ Hsame].
  - vm_compute. reflexivity.
  - fold r in Hsame.
    assert (Hbatch : map item_click (batch (fst r)) = [("3d7", "203.0.113.9", "c")])
      by (vm_compute; reflexivity).
    assert (Hqueue : eventQueue (fst r) = []) by (vm_compute; reflexivity).
    rewrite Hbatch, Hqueue in Hsame. cbn [map] in Hsame. rewrite app_nil_r in Hsame.
    split; [|split; [exact Hbatch|exact Hqueue]].
    apply (app_inv_tail [("3d7", "203.0.113.9", "c")]).
    rewrite Hsame. vm_compute. reflexivity.
Defined.

Lemma let_through_length inet_in i fault items :
  (length (let_through inet_in i fault items) <= length items)%nat.
Proof.
  revert i. induction items as [|a items IH]; intros i; cbn [let_through length]; [lia|].
  specialize (IH (S i)). destruct (goes_through inet_in fault i a); cbn [length]; lia.
Qed.




(** ** Statistics *)







(** ** The middleware chain *)

(** X13. A CORS preflight stops at the CORS middleware. For every request
    with method OPTIONS, on any path, the router answers 204 and the server
    is as it was: the rate limiter, which comes later in the chain, is not
    consulted (no cache call, no count), and no handler runs. *)
Theorem preflight_is_answered_before_the_limiter {U : Unicode}
    (net_ParseIP : string -> bool)
    (redirectTrailingSlash : list Gin.Route -> Request -> option string)
    (f : Faults) (req : Request) (srv : Server) :
  Method req = "OPTIONS" ->
  Main.ServeHTTP net_ParseIP redirectTrailingSlash Main.router f req srv
  = (Some (Status 204), srv).
Proof.
  intros Hmethod. unfold Main.ServeHTTP.
  assert (Hnone : Main.trailing_slash_redirect redirectTrailingSlash Main.router req
                  = None).
  { unfold Main.trailing_slash_redirect. rewrite Hmethod. reflexivity. }
  rewrite Hnone.
  destruct (handlers_for_shape req) as [rest Hshape].
  destruct (Main.handlers_for Main.router req) as [chain params].
  cbn [fst] in Hshape. subst chain.
  cbn [app Main.run_chain]. unfold CORSMiddleware. rewrite Hmethod. reflexivity.
Qed.

Lemma preflight_is_answered_before_the_limiter_witness :
  let srv := {| world := empty_world; analyticsService := NewAnalyticsService |} in
  Main.ServeHTTP (fun _ => true) documented_redirect Main.router no_faults
    {| Method := "OPTIONS"; Path := "/api/v1/shorten"; ClientIP := "203.0.113.7";
       XForwardedFor := ""; XRealIP := ""; UserAgent := "Mozilla/5.0";
       XBaseURL := ""; Payload := None |} srv
  = (Some (Status 204), srv).
Proof.
  intros srv.
  apply (preflight_is_answered_before_the_limiter (fun _ => true) documented_redirect
           no_faults).
  reflexivity.
Defined.

(** ** More on the rate limiter *)

Lemma RedisCache_Get_inv fault key w value w1 :
  RedisCache_Get fault key w = ((value, None), w1) ->
  fault = None /\ w1 = record_call (Redis_Get key) w
  /\ exists expiry, redis w !! key = Some (value, expiry) /\ now w < expiry.
Proof.
  unfold RedisCache_Get. destruct fault; [discriminate|]. cbn [redis now record_call].
  destruct (redis w !! key) as [[v expiry]|]; [|discriminate].
  destruct (Z.ltb_spec (now w) expiry); [|discriminate].
  intros [= <- <-]. repeat split. now exists expiry.
Qed.

(** X14. The limiter refuses only on a counter it has read. If
    RateLimitMiddleware aborts, then the cache read succeeded on a live entry
    whose scanned value (0 if it does not scan) plus one, as an int, exceeds
    100; the response is the 429 body; and the refusal made one cache read
    and no write. In every other case, a failing or missing read and a
    failing write included, the request is let through. *)
Theorem limiter_refuses_only_on_a_read_counter
    (f : Faults) (clientIP : string) (w w' : World) (response : Response) :
  RateLimitMiddleware f clientIP w = (Abort response, w') ->
  cache_get_fault f = None
  /\ (exists countStr expiry,
        redis w !! rate_key clientIP = Some (countStr, expiry) /\ now w < expiry
        /\ 100 < wrap_int (match Sscanf_d countStr with Some n => n | None => 0 end + 1))
  /\ Abort response = denied
  /\ redis w' = redis w
  /\ calls w' = calls w ++ [Redis_Get (rate_key clientIP)].
Proof.
  unfold RateLimitMiddleware. fold (rate_key clientIP).
  destruct (RedisCache_Get (cache_get_fault f) (rate_key clientIP) w)
    as [[countStr [e|]] w1] eqn:Hget.
  - destruct (RedisCache_SetWithTTL _ _ _ _ w1) as [[err|] w2]; discriminate.
  - apply RedisCache_Get_inv in Hget as (Hf & -> & expiry & Hlook & Hlive).
    unfold maxRequests.
    destruct (Z.ltb_spec 100
                (wrap_int (match Sscanf_d countStr with Some n => n | None => 0 end + 1)))
      as [Hover|Hunder].
    + intros [= <- <-]. split; [exact Hf|]. split; [now exists countStr, expiry|].
      repeat split.
    + destruct (RedisCache_SetWithTTL _ _ _ _ _) as [[err|] w2]; discriminate.
Qed.

Lemma limiter_refuses_only_on_a_read_counter_witness :
  let w := set_now (30 * time_Second)
             (set_redis {[ rate_key "203.0.113.7" := ("250", 45 * time_Second) ]}
                empty_world) in
  exists countStr expiry,
    redis w !! rate_key "203.0.113.7" = Some (countStr, expiry) /\ now w < expiry
    /\ 100 < wrap_int (match Sscanf_d countStr with Some n => n | None => 0 end + 1).
Proof.
  intros w.
  destruct (RateLimitMiddleware no_faults "203.0.113.7" w) as [[|response] w'] eqn:Hrun;
    [vm_compute in Hrun; discriminate|].
  destruct (limiter_refuses_only_on_a_read_counter no_faults "203.0.113.7" w w'
              response Hrun) as (_ & Hcounter & _).
  exact Hcounter.
Defined.

(** X15. A counter that cannot be used starts over. If the entry under the
    client's key has expired, or is live but does not scan as an integer (the
    scan error is ignored and the count stays 0), the request is let through,
    whether or not the write that follows succeeds: the limiter reads the
    key, then writes "1" with the 60-second TTL. When the write succeeds the
    stored counter becomes "1" with a fresh 60-second TTL, whatever was
    stored; when it fails the cache is as it was. *)
Theorem unusable_counter_starts_over
    (f : Faults) (clientIP countStr : string) (expiry : Z) (w : World) :
  cache_get_fault f = None ->
  redis w !! rate_key clientIP = Some (countStr, expiry) ->
  expiry <= now w \/ Sscanf_d countStr = None ->
  fst (RateLimitMiddleware f clientIP w) = Next
  /\ calls (snd (RateLimitMiddleware f clientIP w))
     = calls w ++ [Redis_Get (rate_key clientIP);
                   Redis_Set (rate_key clientIP) "1" (60 * time_Second)]
  /\ redis (snd (RateLimitMiddleware f clientIP w))
     = match cache_set_fault f with
       | None => <[rate_key clientIP := ("1", now w + 60 * time_Second)]> (redis w)
       | Some _ => redis w
       end.
Proof.
  intros Hget Hlook Hbad.
  assert (Hrun : RateLimitMiddleware f clientIP w
                 = (Next, snd (RedisCache_SetWithTTL (cache_set_fault f)
                                 (rate_key clientIP) "1" timeWindow
                                 (record_call (Redis_Get (rate_key clientIP)) w)))).
  { destruct (Z.lt_ge_cases (now w) expiry) as [Hlive|Hdead].
    - destruct Hbad as [Hdead|Hscan]; [lia|].
      unfold RateLimitMiddleware. fold (rate_key clientIP).
      rewrite Hget, (RedisCache_Get_hit _ _ _ _ Hlook Hlive), Hscan.
      change (maxRequests <? wrap_int (0 + 1)) with false. cbn iota.
      change (Sprintf_d (wrap_int (0 + 1))) with "1".
      destruct (RedisCache_SetWithTTL _ _ _ _ _) as [[err|] w1]; reflexivity.
    - unfold RateLimitMiddleware. fold (rate_key clientIP).
      rewrite Hget, (RedisCache_Get_expired _ _ _ _ Hlook Hdead).
      destruct (RedisCache_SetWithTTL _ _ _ _ _) as [[err|] w1]; reflexivity. }
  rewrite Hrun. cbn [fst snd]. split; [reflexivity|].
  destruct (cache_set_fault f) as [msg|].
  - rewrite RedisCache_SetWithTTL_fault. cbn [snd calls redis record_call].
    rewrite <- app_assoc. split; reflexivity.
  - rewrite RedisCache_SetWithTTL_ok.
    cbn [snd calls redis now set_redis record_call].
    rewrite <- app_assoc. split; reflexivity.
Qed.

Lemma unusable_counter_starts_over_witness :
  let w := set_now (30 * time_Second)
             (set_redis {[ rate_key "203.0.113.7" := ("abc", 45 * time_Second) ]}
                empty_world) in
  let cache_write_fails :=
    {| exists_fault := None; nextid_fault := None; create_fault := None;
       select_fault := None; cache_get_fault := None;
       cache_set_fault := Some "redis: connection pool timeout";
       db_ping_fault := None; cache_ping_fault := None; concurrent_inserts := [] |} in
  (fst (RateLimitMiddleware no_faults "203.0.113.7" w) = Next
   /\ redis (snd (RateLimitMiddleware no_faults "203.0.113.7" w))
        !! rate_key "203.0.113.7"
      = Some ("1", 90 * time_Second))
  /\ (fst (RateLimitMiddleware cache_write_fails "203.0.113.7" w) = Next
      /\ redis (snd (RateLimitMiddleware cache_write_fails "203.0.113.7" w))
           !! rate_key "203.0.113.7"
         = Some ("abc", 45 * time_Second)).
Proof.
  intros w cache_write_fails. split.
  - destruct (unusable_counter_starts_over no_faults "203.0.113.7" "abc"
                (45 * time_Second) w) as (Hflow & _ & Hredis).
    + reflexivity.
    + reflexivity.
    + right. vm_compute. reflexivity.
    + split; [exact Hflow|]. rewrite Hredis. apply lookup_insert_eq.
  - destruct (unusable_counter_starts_over cache_write_fails "203.0.113.7" "abc"
                (45 * time_Second) w) as (Hflow & _ & Hredis).
    + reflexivity.
    + reflexivity.
    + right. vm_compute. reflexivity.
    + split; [exact Hflow|]. rewrite Hredis. reflexivity.
Defined.

Lemma spaced_app prev ts : forall t,
  spaced prev (ts ++ [t]) <->
  spaced prev ts /\ List.last ts prev <= t < List.last ts prev + timeWindow.
Proof.
  revert prev. induction ts as [|x ts IH]; intros prev t.
  - cbn [app spaced List.last]. tauto.
  - cbn [app spaced]. rewrite IH, last_cons_default. tauto.
Qed.

Lemma serve_all_allowed_spaced clientIP : forall ts k w t0,
  1 <= k -> k + Z.of_nat (length ts) <= 100 ->
  redis w !! rate_key clientIP = Some (Sprintf_d k, t0 + timeWindow) ->
  spaced t0 ts ->
  fst (serve_all clientIP ts w) = repeat Next (length ts)
  /\ redis (snd (serve_all clientIP ts w)) !! rate_key clientIP
     = Some (Sprintf_d (k + Z.of_nat (length ts)), List.last ts t0 + timeWindow).
Proof.
  induction ts as [|t ts IH]; intros k w t0 Hk Hmax Hlook Hsp.
  - cbn [serve_all fst snd length repeat List.last]. rewrite Z.add_0_r. now split.
  - cbn [length] in Hmax. destruct Hsp as [Ht Hsp].
    cbn [serve_all].
    rewrite (RateLimitMiddleware_counted no_faults clientIP (set_now t w) k
               (t0 + timeWindow))
      by (try reflexivity; try assumption; cbn; lia).
    destruct (Z.leb_spec 100 k); [lia|].
    rewrite RedisCache_SetWithTTL_ok. cbn [snd].
    set (w1 := set_redis _ _).
    assert (Hlook1 : redis w1 !! rate_key clientIP
                     = Some (Sprintf_d (k + 1), t + timeWindow))
      by (subst w1; cbn [redis set_redis now record_call set_now];
          apply lookup_insert_eq).
    destruct (IH (k + 1) w1 t) as (Hflows & Hl); try assumption; try lia.
    destruct (serve_all clientIP ts w1) as [flows w2]. cbn [fst snd] in *.
    split; [cbn [length repeat]; now rewrite Hflows|].
    rewrite last_cons_default, Hl.
    replace (k + 1 + Z.of_nat (length ts)) with (k + Z.of_nat (length (t :: ts)))
      by (cbn [length]; lia).
    reflexivity.
Qed.

(** X16. The window slides with the traffic. Every allowed request rewrites
    the counter with a full 60-second TTL, so the count goes on as long as
    each request comes less than 60 seconds after the one before it, however
    long the run lasts: of 101 such requests on a healthy cache, starting
    without a counter, the first 100 are let through and the 101st is
    refused, even when no 60-second interval holds more than two of them. *)
Theorem limiter_counts_across_windows
    (clientIP : string) (w : World) (t1 : Z) (allowed : list Z) (t101 : Z) :
  redis w !! rate_key clientIP = None ->
  length allowed = 99%nat ->
  spaced t1 (allowed ++ [t101]) ->
  fst (serve_all clientIP (t1 :: allowed ++ [t101]) w) = repeat Next 100 ++ [denied].
Proof.
  intros Habsent Hlen Hsp. apply spaced_app in Hsp as [Hsp Ht101].
  assert (Hfirst : RateLimitMiddleware no_faults clientIP (set_now t1 w)
                   = (Next, set_redis (<[rate_key clientIP := ("1", t1 + timeWindow)]>
                                         (redis w))
                              (record_call (Redis_Set (rate_key clientIP) "1" timeWindow)
                                 (record_call (Redis_Get (rate_key clientIP))
                                    (set_now t1 w))))).
  { erewrite RateLimitMiddleware_restart
      by (apply RedisCache_Get_absent; exact Habsent).
    reflexivity. }
  set (w1 := set_redis _ _) in Hfirst.
  assert (Hlook1 : redis w1 !! rate_key clientIP = Some (Sprintf_d 1, t1 + timeWindow))
    by (subst w1; cbn [redis set_redis]; apply lookup_insert_eq).
  destruct (serve_all_allowed_spaced clientIP allowed 1 w1 t1) as (Hflows & Hl);
    try assumption; try lia.
  rewrite Hlen in Hflows, Hl. change (1 + Z.of_nat 99) with 100 in Hl.
  change (t1 :: allowed ++ [t101]) with ((t1 :: allowed) ++ [t101]).
  rewrite serve_all_app. cbn [fst snd serve_all]. rewrite Hfirst.
  destruct (serve_all clientIP allowed w1) as [flows w100]. cbn [fst snd] in *.
  rewrite (RateLimitMiddleware_counted no_faults clientIP (set_now t101 w100) 100
             (List.last allowed t1 + timeWindow));
    [|reflexivity|exact Hl|cbn [now set_now]; lia|lia].
  cbn [fst]. rewrite Hflows. reflexivity.
Qed.

Lemma limiter_counts_across_windows_witness :
  fst (serve_all "203.0.113.7"
         (0 :: map (fun i => Z.of_nat i * (59 * time_Second)) (seq 1 99)
            ++ [100 * (59 * time_Second)]) empty_world)
  = repeat Next 100 ++ [denied].
Proof.
  apply (limiter_counts_across_windows "203.0.113.7" empty_world 0
           (map (fun i => Z.of_nat i * (59 * time_Second)) (seq 1 99))
           (100 * (59 * time_Second))).
  - reflexivity.
  - reflexivity.
  - vm_compute. repeat split; discriminate.
Defined.

(** ** The counter as text *)

Lemma scan_digits_string_of_uint d : forall acc,
  exists k, scan_digits acc (NilEmpty.string_of_uint d) = (decimal_value acc d, k)
            /\ (d <> Decimal.Nil -> k <> O).
Proof.
  induction d as [|d IH|d IH|d IH|d IH|d IH|d IH|d IH|d IH|d IH|d IH]; intros acc;
    [exists O; split; [reflexivity|congruence]|..];
    cbn [NilEmpty.string_of_uint decimal_value scan_digits];
    match goal with
    | |- context [NetURL.is_digit ?c] => change (NetURL.is_digit c) with true
    end;
    cbn iota;
    match goal with
    | |- context [scan_digits ?a _] =>
        match goal with
        | |- context [decimal_value ?b d] =>
            change a with b; destruct (IH b) as (k & -> & _)
        end
    end;
    (exists (S k); split; [reflexivity|discriminate]).
Qed.

Lemma decimal_value_of_uint_acc d : forall acc,
  Z.pos (Pos.of_uint_acc d acc) = decimal_value (Z.pos acc) d.
Proof.
  induction d; intros acc; cbn [Pos.of_uint_acc decimal_value];
    [reflexivity|rewrite IHd; f_equal; lia..].
Qed.

Lemma decimal_value_of_uint d : Z.of_N (Pos.of_uint d) = decimal_value 0 d.
Proof.
  induction d; cbn [Pos.of_uint decimal_value]; [reflexivity|exact IHd|..];
    cbn [Z.of_N]; rewrite decimal_value_of_uint_acc; reflexivity.
Qed.

(** An ASCII byte is its own rune. *)
Lemma DecodeRuneInString_ascii c s :
  byte_code c < 128 -> DecodeRuneInString (String c s) = (byte_code c, 1%nat).
Proof.
  intros Hc. unfold DecodeRuneInString, len, nth_byte, RuneSelf.
  cbn [String.length String.get].
  destruct (Z.ltb_spec (Z.of_nat (S (String.length s))) 1); [lia|].
  destruct (Z.ltb_spec (byte_code c) 128); [reflexivity|lia].
Qed.

(** The scanner skips nothing in front of a digit or a sign. *)
Lemma skip_blanks_keeps c s :
  NetURL.is_digit c || Ascii.eqb c "-" = true ->
  skip_blanks (String c s) = String c s.
Proof.
  intros Hc. unfold skip_blanks. cbn [String.length SkipSpace].
  rewrite DecodeRuneInString_ascii
    by (destruct c as [[] [] [] [] [] [] [] []]; vm_compute; try reflexivity;
        vm_compute in Hc; discriminate).
  destruct c as [[] [] [] [] [] [] [] []]; try reflexivity;
    vm_compute in Hc; discriminate.
Qed.

Lemma Sscanf_digits d (negative : bool) :
  d <> Decimal.Nil ->
  match scan_digits 0 (NilEmpty.string_of_uint d) return option Z with
  | (_, O) => None
  | (v, _) =>
      let n := if negative then - v else v in
      if (min_int64 <=? n) && (n <=? max_int64) then Some n else None
  end
  = let n := if negative then - decimal_value 0 d else decimal_value 0 d in
    if (min_int64 <=? n) && (n <=? max_int64) then Some n else None.
Proof.
  intros Hd. destruct (scan_digits_string_of_uint d 0) as (k & -> & Hk).
  destruct k; [now elim (Hk Hd)|reflexivity].
Qed.

Lemma Sscanf_d_plain c s :
  NetURL.is_digit c = true ->
  Sscanf_d (String c s)
  = match scan_digits 0 (String c s) return option Z with
    | (_, O) => None
    | (v, _) => if (min_int64 <=? v) && (v <=? max_int64) then Some v else None
    end.
Proof.
  intros Hdigit. unfold Sscanf_d.
  rewrite skip_blanks_keeps by (rewrite Hdigit; reflexivity).
  destruct c as [[] [] [] [] [] [] [] []]; try reflexivity; discriminate.
Qed.

Lemma string_of_uint_head d :
  d <> Decimal.Nil ->
  exists c s, NilEmpty.string_of_uint d = String c s /\ NetURL.is_digit c = true.
Proof.
  destruct d; [congruence|..]; intros _; eexists _, _;
    (split; [reflexivity|]); reflexivity.
Qed.

Lemma Sscanf_Sprintf k :
  min_int64 <= k <= max_int64 -> Sscanf_d (Sprintf_d k) = Some k.
Proof.
  intros Hk. unfold Sprintf_d. destruct k as [|p|p].
  - reflexivity.
  - cbn [Z.to_int NilZero.string_of_int].
    pose proof (Unsigned.to_uint_nonnil p) as Hnil.
    assert (Hs : NilZero.string_of_uint (Pos.to_uint p)
                 = NilEmpty.string_of_uint (Pos.to_uint p))
      by (destruct (Pos.to_uint p); [congruence|reflexivity..]).
    rewrite Hs.
    destruct (string_of_uint_head _ Hnil) as (c & s & Hstr & Hdigit).
    rewrite Hstr, (Sscanf_d_plain c s Hdigit), <- Hstr.
    pose proof (Sscanf_digits (Pos.to_uint p) false Hnil) as Hscan. cbv zeta in Hscan.
    rewrite Hscan, <- decimal_value_of_uint, DecimalPos.Unsigned.of_to. cbn [Z.of_N].
    destruct (Z.leb_spec min_int64 (Z.pos p)), (Z.leb_spec (Z.pos p) max_int64);
      try lia; reflexivity.
  - cbn [Z.to_int NilZero.string_of_int].
    pose proof (Unsigned.to_uint_nonnil p) as Hnil.
    assert (Hs : NilZero.string_of_uint (Pos.to_uint p)
                 = NilEmpty.string_of_uint (Pos.to_uint p))
      by (destruct (Pos.to_uint p); [congruence|reflexivity..]).
    rewrite Hs. unfold Sscanf_d.
    rewrite skip_blanks_keeps by reflexivity.
    pose proof (Sscanf_digits (Pos.to_uint p) true Hnil) as Hscan. cbv zeta in Hscan.
    rewrite Hscan, <- decimal_value_of_uint, DecimalPos.Unsigned.of_to. cbn [Z.of_N].
    change (- Z.pos p) with (Z.neg p).
    destruct (Z.leb_spec min_int64 (Z.neg p)), (Z.leb_spec (Z.neg p) max_int64);
      try lia; reflexivity.
Qed.

(** X17. What the limiter writes it reads back, and decides on. For every
    int64 [k] stored as the live counter in the decimal form that the limiter
    itself writes, with cache read and write working: below 100 the request
    is let through and [k + 1] is stored with a fresh 60-second TTL; from 100
    up to the largest int64 but one it is refused and nothing is written; and
    at the largest int64 the increment wraps around to the smallest, which is
    not above 100, so the request is let through and that negative number is
    stored. *)
Theorem limiter_decision_on_any_counter
    (f : Faults) (clientIP : string) (w : World) (k expiry : Z) :
  cache_get_fault f = None -> cache_set_fault f = None ->
  redis w !! rate_key clientIP = Some (Sprintf_d k, expiry) -> now w < expiry ->
  - 2 ^ 63 <= k <= 2 ^ 63 - 1 ->
  Sscanf_d (Sprintf_d k) = Some k
  /\ (k < 100 ->
      fst (RateLimitMiddleware f clientIP w) = Next
      /\ redis (snd (RateLimitMiddleware f clientIP w))
         = <[rate_key clientIP := (Sprintf_d (k + 1), now w + 60 * time_Second)]>
             (redis w))
  /\ (100 <= k < 2 ^ 63 - 1 ->
      fst (RateLimitMiddleware f clientIP w) = denied
      /\ redis (snd (RateLimitMiddleware f clientIP w)) = redis w)
  /\ (k = 2 ^ 63 - 1 ->
      fst (RateLimitMiddleware f clientIP w) = Next
      /\ redis (snd (RateLimitMiddleware f clientIP w))
         = <[rate_key clientIP := (Sprintf_d (- 2 ^ 63), now w + 60 * time_Second)]>
             (redis w)).
Proof.
  intros Hget Hset Hlook Hlive Hk.
  pose proof (Sscanf_Sprintf k Hk) as Hscan. split; [exact Hscan|].
  assert (Hrun : RateLimitMiddleware f clientIP w
                 = if 100 <? wrap_int (k + 1)
                   then (denied, record_call (Redis_Get (rate_key clientIP)) w)
                   else (Next,
                         set_redis (<[rate_key clientIP :=
                                        (Sprintf_d (wrap_int (k + 1)),
                                         now w + timeWindow)]> (redis w))
                           (record_call (Redis_Set (rate_key clientIP)
                                           (Sprintf_d (wrap_int (k + 1))) timeWindow)
                              (record_call (Redis_Get (rate_key clientIP)) w)))).
  { unfold RateLimitMiddleware. fold (rate_key clientIP).
    rewrite Hget, (RedisCache_Get_hit _ _ _ _ Hlook Hlive), Hscan, Hset.
    unfold maxRequests. destruct (100 <? wrap_int (k + 1)); reflexivity. }
  rewrite Hrun. split; [|split].
  - intros Hlt. rewrite wrap_int_small by (unfold min_int64, max_int64; lia).
    destruct (Z.ltb_spec 100 (k + 1)); [lia|]. split; reflexivity.
  - intros Hmid. rewrite wrap_int_small by (unfold min_int64, max_int64; lia).
    destruct (Z.ltb_spec 100 (k + 1)); [|lia]. split; reflexivity.
  - intros ->. change (wrap_int (2 ^ 63 - 1 + 1)) with (- 2 ^ 63).
    change (100 <? - 2 ^ 63) with false. split; reflexivity.
Qed.

Lemma limiter_decision_on_any_counter_witness :
  let w := set_now (30 * time_Second)
             (set_redis {[ rate_key "203.0.113.7" :=
                             ("9223372036854775807", 45 * time_Second) ]}
                empty_world) in
  fst (RateLimitMiddleware no_faults "203.0.113.7" w) = Next
  /\ redis (snd (RateLimitMiddleware no_faults "203.0.113.7" w))
       !! rate_key "203.0.113.7"
     = Some ("-9223372036854775808", 90 * time_Second).
Proof.
  intros w.
  destruct (limiter_decision_on_any_counter no_faults "203.0.113.7" w (2 ^ 63 - 1)
              (45 * time_Second)) as (_ & _ & _ & Hwrap).
  - reflexivity.
  - reflexivity.
  - reflexivity.
  - reflexivity.
  - vm_compute. split; discriminate.
  - destruct (Hwrap eq_refl) as [Hflow Hredis]. split; [exact Hflow|].
    rewrite Hredis. apply lookup_insert_eq.
Defined.

(** ** What the shorten handler tells the client *)

Lemma Contains_invalid_URL msg : Contains ("invalid URL: " +:+ msg) "invalid URL" = true.
Proof. reflexivity. Qed.

Lemma Contains_invalid_alias msg :
  Contains ("invalid custom alias: " +:+ msg) "invalid custom alias" = true.
Proof. reflexivity. Qed.

(** X18. The shorten handler answers 400 and passes the service's message
    on when the URL fails validation, when the custom alias fails validation,
    and when the alias is already taken at the existence check; it answers
    400 "Invalid request payload" when the body does not bind; and it answers
    500 with a fixed text when the existence check itself fails with a store
    error that contains none of the handler's three phrases. In none of these
    cases is anything inserted or cached. *)
Theorem shorten_handler_client_errors {U : Unicode}
    (f : Faults) (originalURL customAlias baseURLHeader : string) (w : World) :
  let req := Some {| Models.Req_URL := originalURL;
                     Models.Req_CustomAlias := customAlias |} in
  let r := URLHandler_ShortenURL f req baseURLHeader w in
  URLHandler_ShortenURL f None baseURLHeader w
  = (Some (JSON 400 (ErrorBody "Invalid request payload")), w)
  /\ (forall e, validateURL originalURL = Some e ->
        fst r = Some (JSON 400 (ErrorBody ("invalid URL: " +:+ Error e)))
        /\ pg (snd r) = pg w /\ redis (snd r) = redis w)
  /\ (forall e, validateURL originalURL = None -> customAlias <> "" ->
        validateCustomAlias customAlias = Some e ->
        fst r = Some (JSON 400 (ErrorBody ("invalid custom alias: " +:+ Error e)))
        /\ pg (snd r) = pg w /\ redis (snd r) = redis w)
  /\ (forall taken, validateURL originalURL = None ->
        validateCustomAlias customAlias = None -> exists_fault f = None ->
        find_url customAlias (pg w) = Some taken ->
        fst r = Some (JSON 400 (ErrorBody "custom alias already exists"))
        /\ pg (snd r) = pg w /\ redis (snd r) = redis w)
  /\ (forall msg, validateURL originalURL = None ->
        validateCustomAlias customAlias = None -> exists_fault f = Some msg ->
        Contains ("failed to check alias existence: " +:+ msg) "invalid URL"
        || Contains ("failed to check alias existence: " +:+ msg) "invalid custom alias"
        || Contains ("failed to check alias existence: " +:+ msg) "already exists"
        = false ->
        fst r = Some (JSON 500 (ErrorBody "Failed to create short URL"))
        /\ pg (snd r) = pg w /\ redis (snd r) = redis w).
Proof.
  intros req r. subst req r. split; [reflexivity|].
  unfold URLHandler_ShortenURL. cbn [Models.Req_URL Models.Req_CustomAlias].
  split; [|split; [|split]].
  - intros e Hurl. unfold ShortenURL. rewrite Hurl. cbn [Error wrap].
    rewrite Contains_invalid_URL. cbn. repeat split.
  - intros e Hurl Hne Halias. unfold ShortenURL. rewrite Hurl.
    destruct (validateURL_ok_normalizeURL _ Hurl) as [normalizedURL ->].
    destruct (String.eqb_spec customAlias ""); [contradiction|]. cbn [negb].
    rewrite Halias. cbn [Error wrap]. rewrite Contains_invalid_alias.
    rewrite Bool.orb_true_r. cbn. repeat split.
  - intros taken Hurl Halias Hex Hfind. unfold ShortenURL. rewrite Hurl.
    destruct (validateURL_ok_normalizeURL _ Hurl) as [normalizedURL ->].
    pose proof (validateCustomAlias_nonempty _ Halias).
    destruct (String.eqb_spec customAlias ""); [contradiction|]. cbn [negb].
    rewrite Halias, Hex. unfold URLRepository_Exists. cbn [pg record_call].
    rewrite Hfind. cbn. repeat split.
  - intros msg Hurl Halias Hex Hphrases. unfold ShortenURL. rewrite Hurl.
    destruct (validateURL_ok_normalizeURL _ Hurl) as [normalizedURL ->].
    pose proof (validateCustomAlias_nonempty _ Halias).
    destruct (String.eqb_spec customAlias ""); [contradiction|]. cbn [negb].
    rewrite Halias, Hex. unfold URLRepository_Exists. cbn [Error wrap].
    rewrite Hphrases. cbn. repeat split.
Qed.

(** ** Configuration *)

Lemma getEnv_nonempty env key defaultValue :
  defaultValue <> "" -> Config.getEnv env key defaultValue <> "".
Proof.
  intros Hd. unfold Config.getEnv.
  destruct (String.eqb_spec (Config.os_Getenv env key) ""); cbn [negb]; assumption.
Qed.

Lemma getEnv_empty_as_unset env key variable defaultValue :
  Config.getEnv (<[key := ""]> env) variable defaultValue
  = Config.getEnv (delete key env) variable defaultValue.
Proof.
  unfold Config.getEnv, Config.os_Getenv.
  destruct (decide (key = variable)) as [->|Hne].
  - now rewrite lookup_insert_eq, lookup_delete_eq.
  - now rewrite lookup_insert_ne, lookup_delete_ne.
Qed.

Lemma getEnv_insert env key value variable defaultValue :
  value <> "" ->
  Config.getEnv (<[key := value]> env) variable defaultValue
  = if String.eqb variable key then value
    else Config.getEnv env variable defaultValue.
Proof.
  intros Hvalue. unfold Config.getEnv, Config.os_Getenv.
  destruct (String.eqb_spec variable key) as [->|Hne].
  - rewrite lookup_insert_eq.
    destruct (String.eqb_spec value ""); [contradiction|reflexivity].
  - rewrite lookup_insert_ne by congruence. reflexivity.
Qed.

(** X19. How the configuration follows the environment. No field of the
    loaded configuration is ever empty, whatever the environment. A variable
    that is set to the empty string counts as not set: the configuration is
    the one loaded without the variable. Setting a variable to a non-empty
    value makes that value the field the variable stands for (PORT,
    ENVIRONMENT, DATABASE_URL, REDIS_URL, BASE_URL, in the order of the
    fields) and leaves each of the other four fields as it was; a variable of
    any other name changes nothing. With no variable set the fields are the
    five defaults. *)
Theorem getEnv_falls_back_on_empty (env : gmap string string) (key value : string) :
  let fields c :=
    [Config.Port c; Config.Environment c; Config.DatabaseURL c; Config.RedisURL c;
     Config.BaseURL c] in
  let variables := ["PORT"; "ENVIRONMENT"; "DATABASE_URL"; "REDIS_URL"; "BASE_URL"] in
  Forall (fun field => field <> "") (fields (Config.Load env))
  /\ Config.Load (<[key := ""]> env) = Config.Load (delete key env)
  /\ (value <> "" ->
      fields (Config.Load (<[key := value]> env))
      = map (fun '(variable, field) => if String.eqb variable key then value else field)
          (combine variables (fields (Config.Load env))))
  /\ fields (Config.Load ∅)
     = ["8080"; "development";
        "postgres://localhost:5432/urlshortener?sslmode=disable";
        "redis://localhost:6379"; "http://localhost:8080"].
Proof.
  intros fields variables. subst fields variables. cbv beta.
  split; [|split; [|split]].
  - unfold Config.Load.
    cbn [Config.Port Config.Environment Config.DatabaseURL Config.RedisURL
         Config.BaseURL].
    repeat constructor; apply getEnv_nonempty; discriminate.
  - unfold Config.Load. now rewrite !getEnv_empty_as_unset.
  - intros Hvalue. unfold Config.Load.
    cbn [Config.Port Config.Environment Config.DatabaseURL Config.RedisURL
         Config.BaseURL combine map].
    now rewrite !(getEnv_insert env key value _ _ Hvalue).
  - reflexivity.
Qed.

(** ** The health endpoint *)

(** X20. The health endpoint reports the database first: when the database
    check fails the answer is 503 "unhealthy" whether or not the cache
    answers; when the database answers and the cache ping fails it is 200
    "degraded"; when both answer it is 200 "healthy". Both checks are made in
    every case, the database first, and neither changes the database or the
    cache. *)
Theorem health_status_table (f : Faults) (srv : Server) :
  let r := URLHandler_HealthCheck f srv in
  fst r
  = Some (match db_ping_fault f, cache_ping_fault f with
          | Some _, _ => JSON 503 (HealthBody "unhealthy")
          | None, Some _ => JSON 200 (HealthBody "degraded")
          | None, None => JSON 200 (HealthBody "healthy")
          end)
  /\ calls (world (snd r)) = calls (world srv) ++ [SQL_Select1; Redis_Ping]
  /\ pg (world (snd r)) = pg (world srv)
  /\ redis (world (snd r)) = redis (world srv)
  /\ analyticsService (snd r) = analyticsService srv.
Proof.
  intros r. subst r.
  unfold URLHandler_HealthCheck, HealthCheck, CacheHealthCheck,
    URLRepository_HealthCheck, RedisCache_Ping.
  destruct (db_ping_fault f), (cache_ping_fault f); cbn; rewrite <- app_assoc;
    repeat split.
Qed.

(** ** The form of a stored URL *)






Lemma append_nil_left s : "" +:+ s = s.
Proof. reflexivity. Qed.







(** ** The urls table only grows *)

Lemma find_url_none_not_in shortCode p :
  find_url shortCode p = None -> ~ In shortCode (map Models.URL_ShortCode (urls p)).
Proof.
  unfold find_url. induction (urls p) as [|r rows IH]; cbn [List.find map In]; [tauto|].
  destruct (String.eqb_spec (Models.URL_ShortCode r) shortCode); [discriminate|].
  intros Hnone [Heq|Hin]; [contradiction|]. now apply IH.
Qed.

Lemma insert_url_grows u w :
  exists added,
    urls (snd (insert_url u w)) = urls (pg w) ++ added
    /\ (List.NoDup (map Models.URL_ShortCode (urls (pg w))) ->
        List.NoDup (map Models.URL_ShortCode (urls (snd (insert_url u w))))).
Proof.
  unfold insert_url. destruct (10 <? len (Models.URL_ShortCode u)).
  - exists []. cbn [snd]. now rewrite app_nil_r.
  - destruct (find_url (Models.URL_ShortCode u) (pg w)) eqn:Hfind; cbn [snd urls].
    + exists []. now rewrite app_nil_r.
    + eexists [_]. split; [reflexivity|]. intros Hnodup.
      rewrite List.map_app. cbn [map Models.URL_ShortCode].
      apply List.NoDup_app; [exact Hnodup|repeat constructor; cbn; tauto|].
      intros code Hin [<-|[]]. now apply (find_url_none_not_in _ _ Hfind).
Qed.

Lemma commit_concurrent_grows rows : forall w,
  exists added,
    urls (pg (commit_concurrent rows w)) = urls (pg w) ++ added
    /\ (List.NoDup (map Models.URL_ShortCode (urls (pg w))) ->
        List.NoDup (map Models.URL_ShortCode (urls (pg (commit_concurrent rows w))))).
Proof.
  unfold commit_concurrent.
  induction rows as [|r rows IH]; intros w; cbn [fold_left].
  - exists []. now rewrite app_nil_r.
  - destruct (insert_url_grows r w) as (a1 & Hu1 & Hn1).
    destruct (IH (set_pg (snd (insert_url r w)) w)) as (a2 & Hu2 & Hn2).
    cbn [pg set_pg] in Hu2, Hn2. exists (a1 ++ a2).
    rewrite Hu2, Hu1, <- app_assoc. split; [reflexivity|]. intros Hnodup.
    rewrite app_assoc, <- Hu1, <- Hu2. auto.
Qed.

Lemma URLRepository_Create_grows fault u w :
  exists added,
    urls (pg (snd (URLRepository_Create fault u w))) = urls (pg w) ++ added
    /\ (List.NoDup (map Models.URL_ShortCode (urls (pg w))) ->
        List.NoDup (map Models.URL_ShortCode
                      (urls (pg (snd (URLRepository_Create fault u w)))))).
Proof.
  unfold URLRepository_Create. destruct fault.
  - exists []. cbn. now rewrite app_nil_r.
  - destruct (insert_url_grows u (record_call (SQL_InsertURL (Models.URL_ShortCode u)) w))
      as (added & Hu & Hn).
    destruct (insert_url u _) as [[row|msg] p]; cbn [snd pg set_pg record_call] in *;
      exists added; split; assumption.
Qed.

Lemma ShortenURL_create_grows f shortCode normalizedURL isCustom w0 :
  exists added,
    urls (pg (snd
       match URLRepository_Create (create_fault f)
               {| Models.URL_ID := 0; Models.URL_ShortCode := shortCode;
                  Models.URL_OriginalURL := normalizedURL;
                  Models.URL_CustomAlias := isCustom;
                  Models.URL_CreatedAt := 0; Models.URL_ExpiresAt := None |}
               (commit_concurrent (concurrent_inserts f) w0) with
       | ((_, Some err), w) => (Err (wrap "failed to create URL: " err), w)
       | ((urlRecord, None), w) =>
           match RedisCache_Set (cache_set_fault f) shortCode normalizedURL w with
           | (Some err, w) =>
               (Ok urlRecord, log ("Failed to cache URL mapping: " +:+ Error err) w)
           | (None, w) => (Ok urlRecord, w)
           end
       end)) = urls (pg w0) ++ added
    /\ (List.NoDup (map Models.URL_ShortCode (urls (pg w0))) ->
        List.NoDup (map Models.URL_ShortCode (urls (pg (snd
       match URLRepository_Create (create_fault f)
               {| Models.URL_ID := 0; Models.URL_ShortCode := shortCode;
                  Models.URL_OriginalURL := normalizedURL;
                  Models.URL_CustomAlias := isCustom;
                  Models.URL_CreatedAt := 0; Models.URL_ExpiresAt := None |}
               (commit_concurrent (concurrent_inserts f) w0) with
       | ((_, Some err), w) => (Err (wrap "failed to create URL: " err), w)
       | ((urlRecord, None), w) =>
           match RedisCache_Set (cache_set_fault f) shortCode normalizedURL w with
           | (Some err, w) =>
               (Ok urlRecord, log ("Failed to cache URL mapping: " +:+ Error err) w)
           | (None, w) => (Ok urlRecord, w)
           end
       end))))).
Proof.
  destruct (commit_concurrent_grows (concurrent_inserts f) w0) as (a1 & Hu1 & Hn1).
  set (w1 := commit_concurrent (concurrent_inserts f) w0) in *.
  destruct (URLRepository_Create_grows (create_fault f)
              {| Models.URL_ID := 0; Models.URL_ShortCode := shortCode;
                 Models.URL_OriginalURL := normalizedURL;
                 Models.URL_CustomAlias := isCustom;
                 Models.URL_CreatedAt := 0; Models.URL_ExpiresAt := None |} w1)
    as (a2 & Hu2 & Hn2).
  assert (Hgoal : forall w3,
            pg w3 = pg (snd (URLRepository_Create (create_fault f)
                               {| Models.URL_ID := 0; Models.URL_ShortCode := shortCode;
                                  Models.URL_OriginalURL := normalizedURL;
                                  Models.URL_CustomAlias := isCustom;
                                  Models.URL_CreatedAt := 0;
                                  Models.URL_ExpiresAt := None |} w1)) ->
            urls (pg w3) = urls (pg w0) ++ (a1 ++ a2)
            /\ (List.NoDup (map Models.URL_ShortCode (urls (pg w0))) ->
                List.NoDup (map Models.URL_ShortCode (urls (pg w3))))).
  { intros w3 ->. rewrite Hu2, Hu1, <- app_assoc. split; [reflexivity|].
    intros Hnodup. rewrite app_assoc, <- Hu1, <- Hu2. auto. }
  exists (a1 ++ a2).
  destruct (URLRepository_Create _ _ w1) as [[row [err|]] w2]; cbn [snd] in *;
    [now apply Hgoal|].
  destruct (RedisCache_Set_frame (cache_set_fault f) shortCode normalizedURL w2)
    as (Hpg & _).
  destruct (RedisCache_Set _ _ _ w2) as [[err|] w3]; cbn [snd pg log] in *;
    now apply Hgoal.
Qed.

(** X22. Mappings are only ever added. Whatever its inputs and whatever the
    environment does, a ShortenURL call leaves every row of the urls table in
    place and unchanged, the rows after the call being the rows before it
    followed by the new ones, and if the codes were pairwise distinct before
    they are pairwise distinct after. GetOriginalURL and GetURLStats leave
    the whole database as it was. *)
Theorem urls_table_only_grows {U : Unicode}
    (f : Faults) (originalURL customAlias shortCode : string) (w : World) :
  (exists added,
     urls (pg (snd (ShortenURL f originalURL customAlias w))) = urls (pg w) ++ added
     /\ (List.NoDup (map Models.URL_ShortCode (urls (pg w))) ->
         List.NoDup (map Models.URL_ShortCode
                       (urls (pg (snd (ShortenURL f originalURL customAlias w)))))))
  /\ pg (snd (GetOriginalURL f shortCode w)) = pg w
  /\ pg (snd (GetURLStats f shortCode w)) = pg w.
Proof.
  assert (Hsame : forall w1 : World, pg w1 = pg w ->
            exists added, urls (pg w1) = urls (pg w) ++ added
              /\ (List.NoDup (map Models.URL_ShortCode (urls (pg w))) ->
                  List.NoDup (map Models.URL_ShortCode (urls (pg w1))))).
  { intros w1 ->. exists []. now rewrite app_nil_r. }
  split; [|split].
  - unfold ShortenURL.
    destruct (validateURL originalURL); [now apply Hsame|].
    destruct (normalizeURL originalURL) as [normalizedURL|]; [|now apply Hsame].
    destruct (negb (customAlias =? ""))%string.
    + destruct (validateCustomAlias customAlias); [now apply Hsame|].
      unfold URLRepository_Exists. destruct (exists_fault f); [now apply Hsame|].
      cbn [pg record_call]. destruct (find_url customAlias (pg w)); [now apply Hsame|].
      apply (ShortenURL_create_grows f customAlias normalizedURL true
               (record_call (SQL_Exists customAlias) w)).
    + unfold URLRepository_GetNextID. destruct (nextid_fault f); [now apply Hsame|].
      destruct (ShortenURL_create_grows f (encodeBase62 (url_id_sequence (pg w)))
                  normalizedURL false
                  (set_pg
                     {| urls := urls (pg (record_call SQL_Nextval w));
                        analytics := analytics (pg (record_call SQL_Nextval w));
                        url_id_sequence :=
                          url_id_sequence (pg (record_call SQL_Nextval w)) + 1;
                        urls_id_seq := urls_id_seq (pg (record_call SQL_Nextval w));
                        analytics_id_seq :=
                          analytics_id_seq (pg (record_call SQL_Nextval w)) |}
                     (record_call SQL_Nextval w)))
        as (added & Hu & Hn).
      exists added. split; [exact Hu|exact Hn].
  - unfold GetOriginalURL.
    destruct (RedisCache_Get (cache_get_fault f) shortCode w) as [[value [e|]] w1] eqn:Hget.
    + assert (Hpg1 : pg w1 = pg w).
      { unfold RedisCache_Get in Hget. destruct (cache_get_fault f);
          [now injection Hget as _ _ <-|].
        cbn [redis now record_call] in Hget.
        destruct (redis w !! shortCode) as [[v x]|]; [destruct (now w <? x)|];
          now injection Hget as _ _ <-. }
      unfold URLRepository_GetByShortCode.
      destruct (select_fault f); [destruct (is_redis_Nil e); exact Hpg1|].
      assert (Hlog : pg (if is_redis_Nil e then w1
                         else log ("Cache error: " +:+ Error e) w1) = pg w)
        by (destruct (is_redis_Nil e); exact Hpg1).
      set (w2 := if is_redis_Nil e then w1 else _) in *.
      cbn [pg record_call].
      destruct (find_url shortCode (pg w2)) as [row|]; [|exact Hlog].
      destruct (RedisCache_Set_frame (cache_set_fault f) shortCode
                  (Models.URL_OriginalURL row) (record_call (SQL_SelectURL shortCode) w2))
        as (Hpg & _).
      destruct (RedisCache_Set _ _ _ _) as [[err|] w3]; cbn [snd pg log] in *;
        now rewrite Hpg.
    + unfold RedisCache_Get in Hget. destruct (cache_get_fault f); [discriminate|].
      cbn [redis now record_call] in Hget.
      destruct (redis w !! shortCode) as [[v x]|]; [destruct (now w <? x)|];
        try discriminate. now injection Hget as _ <-.
  - unfold GetURLStats, URLRepository_GetStats.
    destruct (select_fault f); [reflexivity|]. cbn [pg record_call].
    destruct (find_url shortCode (pg w)); reflexivity.
Qed.

(** ** Resolving while the store is down *)

Lemma Contains_not_found_skip c s :
  c <> "n"%char ->
  Contains (String c s) "not found" = Contains s "not found".
Proof.
  intros Hc. unfold Contains, Index. cbn [String.index String.prefix].
  destruct (ascii_dec "n" c) as [Heq|_]; [now subst c|].
  destruct (String.index 0 "not found" s); reflexivity.
Qed.

Lemma Contains_not_found_wrapped msg :
  Contains ("failed to get URL: " +:+ msg) "not found" = Contains msg "not found".
Proof.
  rewrite !append_cons, append_nil_left.
  rewrite !Contains_not_found_skip by discriminate. reflexivity.
Qed.

(** X23. Resolving while the store's SELECT fails with driver message msg.
    A live cache entry hides the outage: the redirect is answered 301 from
    the cache and no SQL is issued. Without a live entry the handler answers
    500 "Failed to retrieve URL", except that a driver message containing
    the words "not found" is reported as 404 "Short URL not found"; either
    way no click is queued and the cache is left as it was. *)
Theorem resolve_during_store_outage
    (net_ParseIP : string -> bool) (f : Faults) (req : Request) (shortCode msg : string)
    (srv : Server) :
  shortCode <> "" ->
  select_fault f = Some msg ->
  (forall value expiry,
     cache_get_fault f = None ->
     redis (world srv) !! shortCode = Some (value, expiry) ->
     now (world srv) < expiry ->
     fst (URLHandler_RedirectURL net_ParseIP f req shortCode srv)
     = Some (Redirect 301 value)
     /\ List.filter is_sql
          (calls (world (snd (URLHandler_RedirectURL net_ParseIP f req shortCode srv))))
        = List.filter is_sql (calls (world srv)))
  /\ (cache_hit f shortCode (world srv) = false ->
      fst (URLHandler_RedirectURL net_ParseIP f req shortCode srv)
      = Some (if Contains msg "not found"
              then JSON 404 (ErrorBody "Short URL not found")
              else JSON 500 (ErrorBody "Failed to retrieve URL"))
      /\ analyticsService (snd (URLHandler_RedirectURL net_ParseIP f req shortCode srv))
         = analyticsService srv
      /\ redis (world (snd (URLHandler_RedirectURL net_ParseIP f req shortCode srv)))
         = redis (world srv)).
Proof.
  intros Hne Hsel. split.
  - intros value expiry Hf Hlook Hlive. unfold URLHandler_RedirectURL.
    destruct (String.eqb_spec shortCode ""); [contradiction|].
    rewrite (GetOriginalURL_hit f shortCode (world srv) value expiry Hf Hlook Hlive).
    cbv zeta.
    pose proof (RecordClickAsync_world net_ParseIP shortCode
                  (URLHandler_getClientIP (XForwardedFor req) (XRealIP req) (ClientIP req))
                  (UserAgent req) (analyticsService srv)
                  (record_call (Redis_Get shortCode) (world srv))) as Hframe.
    cbv zeta in Hframe. destruct Hframe as (_ & _ & _ & Hframe & _).
    destruct (RecordClickAsync _ _ _ _ _ _) as [svc w1]. cbn [fst snd world] in *.
    split; [reflexivity|]. rewrite Hframe. cbn [calls record_call].
    rewrite List.filter_app. cbn. now rewrite app_nil_r.
  - intros Hmiss. set (w := world srv) in *.
    assert (Hget : exists e,
               RedisCache_Get (cache_get_fault f) shortCode w
               = (("", Some e), record_call (Redis_Get shortCode) w)).
    { unfold cache_hit in Hmiss.
      destruct (cache_get_fault f) as [m|]; [eexists; apply RedisCache_Get_fault|].
      destruct (redis w !! shortCode) as [[value expiry]|] eqn:Hlook.
      - exists redis_Nil. eapply RedisCache_Get_expired; [exact Hlook|].
        apply Z.ltb_ge. exact Hmiss.
      - exists redis_Nil. now apply RedisCache_Get_absent. }
    destruct Hget as [e Hget].
    assert (Hrun : exists w1,
               GetOriginalURL f shortCode w
               = (Err (errorString ("failed to get URL: " +:+ msg)), w1)
               /\ redis w1 = redis w).
    { unfold GetOriginalURL. rewrite Hget, Hsel. unfold URLRepository_GetByShortCode.
      destruct (is_redis_Nil e); eexists; split; reflexivity. }
    destruct Hrun as (w1 & Hrun & Hredis).
    unfold URLHandler_RedirectURL.
    destruct (String.eqb_spec shortCode ""); [contradiction|].
    fold w. rewrite Hrun. cbn [Error]. rewrite Contains_not_found_wrapped.
    destruct (Contains msg "not found"); cbn [fst snd with_world world analyticsService];
      repeat split; exact Hredis.
Qed.

Lemma resolve_during_store_outage_witness :
  let f := {| exists_fault := None; nextid_fault := None; create_fault := None;
              select_fault := Some "pq: relation urls not found";
              cache_get_fault := None; cache_set_fault := None;
              db_ping_fault := None; cache_ping_fault := None;
              concurrent_inserts := [] |} in
  fst (URLHandler_RedirectURL (fun _ => true) f
         {| Method := "GET"; Path := "/3d7"; ClientIP := "203.0.113.7";
            XForwardedFor := ""; XRealIP := ""; UserAgent := "curl/8.5.0";
            XBaseURL := ""; Payload := None |} "3d7"
         {| world := empty_world; analyticsService := NewAnalyticsService |})
  = Some (JSON 404 (ErrorBody "Short URL not found")).
Proof.
  cbv zeta.
  apply (resolve_during_store_outage (fun _ => true) _ _ "3d7"
           "pq: relation urls not found"
           {| world := empty_world; analyticsService := NewAnalyticsService |});
    [discriminate|reflexivity|reflexivity].
Defined.
